(** * Multi-tenant complaint management: lifecycle, role gates and audit trail

    A shallow embedding of [core/models.py], [core/decorators.py],
    [core/forms.py] and [core/views.py] of the complaint management
    system.  The persisted store (tenants, users, complaints, audit log) is
    an explicit value threaded through every view; a view takes a request
    and the store and returns the HTTP response, the flash messages it
    queued and the new store. *)

From Stdlib Require Import String Ascii.
From stdpp Require Import base option list gmap sorting.

Open Scope string_scope.

(** ** models.py *)

Module Tenant.
Record t := mk {
  id : nat;
  name : string;
  slug : string;
  is_active : bool;
}.
End Tenant.

(** [UserProfile.ROLE_*].  The [role] column is a [CharField] restricted to
    [ROLE_CHOICES]; the stored string is [role_value]. *)
Inductive Role := ROLE_CONSUMER | ROLE_HELPDESK | ROLE_SUPPORT | ROLE_MANAGER | ROLE_ADMIN.

Definition role_value (r : Role) : string :=
  match r with
  | ROLE_CONSUMER => "consumer"
  | ROLE_HELPDESK => "helpdesk"
  | ROLE_SUPPORT => "support"
  | ROLE_MANAGER => "manager"
  | ROLE_ADMIN => "admin"
  end.

Module UserProfile.
Record t := mk {
  tenant : nat;              (* ForeignKey(Tenant) *)
  role : Role;
}.

Definition is_consumer (self : t) : bool :=
  String.eqb (role_value (role self)) (role_value ROLE_CONSUMER).
Definition is_helpdesk (self : t) : bool :=
  String.eqb (role_value (role self)) (role_value ROLE_HELPDESK).
Definition is_support (self : t) : bool :=
  String.eqb (role_value (role self)) (role_value ROLE_SUPPORT).
Definition is_manager (self : t) : bool :=
  String.eqb (role_value (role self)) (role_value ROLE_MANAGER).
Definition is_admin (self : t) : bool :=
  String.eqb (role_value (role self)) (role_value ROLE_ADMIN).

(** Returns True if user is helpdesk, support, manager, or admin. *)
Definition is_staff_member (self : t) : bool :=
  existsb (String.eqb (role_value (role self)))
    [role_value ROLE_HELPDESK; role_value ROLE_SUPPORT;
     role_value ROLE_MANAGER; role_value ROLE_ADMIN].
End UserProfile.

(** A [django.contrib.auth] user.  [profile] is the reverse side of the
    one-to-one field of [UserProfile]; [hasattr(user, 'profile')] is
    [is_Some (profile u)]. *)
Module User.
Record t := mk {
  id : nat;
  username : string;
  profile : option UserProfile.t;
}.
End User.

(** [Complaint.STATUS_*] and [Complaint.PRIORITY_*]. *)
Inductive Status := STATUS_OPEN | STATUS_IN_PROGRESS | STATUS_RESOLVED | STATUS_CLOSED.
Inductive Priority := PRIORITY_LOW | PRIORITY_MEDIUM | PRIORITY_HIGH.

Definition status_value (s : Status) : string :=
  match s with
  | STATUS_OPEN => "open"
  | STATUS_IN_PROGRESS => "in_progress"
  | STATUS_RESOLVED => "resolved"
  | STATUS_CLOSED => "closed"
  end.

Definition STATUS_CHOICES : list (Status * string) :=
  [(STATUS_OPEN, "Open"); (STATUS_IN_PROGRESS, "In Progress");
   (STATUS_RESOLVED, "Resolved"); (STATUS_CLOSED, "Closed")].

Definition priority_value (p : Priority) : string :=
  match p with
  | PRIORITY_LOW => "low"
  | PRIORITY_MEDIUM => "medium"
  | PRIORITY_HIGH => "high"
  end.

Definition PRIORITY_CHOICES : list (Priority * string) :=
  [(PRIORITY_LOW, "Low"); (PRIORITY_MEDIUM, "Medium"); (PRIORITY_HIGH, "High")].

#[global] Instance Role_eq_dec : EqDecision Role.
Proof. solve_decision. Defined.
#[global] Instance Status_eq_dec : EqDecision Status.
Proof. solve_decision. Defined.
#[global] Instance Priority_eq_dec : EqDecision Priority.
Proof. solve_decision. Defined.

Definition status_eqb (a b : Status) : bool := String.eqb (status_value a) (status_value b).

(** [str.upper()] on the ASCII range (a slug holds ASCII letters, digits,
    hyphens and underscores; [str(uuid4())] holds hex digits and hyphens). *)
Definition upper_ascii (c : ascii) : ascii :=
  let n := nat_of_ascii c in
  if (97 <=? n)%nat && (n <=? 122)%nat then ascii_of_nat (n - 32) else c.

Fixpoint upper (s : string) : string :=
  match s with
  | EmptyString => EmptyString
  | String c s' => String (upper_ascii c) (upper s')
  end.

Module Complaint.
Record t := mk {
  tenant : nat;                     (* ForeignKey(Tenant) *)
  reference_number : string;
  title : string;
  description : string;
  category : string;
  priority : Priority;
  status : Status;
  submitted_by : option nat;        (* ForeignKey(User, null=True) *)
  logged_by : option nat;
  assigned_to : option nat;
  resolution_notes : string;
  created_at : nat;
  updated_at : nat;
  resolved_at : option nat;
  closed_at : option nat;
}.

Definition set_status (s : Status) (self : t) : t :=
  mk (tenant self) (reference_number self) (title self) (description self)
     (category self) (priority self) s (submitted_by self) (logged_by self)
     (assigned_to self) (resolution_notes self) (created_at self)
     (updated_at self) (resolved_at self) (closed_at self).

Definition set_assigned_to (u : option nat) (self : t) : t :=
  mk (tenant self) (reference_number self) (title self) (description self)
     (category self) (priority self) (status self) (submitted_by self)
     (logged_by self) u (resolution_notes self) (created_at self)
     (updated_at self) (resolved_at self) (closed_at self).

Definition set_resolution_notes (n : string) (self : t) : t :=
  mk (tenant self) (reference_number self) (title self) (description self)
     (category self) (priority self) (status self) (submitted_by self)
     (logged_by self) (assigned_to self) n (created_at self)
     (updated_at self) (resolved_at self) (closed_at self).

(** Generate a unique reference number for the complaint.  [slug] is
    [self.tenant.slug] ([None] when the complaint has no tenant) and
    [uuid4] the text of a fresh [uuid.uuid4()]. *)
Definition _generate_reference_number (slug : option string) (uuid4 : string) : string :=
  let prefix := match slug with
                | Some s => substring 0 3 (upper s)
                | None => "CMP"
                end in
  let unique_id := upper (substring 0 8 uuid4) in
  prefix ++ "-" ++ unique_id.

(** The body of [Complaint.save] up to [super().save()]: the in-memory
    changes made to [self].  [now] is [timezone.now()].  [updated_at] has
    [auto_now=True], so the model layer refreshes it on every save. *)
Definition save (slug : option string) (uuid4 : string) (now : nat) (self : t) : t :=
  let reference_number' :=
    if String.eqb (reference_number self) ""
    then _generate_reference_number slug uuid4
    else reference_number self in
  let resolved_at' :=
    if status_eqb (status self) STATUS_RESOLVED && bool_decide (resolved_at self = None)
    then Some now else resolved_at self in
  let closed_at' :=
    if status_eqb (status self) STATUS_CLOSED && bool_decide (closed_at self = None)
    then Some now else closed_at self in
  mk (tenant self) reference_number' (title self) (description self)
     (category self) (priority self) (status self) (submitted_by self)
     (logged_by self) (assigned_to self) (resolution_notes self)
     (created_at self) now resolved_at' closed_at'.

(** Check if status transition is valid. *)
Definition valid_transitions (s : Status) : list Status :=
  match s with
  | STATUS_OPEN => [STATUS_IN_PROGRESS]
  | STATUS_IN_PROGRESS => [STATUS_RESOLVED; STATUS_OPEN]
  | STATUS_RESOLVED => [STATUS_CLOSED; STATUS_IN_PROGRESS]
  | STATUS_CLOSED => []
  end.

Definition can_update_status (self : t) (new_status : Status) : bool :=
  existsb (status_eqb new_status) (valid_transitions (status self)).
End Complaint.

Inductive Action :=
  ACTION_CREATED | ACTION_STATUS_CHANGE | ACTION_ASSIGNED
| ACTION_RESOLUTION_ADDED | ACTION_CLOSED.

#[global] Instance Action_eq_dec : EqDecision Action.
Proof. solve_decision. Defined.

Module AuditLog.
Record t := mk {
  tenant : nat;
  complaint : nat;                  (* ForeignKey(Complaint): its pk *)
  user : option nat;                (* ForeignKey(User, null=True) *)
  action : Action;
  details : string;
  old_value : string;
  new_value : string;
  created_at : nat;
}.
End AuditLog.

(** ** The persisted store *)

Record DB := mkDB {
  tenants : gmap nat Tenant.t;
  users : gmap nat User.t;
  complaints : gmap nat Complaint.t;     (* keyed by pk *)
  audit_logs : list AuditLog.t;          (* ordering = ['-created_at']: newest first *)
  next_pk : nat;                         (* the AutoField sequence of Complaint *)
}.

Definition set_complaints (m : gmap nat Complaint.t) (db : DB) : DB :=
  mkDB (tenants db) (users db) m (audit_logs db) (next_pk db).

(** [complaint.save()] on a row that already has a pk: run the model's
    [save] and write the row back. *)
Definition save_existing (uuid4 : string) (now : nat) (pk : nat)
    (c : Complaint.t) (db : DB) : Complaint.t * DB :=
  let c' := Complaint.save (Tenant.slug <$> tenants db !! Complaint.tenant c) uuid4 now c in
  (c', set_complaints (<[pk := c']> (complaints db)) db).

(** [complaint.save()] on a fresh instance: [created_at] has
    [auto_now_add=True], the pk comes from the sequence. *)
Definition save_new (uuid4 : string) (now : nat) (c : Complaint.t) (db : DB)
    : nat * Complaint.t * DB :=
  let c0 := Complaint.save (Tenant.slug <$> tenants db !! Complaint.tenant c) uuid4 now c in
  let c' := Complaint.mk (Complaint.tenant c0) (Complaint.reference_number c0)
              (Complaint.title c0) (Complaint.description c0) (Complaint.category c0)
              (Complaint.priority c0) (Complaint.status c0) (Complaint.submitted_by c0)
              (Complaint.logged_by c0) (Complaint.assigned_to c0)
              (Complaint.resolution_notes c0) now (Complaint.updated_at c0)
              (Complaint.resolved_at c0) (Complaint.closed_at c0) in
  let pk := next_pk db in
  (pk, c', mkDB (tenants db) (users db) (<[pk := c']> (complaints db))
             (audit_logs db) (S pk)).

(** ** Requests and responses *)

Inductive Method := GET | POST.

(** The fields of [request.POST] that the forms read.  Model-choice fields
    arrive as the pk of the chosen row. *)
Record PostData := mkPost {
  post_status : option string;
  post_assigned_to : option nat;
  post_resolution_notes : option string;
  post_title : option string;
  post_description : option string;
  post_category : option string;
  post_priority : option string;
  post_submitted_by : option nat;
}.

Record Request := mkRequest {
  user : option User.t;          (* [None] is the anonymous user *)
  method : Method;
  POST_data : PostData;
  now : nat;                     (* timezone.now() during this request *)
  uuid4 : string;                (* str(uuid.uuid4()) during this request *)
}.

Inductive Context :=
| DetailContext (complaint : Complaint.t) (audit : list AuditLog.t)
    (support_staff : list User.t)
    (can_assign can_update_status can_add_resolution can_close : bool)
| CloseConfirmContext (complaint : Complaint.t)
| FormContext (title : string).

Inductive HttpResponse :=
| Redirect (to : string) (pk : option nat)
| HttpResponseForbidden (content : string)
| Http404
| Render (template : string) (context : Context)
| ServerError.                   (* an uncaught exception *)

Inductive Level := SUCCESS | ERROR.

Record Outcome := mkOutcome {
  response : HttpResponse;
  messages : list (Level * string);
  db_after : DB;
}.

Definition View := Request -> nat -> DB -> Outcome.

Definition reply (r : HttpResponse) (db : DB) : Outcome := mkOutcome r [] db.

(** ** decorators.py *)

(** [django.contrib.auth.decorators.login_required]. *)
Definition login_required (view_func : View) : View :=
  fun request pk db =>
    match user request with
    | None => reply (Redirect "login" None) db
    | Some _ => view_func request pk db
    end.

(** Decorator to restrict view access based on user role. *)
Definition role_required (allowed_roles : list string) (view_func : View) : View :=
  fun request pk db =>
    match user request with
    | None => reply (HttpResponseForbidden "Authentication required.") db
    | Some u =>
        match User.profile u with
        | None => reply (HttpResponseForbidden "User profile not configured.") db
        | Some profile =>
            let user_role := role_value (UserProfile.role profile) in
            if negb (existsb (String.eqb user_role) allowed_roles)
            then reply (HttpResponseForbidden
                          "You do not have permission to perform this action.") db
            else view_func request pk db
        end
    end.

(** ** forms.py *)

(** [str.strip()] on ASCII white space, as [forms.CharField] applies it. *)
Definition is_space (c : ascii) : bool :=
  let n := nat_of_ascii c in
  ((9 <=? n)%nat && (n <=? 13)%nat) || ((28 <=? n)%nat && (n <=? 32)%nat).

Fixpoint lstrip (s : string) : string :=
  match s with
  | EmptyString => EmptyString
  | String c s' => if is_space c then lstrip s' else s
  end.

Fixpoint rev_string (s acc : string) : string :=
  match s with
  | EmptyString => acc
  | String c s' => rev_string s' (String c acc)
  end.

Definition strip (s : string) : string :=
  rev_string (lstrip (rev_string (lstrip s) "")) "".

(** A required [forms.CharField]: strip, then reject the empty value. *)
Definition clean_required_text (v : option string) : option string :=
  match v with
  | None => None
  | Some s => let s' := strip s in if String.eqb s' "" then None else Some s'
  end.

(** An optional [forms.CharField]: strip; the empty value is kept. *)
Definition clean_optional_text (v : option string) : string :=
  match v with
  | None => ""
  | Some s => strip s
  end.

(** A choice field over [STATUS_CHOICES]: the posted value has to be the
    stored value of one of the choices. *)
Definition clean_status (v : option string) : option Status :=
  match v with
  | None => None
  | Some s => fst <$> List.find (fun ch => String.eqb (status_value (fst ch)) s) STATUS_CHOICES
  end.

Definition clean_priority (v : option string) : option Priority :=
  match v with
  | None => None
  | Some s => fst <$> List.find (fun ch => String.eqb (priority_value (fst ch)) s) PRIORITY_CHOICES
  end.

Definition get_status_display (s : Status) : string :=
  match List.find (fun ch => status_eqb (fst ch) s) STATUS_CHOICES with
  | Some ch => snd ch
  | None => status_value s
  end.

(** [User.objects.filter(profile__tenant=tenant, profile__role__in=roles)]. *)
Definition users_with_role (db : DB) (tenant : nat) (roles : list Role) : list User.t :=
  List.filter
    (fun u => match User.profile u with
              | Some p => Nat.eqb (UserProfile.tenant p) tenant
                          && existsb (fun r => String.eqb (role_value (UserProfile.role p))
                                                          (role_value r)) roles
              | None => false
              end)
    (snd <$> map_to_list (users db)).

(** A [ModelChoiceField] over [queryset]: the posted pk has to be the id of a
    user of the queryset. *)
Definition clean_user_choice (queryset : list User.t) (pk : nat) : option User.t :=
  List.find (fun u => Nat.eqb (User.id u) pk) queryset.

(** Form for assigning complaints to support staff: [assigned_to] is
    required and ranges over the support staff and managers of [tenant]. *)
Definition AssignmentForm (post : PostData) (tenant : nat) (db : DB) : option User.t :=
  match post_assigned_to post with
  | None => None
  | Some pk =>
      clean_user_choice (users_with_role db tenant [ROLE_SUPPORT; ROLE_MANAGER]) pk
  end.

(** Form for adding resolution notes: one required text field. *)
Definition ResolutionForm (post : PostData) : option string :=
  clean_required_text (post_resolution_notes post).

(** Form for creating complaints, [form.save(commit=False)] included: the
    result is the unsaved instance.  [title] is required and at most 255
    characters, [description] is required, [category] optional and at most
    100 characters, [priority] one of [PRIORITY_CHOICES]; for a consumer the
    field [submitted_by] is deleted, otherwise it is optional and ranges over
    the consumers of the user's tenant. *)
Definition ComplaintForm (post : PostData) (profile : UserProfile.t) (db : DB)
    : option Complaint.t :=
  match clean_required_text (post_title post),
        clean_required_text (post_description post),
        clean_priority (post_priority post) with
  | Some title, Some description, Some priority =>
      let category := clean_optional_text (post_category post) in
      if negb (String.length title <=? 255)%nat || negb (String.length category <=? 100)%nat
      then None
      else
        let fresh submitted_by :=
          Complaint.mk 0 "" title description category priority STATUS_OPEN
            submitted_by None None "" 0 0 None None in
        if UserProfile.is_consumer profile then Some (fresh None)
        else
          match post_submitted_by post with
          | None => Some (fresh None)
          | Some pk =>
              match clean_user_choice
                      (users_with_role db (UserProfile.tenant profile) [ROLE_CONSUMER]) pk with
              | Some u => Some (fresh (Some (User.id u)))
              | None => None
              end
          end
  | _, _, _ => None
  end.

(** ** views.py *)

(** Helper function to create audit log entries.  [pk] is [complaint.pk]. *)
Definition create_audit_log (pk : nat) (complaint : Complaint.t) (user : User.t)
    (action : Action) (details old_value new_value : string) (now : nat) (db : DB) : DB :=
  mkDB (tenants db) (users db) (complaints db)
       (AuditLog.mk (Complaint.tenant complaint) pk (Some (User.id user)) action
                    details old_value new_value now :: audit_logs db)
       (next_pk db).

(** [get_object_or_404(Complaint, pk=pk, tenant=tenant)]; [None] is the
    raised [Http404]. *)
Definition get_object_or_404 (db : DB) (pk : nat) (tenant : nat) : option Complaint.t :=
  match complaints db !! pk with
  | Some c => if Nat.eqb (Complaint.tenant c) tenant then Some c else None
  | None => None
  end.

(** [complaint.submitted_by != request.user]: model instances compare by pk. *)
Definition submitted_by_is (complaint : Complaint.t) (u : User.t) : bool :=
  bool_decide (Complaint.submitted_by complaint = Some (User.id u)).

Definition username_or_unassigned (db : DB) (uid : option nat) : string :=
  match uid ≫= (fun i => users db !! i) with
  | Some u => User.username u
  | None => "Unassigned"
  end.

Definition to_detail (pk : nat) : HttpResponse := Redirect "complaint_detail" (Some pk).

(** View complaint details.  Includes complaint history (audit log). *)
Definition complaint_detail : View :=
  login_required (fun request pk db =>
    match user request with
    | None => reply ServerError db
    | Some u =>
        match User.profile u with
        | None => reply (Redirect "dashboard" None) db
        | Some profile =>
            match get_object_or_404 db pk (UserProfile.tenant profile) with
            | None => reply Http404 db
            | Some complaint =>
                if UserProfile.is_consumer profile && negb (submitted_by_is complaint u)
                then reply (HttpResponseForbidden
                              "You do not have permission to view this complaint.") db
                else
                  let audit := take 20 (List.filter
                                 (fun e => Nat.eqb (AuditLog.complaint e) pk) (audit_logs db)) in
                  let support_staff :=
                    users_with_role db (UserProfile.tenant profile)
                      [ROLE_SUPPORT; ROLE_MANAGER] in
                  reply (Render "core/complaint_detail.html"
                           (DetailContext complaint audit support_staff
                              (UserProfile.is_helpdesk profile || UserProfile.is_manager profile
                               || UserProfile.is_admin profile)
                              (UserProfile.is_staff_member profile)
                              (UserProfile.is_support profile || UserProfile.is_manager profile)
                              (UserProfile.is_consumer profile && submitted_by_is complaint u)))
                        db
            end
        end
    end).

(** Create a new complaint.  Consumers create for themselves.  Help desk can
    create on behalf of consumers.  The url has no pk, so [login_required]
    is written out as the first case. *)
Definition complaint_create (request : Request) (db : DB) : Outcome :=
  match user request with
  | None => reply (Redirect "login" None) db
  | Some u =>
      match User.profile u with
      | None => reply (Redirect "dashboard" None) db
      | Some profile =>
          let form_page := Render "core/complaint_form.html" (FormContext "Submit New Complaint") in
          match method request with
          | POST =>
              match ComplaintForm (POST_data request) profile db with
              | Some c =>
                  let with_people :=
                    if UserProfile.is_consumer profile
                    then (Some (User.id u), Complaint.logged_by c)
                    else (Complaint.submitted_by c, Some (User.id u)) in
                  let complaint :=
                    Complaint.mk (UserProfile.tenant profile) (Complaint.reference_number c)
                      (Complaint.title c) (Complaint.description c) (Complaint.category c)
                      (Complaint.priority c) (Complaint.status c) (fst with_people)
                      (snd with_people) (Complaint.assigned_to c)
                      (Complaint.resolution_notes c) (Complaint.created_at c)
                      (Complaint.updated_at c) (Complaint.resolved_at c)
                      (Complaint.closed_at c) in
                  let '(pk, complaint, db) := save_new (uuid4 request) (now request) complaint db in
                  let db := create_audit_log pk complaint u ACTION_CREATED
                              ("Complaint created: " ++ Complaint.title complaint) "" ""
                              (now request) db in
                  mkOutcome (to_detail pk)
                    [(SUCCESS, "Complaint " ++ Complaint.reference_number complaint
                               ++ " created successfully.")]
                    db
              | None => reply form_page db
              end
          | GET => reply form_page db
          end
      end
  end.

Section StatusForm.

(** [ComplaintStatusForm] is a [ModelForm] that the view binds to the
    loaded complaint ([instance=complaint]).  Model-form validation in
    Django ([BaseModelForm._post_clean], through [construct_instance])
    stores the cleaned [status] in that instance before [is_valid()]
    returns.  The form library is not part of the repository, so the view
    takes this as a parameter: [true] is a form that writes the cleaned
    value to its instance, as Django's does, [false] one that leaves the
    instance as loaded.  The results below hold for both. *)
Variable construct_instance : bool.

(** Form for updating complaint status: [is_valid()], with
    [cleaned_data['status']] and the instance as the view sees it
    afterwards. *)
Definition ComplaintStatusForm (post : PostData) (instance : Complaint.t)
    : option (Status * Complaint.t) :=
  match clean_status (post_status post) with
  | Some s => Some (s, if construct_instance then Complaint.set_status s instance
                       else instance)
  | None => None
  end.

(** Update complaint status (staff only). *)
Definition complaint_update_status : View :=
  login_required (role_required ["helpdesk"; "support"; "manager"; "admin"]
    (fun request pk db =>
      match user request with
      | None => reply ServerError db
      | Some u =>
          match User.profile u with
          | None => reply ServerError db
          | Some profile =>
              match get_object_or_404 db pk (UserProfile.tenant profile) with
              | None => reply Http404 db
              | Some complaint =>
                  match method request with
                  | POST =>
                      match ComplaintStatusForm (POST_data request) complaint with
                      | Some (new_status, complaint) =>
                          let old_status := Complaint.status complaint in
                          if Complaint.can_update_status complaint new_status
                             || UserProfile.is_admin profile
                          then
                            let complaint := Complaint.set_status new_status complaint in
                            let '(complaint, db) :=
                              save_existing (uuid4 request) (now request) pk complaint db in
                            let db :=
                              create_audit_log pk complaint u ACTION_STATUS_CHANGE
                                ("Status changed from " ++ status_value old_status
                                 ++ " to " ++ status_value new_status)
                                (status_value old_status) (status_value new_status)
                                (now request) db in
                            mkOutcome (to_detail pk)
                              [(SUCCESS, "Status updated to "
                                         ++ get_status_display (Complaint.status complaint)
                                         ++ ".")]
                              db
                          else
                            mkOutcome (to_detail pk)
                              [(ERROR, "Invalid status transition.")] db
                      | None => reply (to_detail pk) db
                      end
                  | GET => reply (to_detail pk) db
                  end
              end
          end
      end)).

End StatusForm.

(** Assign complaint to support staff. *)
Definition complaint_assign : View :=
  login_required (role_required ["helpdesk"; "manager"; "admin"]
    (fun request pk db =>
      match user request with
      | None => reply ServerError db
      | Some u =>
          match User.profile u with
          | None => reply ServerError db
          | Some profile =>
              match get_object_or_404 db pk (UserProfile.tenant profile) with
              | None => reply Http404 db
              | Some complaint =>
                  match method request with
                  | POST =>
                      match AssignmentForm (POST_data request) (UserProfile.tenant profile) db with
                      | Some new_assigned =>
                          let old_assigned := Complaint.assigned_to complaint in
                          let complaint :=
                            Complaint.set_assigned_to (Some (User.id new_assigned)) complaint in
                          let complaint :=
                            if status_eqb (Complaint.status complaint) STATUS_OPEN
                            then Complaint.set_status STATUS_IN_PROGRESS complaint
                            else complaint in
                          let old_name := username_or_unassigned db old_assigned in
                          let new_name := User.username new_assigned in
                          let '(complaint, db) :=
                            save_existing (uuid4 request) (now request) pk complaint db in
                          let db :=
                            create_audit_log pk complaint u ACTION_ASSIGNED
                              ("Assigned to " ++ new_name) old_name new_name
                              (now request) db in
                          mkOutcome (to_detail pk)
                            [(SUCCESS, "Complaint assigned to " ++ new_name ++ ".")] db
                      | None => reply (to_detail pk) db
                      end
                  | GET => reply (to_detail pk) db
                  end
              end
          end
      end)).

(** Add resolution notes to a complaint. *)
Definition complaint_add_resolution : View :=
  login_required (role_required ["support"; "manager"; "admin"]
    (fun request pk db =>
      match user request with
      | None => reply ServerError db
      | Some u =>
          match User.profile u with
          | None => reply ServerError db
          | Some profile =>
              match get_object_or_404 db pk (UserProfile.tenant profile) with
              | None => reply Http404 db
              | Some complaint =>
                  match method request with
                  | POST =>
                      match ResolutionForm (POST_data request) with
                      | Some notes =>
                          let complaint := Complaint.set_resolution_notes notes complaint in
                          let '(complaint, db) :=
                            save_existing (uuid4 request) (now request) pk complaint db in
                          let db :=
                            create_audit_log pk complaint u ACTION_RESOLUTION_ADDED
                              "Resolution notes updated" "" "" (now request) db in
                          mkOutcome (to_detail pk) [(SUCCESS, "Resolution notes added.")] db
                      | None => reply (to_detail pk) db
                      end
                  | GET => reply (to_detail pk) db
                  end
              end
          end
      end)).

(** Consumer confirms resolution and closes complaint. *)
Definition complaint_close : View :=
  login_required (fun request pk db =>
    match user request with
    | None => reply ServerError db
    | Some u =>
        match User.profile u with
        | None => reply (Redirect "dashboard" None) db
        | Some profile =>
            match get_object_or_404 db pk (UserProfile.tenant profile) with
            | None => reply Http404 db
            | Some complaint =>
                if negb (submitted_by_is complaint u)
                then reply (HttpResponseForbidden "Only the complaint owner can close it.") db
                else if negb (status_eqb (Complaint.status complaint) STATUS_RESOLVED)
                then mkOutcome (to_detail pk)
                       [(ERROR, "Only resolved complaints can be closed.")] db
                else
                  match method request with
                  | POST =>
                      let complaint := Complaint.set_status STATUS_CLOSED complaint in
                      let '(complaint, db) :=
                        save_existing (uuid4 request) (now request) pk complaint db in
                      let db :=
                        create_audit_log pk complaint u ACTION_CLOSED
                          "Consumer confirmed resolution and closed the complaint" "" ""
                          (now request) db in
                      mkOutcome (to_detail pk)
                        [(SUCCESS,
                          "Complaint closed successfully. Thank you for your feedback.")] db
                  | GET =>
                      reply (Render "core/complaint_close_confirm.html"
                               (CloseConfirmContext complaint)) db
                  end
            end
        end
    end).

(** ** The operations on a complaint *)

Inductive Operation := OpView | OpStatusChange | OpAssign | OpAddResolution | OpClose.

(** The view behind each operation ([core/urls.py]). *)
Definition dispatch (construct_instance : bool) (op : Operation) : View :=
  match op with
  | OpView => complaint_detail
  | OpStatusChange => complaint_update_status construct_instance
  | OpAssign => complaint_assign
  | OpAddResolution => complaint_add_resolution
  | OpClose => complaint_close
  end.

(** The audit action each mutating operation records; viewing records none. *)
Definition action_of (op : Operation) : option Action :=
  match op with
  | OpView => None
  | OpStatusChange => Some ACTION_STATUS_CHANGE
  | OpAssign => Some ACTION_ASSIGNED
  | OpAddResolution => Some ACTION_RESOLUTION_ADDED
  | OpClose => Some ACTION_CLOSED
  end.

(** A mutating view reports success with [messages.success]. *)
Definition succeeded (o : Outcome) : bool :=
  existsb (fun m => match fst m with SUCCESS => true | ERROR => false end) (messages o).

(** The two refusals a caller can observe: the 404 of [get_object_or_404]
    and a 403. *)
Definition denied (r : HttpResponse) : Prop :=
  r = Http404 \/ exists content, r = HttpResponseForbidden content.

(** The audit entries that reference complaint [pk]. *)
Definition audit_of (pk : nat) (db : DB) : list AuditLog.t :=
  List.filter (fun e => Nat.eqb (AuditLog.complaint e) pk) (audit_logs db).

(** [e] is the audit entry of an operation that makes [op] by [u] on [pk]. *)
Definition entry_for (a : Action) (pk : nat) (u : User.t) (tenant : nat)
    (e : AuditLog.t) : Prop :=
  AuditLog.action e = a /\ AuditLog.complaint e = pk
  /\ AuditLog.user e = Some (User.id u) /\ AuditLog.tenant e = tenant.

(** A lifetime of a complaint object: each step assigns to one of the fields
    the views assign to, then calls [save] at some instant. *)
Inductive Mutation :=
| SetStatus (s : Status)
| SetAssignedTo (u : option nat)
| SetResolutionNotes (n : string)
| NoChange.

Definition mutate (m : Mutation) (c : Complaint.t) : Complaint.t :=
  match m with
  | SetStatus s => Complaint.set_status s c
  | SetAssignedTo u => Complaint.set_assigned_to u c
  | SetResolutionNotes n => Complaint.set_resolution_notes n c
  | NoChange => c
  end.

Record SaveStep := mkStep {
  step_mutation : Mutation;
  step_slug : option string;
  step_uuid4 : string;
  step_now : nat;
}.

Definition save_step (c : Complaint.t) (st : SaveStep) : Complaint.t :=
  Complaint.save (step_slug st) (step_uuid4 st) (step_now st) (mutate (step_mutation st) c).

Definition save_steps (c : Complaint.t) (steps : list SaveStep) : Complaint.t :=
  fold_left save_step steps c.

(** Whether the save of this step executes [self.resolved_at = timezone.now()]. *)
Definition assigns_resolved_at (c : Complaint.t) (st : SaveStep) : bool :=
  let c' := mutate (step_mutation st) c in
  status_eqb (Complaint.status c') STATUS_RESOLVED
  && bool_decide (Complaint.resolved_at c' = None).

(** How many saves of the run execute that assignment. *)
Fixpoint count_resolved_assignments (c : Complaint.t) (steps : list SaveStep) : nat :=
  match steps with
  | [] => 0
  | st :: rest =>
      (if assigns_resolved_at c st then 1 else 0)
      + count_resolved_assignments (save_step c st) rest
  end.

(** The status the complaint has when the save of step [st] runs. *)
Definition status_at_save (c : Complaint.t) (st : SaveStep) : Status :=
  Complaint.status (mutate (step_mutation st) c).

(** The instant of the first save of the run at which the status is
    Resolved. *)
Fixpoint first_resolved_save (c : Complaint.t) (steps : list SaveStep) : option nat :=
  match steps with
  | [] => None
  | st :: rest =>
      if status_eqb (status_at_save c st) STATUS_RESOLVED then Some (step_now st)
      else first_resolved_save (save_step c st) rest
  end.

(** The complaint as [complaint.save()] leaves it during [request]. *)
Definition saved (request : Request) (db : DB) (c : Complaint.t) : Complaint.t :=
  Complaint.save (Tenant.slug <$> tenants db !! Complaint.tenant c)
                 (uuid4 request) (now request) c.

(** [db'] is [db] after one mutation of complaint [pk] by [u]: the row is
    replaced by [c'] and exactly one audit entry, of action [a], is put in
    front of the log. *)
Definition recorded (a : Action) (pk : nat) (u : User.t) (c' : Complaint.t)
    (db db' : DB) : Prop :=
  exists e : AuditLog.t,
    entry_for a pk u (Complaint.tenant c') e
    /\ db' = mkDB (tenants db) (users db) (<[pk := c']> (complaints db))
                  (e :: audit_logs db) (next_pk db).

(** The role lists of the three [role_required] gates. *)
Definition passes (allowed : list string) (p : UserProfile.t) : bool :=
  existsb (String.eqb (role_value (UserProfile.role p))) allowed.

(** The path condition of the success branch of each mutating view: who
    asks ([u] with profile [p]), the complaint [c] that [get_object_or_404]
    finds and what the form yields. *)
Definition close_accepts (request : Request) (pk : nat) (db : DB)
    (u : User.t) (p : UserProfile.t) (c : Complaint.t) : Prop :=
  user request = Some u /\ User.profile u = Some p
  /\ get_object_or_404 db pk (UserProfile.tenant p) = Some c
  /\ Complaint.submitted_by c = Some (User.id u)
  /\ Complaint.status c = STATUS_RESOLVED
  /\ method request = POST.

Definition resolution_accepts (request : Request) (pk : nat) (db : DB)
    (u : User.t) (p : UserProfile.t) (c : Complaint.t) (notes : string) : Prop :=
  user request = Some u /\ User.profile u = Some p
  /\ passes ["support"; "manager"; "admin"] p = true
  /\ get_object_or_404 db pk (UserProfile.tenant p) = Some c
  /\ method request = POST
  /\ ResolutionForm (POST_data request) = Some notes.

Definition assign_accepts (request : Request) (pk : nat) (db : DB)
    (u : User.t) (p : UserProfile.t) (c : Complaint.t) (new_assigned : User.t) : Prop :=
  user request = Some u /\ User.profile u = Some p
  /\ passes ["helpdesk"; "manager"; "admin"] p = true
  /\ get_object_or_404 db pk (UserProfile.tenant p) = Some c
  /\ method request = POST
  /\ AssignmentForm (POST_data request) (UserProfile.tenant p) db = Some new_assigned.

Definition status_accepts (construct_instance : bool) (request : Request) (pk : nat)
    (db : DB) (u : User.t) (p : UserProfile.t) (c : Complaint.t) (new_status : Status)
    : Prop :=
  user request = Some u /\ User.profile u = Some p
  /\ passes ["helpdesk"; "support"; "manager"; "admin"] p = true
  /\ get_object_or_404 db pk (UserProfile.tenant p) = Some c
  /\ method request = POST
  /\ clean_status (post_status (POST_data request)) = Some new_status
  /\ (Complaint.can_update_status
        (if construct_instance then Complaint.set_status new_status c else c) new_status
      || UserProfile.is_admin p) = true.

(** The complaint [complaint_assign] saves: the new assignee, and the status
    moved on from Open. *)
Definition assigned (new_assigned : User.t) (c : Complaint.t) : Complaint.t :=
  let c := Complaint.set_assigned_to (Some (User.id new_assigned)) c in
  if status_eqb (Complaint.status c) STATUS_OPEN
  then Complaint.set_status STATUS_IN_PROGRESS c else c.

(** ** management/commands/seed_data.py *)

(** The demo data of the [seed_data] command: two tenants, eight users and
    five complaints, each complaint made with [Complaint.objects.create]
    (hence through [save]) and followed by its "created" audit entry.  The
    uuid and the clock of each creation are fixed here. *)
Definition tenant1 : Tenant.t := Tenant.mk 1 "Acme Corporation" "acme" true.
Definition tenant2 : Tenant.t := Tenant.mk 2 "TechStart Inc" "techstart" true.

Definition seed_user (id : nat) (username : string) (tenant : Tenant.t) (role : Role)
    : User.t :=
  User.mk id username (Some (UserProfile.mk (Tenant.id tenant) role)).

Definition admin : User.t := seed_user 1 "admin" tenant1 ROLE_ADMIN.
Definition manager1 : User.t := seed_user 2 "manager1" tenant1 ROLE_MANAGER.
Definition helpdesk1 : User.t := seed_user 3 "helpdesk1" tenant1 ROLE_HELPDESK.
Definition support1 : User.t := seed_user 4 "support1" tenant1 ROLE_SUPPORT.
Definition consumer1 : User.t := seed_user 5 "consumer1" tenant1 ROLE_CONSUMER.
Definition consumer2 : User.t := seed_user 6 "consumer2" tenant1 ROLE_CONSUMER.
Definition ts_admin : User.t := seed_user 7 "ts_admin" tenant2 ROLE_ADMIN.
Definition ts_consumer : User.t := seed_user 8 "ts_consumer" tenant2 ROLE_CONSUMER.

Definition seed_users : list User.t :=
  [admin; manager1; helpdesk1; support1; consumer1; consumer2; ts_admin; ts_consumer].

Record SeedComplaint := mkSeed {
  seed_title : string;
  seed_category : string;
  seed_priority : Priority;
  seed_status : Status;
  seed_submitted_by : User.t;
  seed_assigned_to : option User.t;
  seed_tenant : Tenant.t;
  seed_resolution_notes : string;
  seed_uuid4 : string;
  seed_now : nat;
}.

Definition complaints_data : list SeedComplaint :=
  [mkSeed "Website not loading properly" "Technical" PRIORITY_HIGH
     STATUS_IN_PROGRESS consumer1 (Some support1) tenant1 ""
     "1b9d6bcd-bbfd-4b2d-9b5d-ab8dfbbd4bed" 101;
   mkSeed "Incorrect billing on last invoice" "Billing" PRIORITY_MEDIUM
     STATUS_OPEN consumer1 None tenant1 ""
     "6ec0bd7f-11c0-43da-975e-2a8ad9ebae0b" 102;
   mkSeed "Cannot access my account settings" "Technical" PRIORITY_MEDIUM
     STATUS_RESOLVED consumer2 (Some support1) tenant1
     "The issue was caused by a session cookie conflict."
     "9c5b94b1-35ad-49bb-b118-8e8fc24abf80" 103;
   mkSeed "Request for feature enhancement" "Feature Request" PRIORITY_LOW
     STATUS_CLOSED consumer2 None tenant1
     "Thank you for your suggestion."
     "f47ac10b-58cc-4372-a567-0e02b2c3d479" 104;
   mkSeed "Mobile app crashes on startup" "Technical" PRIORITY_HIGH
     STATUS_OPEN ts_consumer None tenant2 ""
     "7c9e6679-7425-40de-944b-e07fc1f90ae7" 105].

Definition seed_complaint (db : DB) (data : SeedComplaint) : DB :=
  let complaint :=
    Complaint.mk (Tenant.id (seed_tenant data)) "" (seed_title data)
      "The description of the demo complaint." (seed_category data)
      (seed_priority data) (seed_status data)
      (Some (User.id (seed_submitted_by data))) None
      (User.id <$> seed_assigned_to data) (seed_resolution_notes data)
      0 0 None None in
  let '(pk, complaint, db) := save_new (seed_uuid4 data) (seed_now data) complaint db in
  create_audit_log pk complaint (seed_submitted_by data) ACTION_CREATED
    ("Complaint created: " ++ Complaint.title complaint) "" "" (seed_now data) db.

Definition seed_db : DB :=
  fold_left seed_complaint complaints_data
    (mkDB (list_to_map [(1, tenant1); (2, tenant2)])
          (list_to_map ((fun u => (User.id u, u)) <$> seed_users))
          ∅ [] 1).

Definition no_post : PostData := mkPost None None None None None None None None.

Definition post_of_status (s : string) : PostData :=
  mkPost (Some s) None None None None None None None.

Definition post_of_assignee (pk : nat) : PostData :=
  mkPost None (Some pk) None None None None None None.

Definition post_of_notes (n : string) : PostData :=
  mkPost None None (Some n) None None None None None.

(** A request of [u] at instant 200. *)
Definition request_of (u : User.t) (m : Method) (post : PostData) : Request :=
  mkRequest (Some u) m post 200 "3f2504e0-4f89-41d3-9a0c-0305e82c3301".

(** ** Lifetimes of a complaint object, continued *)

(** Whether the save of this step executes [self.closed_at = timezone.now()]. *)
Definition assigns_closed_at (c : Complaint.t) (st : SaveStep) : bool :=
  let c' := mutate (step_mutation st) c in
  status_eqb (Complaint.status c') STATUS_CLOSED
  && bool_decide (Complaint.closed_at c' = None).

Fixpoint count_closed_assignments (c : Complaint.t) (steps : list SaveStep) : nat :=
  match steps with
  | [] => 0
  | st :: rest =>
      (if assigns_closed_at c st then 1 else 0)
      + count_closed_assignments (save_step c st) rest
  end.

(** The instant of the first save of the run at which the status is Closed. *)
Fixpoint first_closed_save (c : Complaint.t) (steps : list SaveStep) : option nat :=
  match steps with
  | [] => None
  | st :: rest =>
      if status_eqb (status_at_save c st) STATUS_CLOSED then Some (step_now st)
      else first_closed_save (save_step c st) rest
  end.

(** Several assignments in a row, as [complaint_assign] makes them. *)
Definition mutates (ms : list Mutation) (c : Complaint.t) : Complaint.t :=
  fold_left (fun c m => mutate m c) ms c.

(** ** views.py: the listing views *)

(** A row of a queryset of complaints: the pk and the instance. *)
Definition Row : Type := nat * Complaint.t.

(** [Meta.ordering = ['-created_at']]: newest first. *)
Definition newer (x y : Row) : Prop :=
  Complaint.created_at (snd y) <= Complaint.created_at (snd x).

#[global] Instance newer_dec (x y : Row) : Decision (newer x y).
Proof. unfold newer. apply _. Defined.

(** [Complaint.objects.all()].  The order among complaints created at the
    same instant is left to the database; here it is the one merge sort
    gives to the rows taken in pk order. *)
Definition all_complaints (db : DB) : list Row :=
  merge_sort newer (map_to_list (complaints db)).

(** Get complaints filtered by user's tenant. *)
Definition get_tenant_complaints (db : DB) (u : User.t) : list Row :=
  match User.profile u with
  | Some p =>
      List.filter (fun r => Nat.eqb (Complaint.tenant (snd r)) (UserProfile.tenant p))
        (all_complaints db)
  | None => []
  end.

(** [complaints.filter(submitted_by=request.user)]. *)
Definition filter_submitted_by (u : User.t) (l : list Row) : list Row :=
  List.filter (fun r => submitted_by_is (snd r) u) l.

(** [complaints.filter(status=value)], for a stored value. *)
Definition filter_status (value : string) (l : list Row) : list Row :=
  List.filter (fun r => String.eqb (status_value (Complaint.status (snd r))) value) l.

Definition filter_priority (value : string) (l : list Row) : list Row :=
  List.filter (fun r => String.eqb (priority_value (Complaint.priority (snd r))) value) l.

(** [__icontains]: containment without regard to the case of ASCII letters. *)
Definition lower_ascii (c : ascii) : ascii :=
  let n := nat_of_ascii c in
  if (65 <=? n)%nat && (n <=? 90)%nat then ascii_of_nat (n + 32) else c.

Fixpoint lower (s : string) : string :=
  match s with
  | EmptyString => EmptyString
  | String c s' => String (lower_ascii c) (lower s')
  end.

Fixpoint contains (needle hay : string) : bool :=
  String.prefix needle hay
  || match hay with
     | EmptyString => false
     | String _ hay' => contains needle hay'
     end.

Definition icontains (field value : string) : bool :=
  contains (lower value) (lower field).

Definition filter_search (search : string) (l : list Row) : list Row :=
  List.filter (fun r => icontains (Complaint.reference_number (snd r)) search
                        || icontains (Complaint.title (snd r)) search
                        || icontains (Complaint.description (snd r)) search) l.

(** The parameters of [request.GET] that [complaint_list] reads; [q_page]
    is the page parameter when it reads as an integer. *)
Record Query := mkQuery {
  q_status : option string;
  q_priority : option string;
  q_search : option string;
  q_page : option Z;
}.

(** [if value:] on an optional parameter: present and not empty. *)
Definition truthy (v : option string) : option string :=
  match v with
  | Some s => if String.eqb s "" then None else Some s
  | None => None
  end.

(** [django.core.paginator.Paginator]: the number of pages of [count]
    objects (one page when there is none), and [get_page], which shows page
    1 for a parameter that is no integer and the last page for a number out
    of range. *)
Definition num_pages (count per_page : nat) : nat :=
  (Nat.max 1 count + per_page - 1) / per_page.

Definition page_number (pages : nat) (number : option Z) : nat :=
  match number with
  | None => 1
  | Some z => if (z <? 1)%Z || (Z.of_nat pages <? z)%Z then pages else Z.to_nat z
  end.

Definition page_objects {A : Type} (per_page number : nat) (l : list A) : list A :=
  take per_page (drop ((number - 1) * per_page) l).

Record ListContext := mkListContext {
  page_obj_number : nat;
  page_obj_num_pages : nat;
  page_obj : list Row;
  current_status : option string;
  current_priority : option string;
  search : string;
}.

Inductive ListResponse :=
| ListRedirect (to : string)
| ListPage (context : ListContext).

(** The queryset [complaint_list] paginates. *)
Definition visible_complaints (db : DB) (u : User.t) (p : UserProfile.t) (query : Query)
    : list Row :=
  let complaints := get_tenant_complaints db u in
  let complaints :=
    if UserProfile.is_consumer p then filter_submitted_by u complaints else complaints in
  let complaints :=
    match truthy (q_status query) with
    | Some status_filter => filter_status status_filter complaints
    | None => complaints
    end in
  let complaints :=
    match truthy (q_priority query) with
    | Some priority_filter => filter_priority priority_filter complaints
    | None => complaints
    end in
  match truthy (q_search query) with
  | Some search => filter_search search complaints
  | None => complaints
  end.

(** List all complaints visible to the user.  Consumers see only their
    complaints.  Staff see all tenant complaints. *)
Definition complaint_list (request : Request) (query : Query) (db : DB) : ListResponse :=
  match user request with
  | None => ListRedirect "login"
  | Some u =>
      match User.profile u with
      | None => ListRedirect "dashboard"
      | Some profile =>
          let complaints := visible_complaints db u profile query in
          let pages := num_pages (length complaints) 10 in
          let number := page_number pages (q_page query) in
          ListPage (mkListContext number pages (page_objects 10 number complaints)
                      (q_status query) (q_priority query)
                      (default "" (q_search query)))
      end
  end.

(** The numbers and lists of the dashboard. *)
Inductive DashboardContext :=
| ConsumerDashboard (my_complaints : list Row)
    (total_complaints open_complaints resolved_complaints : nat)
| StaffDashboard
    (total_complaints open_complaints in_progress resolved_complaints
       closed_complaints unassigned : nat)
    (recent_complaints : list Row) (my_assigned : option (list Row)).

Inductive DashboardResponse :=
| DashboardRedirect (to : string) (flash : list (Level * string))
| DashboardPage (profile : UserProfile.t) (tenant : nat) (context : DashboardContext).

Definition count_status (s : Status) (l : list Row) : nat :=
  length (filter_status (status_value s) l).

(** [.exclude(status=Complaint.STATUS_CLOSED)]. *)
Definition exclude_closed (l : list Row) : list Row :=
  List.filter (fun r => negb (String.eqb (status_value (Complaint.status (snd r)))
                                         (status_value STATUS_CLOSED))) l.

(** Role-based dashboard view.  Shows different information based on user
    role. *)
Definition dashboard (request : Request) (db : DB) : DashboardResponse :=
  match user request with
  | None => DashboardRedirect "login" []
  | Some u =>
      match User.profile u with
      | None =>
          DashboardRedirect "login"
            [(ERROR, "Your account is not properly configured. Please contact an administrator.")]
      | Some profile =>
          let tenant := UserProfile.tenant profile in
          let complaints := get_tenant_complaints db u in
          DashboardPage profile tenant
            (if UserProfile.is_consumer profile
             then
               let user_complaints := filter_submitted_by u complaints in
               ConsumerDashboard (take 5 user_complaints) (length user_complaints)
                 (count_status STATUS_OPEN user_complaints)
                 (count_status STATUS_RESOLVED user_complaints)
             else
               StaffDashboard (length complaints)
                 (count_status STATUS_OPEN complaints)
                 (count_status STATUS_IN_PROGRESS complaints)
                 (count_status STATUS_RESOLVED complaints)
                 (count_status STATUS_CLOSED complaints)
                 (length (exclude_closed
                            (List.filter
                               (fun r => bool_decide (Complaint.assigned_to (snd r) = None))
                               complaints)))
                 (take 10 complaints)
                 (if UserProfile.is_support profile
                  then Some (take 5 (exclude_closed
                                       (List.filter
                                          (fun r => bool_decide
                                                      (Complaint.assigned_to (snd r)
                                                       = Some (User.id u)))
                                          complaints)))
                  else None))
      end
  end.

(** ** Sequences of requests *)

(** One request to the application: an operation on the complaint [pk], or
    the creation of a complaint. *)
Inductive Call :=
| CallOperation (op : Operation) (request : Request) (pk : nat)
| CallCreate (request : Request).

Definition call_request (c : Call) : Request :=
  match c with
  | CallOperation _ request _ => request
  | CallCreate request => request
  end.

Definition call (construct_instance : bool) (c : Call) (db : DB) : Outcome :=
  match c with
  | CallOperation op request pk => dispatch construct_instance op request pk db
  | CallCreate request => complaint_create request db
  end.

(** The store after the requests [calls], served one after the other. *)
Definition run (construct_instance : bool) (calls : list Call) (db : DB) : DB :=
  fold_left (fun db c => db_after (call construct_instance c db)) calls db.

(** [request.user.profile], when the user is logged in and has one. *)
Definition actor_profile (request : Request) : option UserProfile.t :=
  user request ≫= User.profile.

(** The pks from the sequence on are unused. *)
Definition fresh_pks (db : DB) : Prop :=
  forall pk : nat, next_pk db <= pk -> complaints db !! pk = None.

(** What [save] leaves behind on a complaint: a reference number, and the
    timestamp that belongs to a Resolved or Closed status. *)
Definition stamped (c : Complaint.t) : Prop :=
  Complaint.reference_number c <> ""
  /\ (Complaint.status c = STATUS_RESOLVED -> is_Some (Complaint.resolved_at c))
  /\ (Complaint.status c = STATUS_CLOSED -> is_Some (Complaint.closed_at c)).

(** Every audit entry names a stored complaint of the entry's tenant. *)
Definition audit_refers (db : DB) : Prop :=
  forall e : AuditLog.t, e ∈ audit_logs db ->
    exists c : Complaint.t,
      complaints db !! AuditLog.complaint e = Some c
      /\ Complaint.tenant c = AuditLog.tenant e.

Definition consistent (db : DB) : Prop :=
  fresh_pks db
  /\ (forall pk c, complaints db !! pk = Some c -> stamped c)
  /\ audit_refers db.

(** [c'] is a later state of the complaint [c]: the fields no view assigns
    are the same, the reference number is kept once there is one, and so
    are the two timestamps. *)
Definition same_identity (c c' : Complaint.t) : Prop :=
  Complaint.tenant c' = Complaint.tenant c
  /\ Complaint.title c' = Complaint.title c
  /\ Complaint.description c' = Complaint.description c
  /\ Complaint.category c' = Complaint.category c
  /\ Complaint.priority c' = Complaint.priority c
  /\ Complaint.submitted_by c' = Complaint.submitted_by c
  /\ Complaint.logged_by c' = Complaint.logged_by c
  /\ Complaint.created_at c' = Complaint.created_at c
  /\ (Complaint.reference_number c <> "" ->
      Complaint.reference_number c' = Complaint.reference_number c)
  /\ (forall t, Complaint.resolved_at c = Some t -> Complaint.resolved_at c' = Some t)
  /\ (forall t, Complaint.closed_at c = Some t -> Complaint.closed_at c' = Some t).

(** The store before any complaint exists. *)
Definition empty_db (ts : gmap nat Tenant.t) (us : gmap nat User.t) : DB :=
  mkDB ts us ∅ [] 1.

(** The complaint [complaint_create] stores for the form instance [c0]: the
    tenant of the actor, the actor as submitter (consumer) or as the one who
    logged it (staff), saved for the first time. *)
Definition created (request : Request) (db : DB) (u : User.t) (p : UserProfile.t)
    (c0 : Complaint.t) : Complaint.t :=
  let with_people :=
    if UserProfile.is_consumer p
    then (Some (User.id u), Complaint.logged_by c0)
    else (Complaint.submitted_by c0, Some (User.id u)) in
  snd (fst (save_new (uuid4 request) (now request)
              (Complaint.mk (UserProfile.tenant p) (Complaint.reference_number c0)
                 (Complaint.title c0) (Complaint.description c0) (Complaint.category c0)
                 (Complaint.priority c0) (Complaint.status c0) (fst with_people)
                 (snd with_people) (Complaint.assigned_to c0)
                 (Complaint.resolution_notes c0) (Complaint.created_at c0)
                 (Complaint.updated_at c0) (Complaint.resolved_at c0)
                 (Complaint.closed_at c0)) db)).

(** The two ways a request changes the store.  [updates]: an actor with
    profile [p] replaces the complaint [pk] of the actor's tenant by a later
    state of it and puts one audit entry in front of the log.  [inserts]: a
    new complaint of [tenant] is stored under the next pk, with its audit
    entry. *)
Definition updates (p : UserProfile.t) (db db' : DB) : Prop :=
  exists (pk : nat) (c0 c1 : Complaint.t) (e : AuditLog.t),
    complaints db !! pk = Some c0
    /\ Complaint.tenant c0 = UserProfile.tenant p
    /\ same_identity c0 c1 /\ stamped c1
    /\ (Complaint.status c0 = STATUS_CLOSED -> UserProfile.role p <> ROLE_ADMIN ->
        Complaint.status c1 = STATUS_CLOSED)
    /\ AuditLog.complaint e = pk /\ AuditLog.tenant e = UserProfile.tenant p
    /\ db' = mkDB (tenants db) (users db) (<[pk := c1]> (complaints db))
                  (e :: audit_logs db) (next_pk db).

Definition inserts (tenant : nat) (db db' : DB) : Prop :=
  exists (c1 : Complaint.t) (e : AuditLog.t),
    Complaint.tenant c1 = tenant /\ stamped c1
    /\ AuditLog.complaint e = next_pk db /\ AuditLog.tenant e = tenant
    /\ db' = mkDB (tenants db) (users db) (<[next_pk db := c1]> (complaints db))
                  (e :: audit_logs db) (S (next_pk db)).

(** consumer1 submits a complaint, helpdesk1 assigns complaint 2, the
    administrator reopens the closed complaint 4. *)
Definition demo_calls : list Call :=
  [CallCreate (request_of consumer1 POST
                 (mkPost None None None (Some "Printer jams")
                    (Some "Every second page.") (Some "Hardware") (Some "high") None));
   CallOperation OpAssign (request_of helpdesk1 POST (post_of_assignee 4)) 2;
   CallOperation OpStatusChange (request_of admin POST (post_of_status "open")) 4].

(** Requests on the closed complaint 4, none of them by an administrator. *)
Definition staff_calls : list Call :=
  [CallOperation OpAssign (request_of helpdesk1 POST (post_of_assignee 4)) 4;
   CallOperation OpAddResolution (request_of support1 POST (post_of_notes "Shipped.")) 4;
   CallOperation OpStatusChange (request_of manager1 POST (post_of_status "open")) 4;
   CallOperation OpClose (request_of consumer2 POST no_post) 4].

(** helpdesk1 logs a complaint on behalf of consumer1. *)
Definition on_behalf : Request :=
  request_of helpdesk1 POST
    (mkPost None None None (Some "  Invoice missing ") (Some "No invoice for May.")
       None (Some "low") (Some 5)).

(** A text of white space only (or empty). *)
Fixpoint blank (s : string) : bool :=
  match s with
  | EmptyString => true
  | String c s' => is_space c && blank s'
  end.

(** What a posted text field holds when it is missing or blank. *)
Definition blank_field (v : option string) : bool :=
  match v with
  | None => true
  | Some raw => blank raw
  end.

(** The same query for another page. *)
Definition set_page (n : Z) (query : Query) : Query :=
  mkQuery (q_status query) (q_priority query) (q_search query) (Some n).

(** What [complaint_list] lets the actor [u] with profile [p] see under
    [query]: a stored complaint of the actor's tenant, the actor's own if
    the actor is a consumer, that passes the filters given. *)
Definition may_list (db : DB) (u : User.t) (p : UserProfile.t) (query : Query)
    (r : Row) : Prop :=
  complaints db !! fst r = Some (snd r)
  /\ Complaint.tenant (snd r) = UserProfile.tenant p
  /\ (UserProfile.role p = ROLE_CONSUMER ->
      Complaint.submitted_by (snd r) = Some (User.id u))
  /\ (forall v, truthy (q_status query) = Some v ->
        status_value (Complaint.status (snd r)) = v)
  /\ (forall v, truthy (q_priority query) = Some v ->
        priority_value (Complaint.priority (snd r)) = v)
  /\ (forall v, truthy (q_search query) = Some v ->
        icontains (Complaint.reference_number (snd r)) v
        || icontains (Complaint.title (snd r)) v
        || icontains (Complaint.description (snd r)) v = true).

(** How many of the requests [calls], served one after the other, report
    success. *)
Fixpoint successes (construct_instance : bool) (calls : list Call) (db : DB) : nat :=
  match calls with
  | [] => 0
  | c :: rest =>
      let out := call construct_instance c db in
      (if succeeded out then 1 else 0)
      + successes construct_instance rest (db_after out)
  end.

(** * Properties *)

(** ** [Complaint.save] and the timestamps *)

Lemma status_eqb_eq (a b : Status) : status_eqb a b = true <-> a = b.
Proof. destruct a, b; cbn; split; (congruence || reflexivity). Qed.

Lemma status_eqb_refl (a : Status) : status_eqb a a = true.
Proof. by apply status_eqb_eq. Qed.

Lemma status_eqb_neq (a b : Status) : status_eqb a b = false <-> a <> b.
Proof. destruct a, b; cbn; split; (congruence || reflexivity). Qed.

Lemma mutate_resolved_at (m : Mutation) (c : Complaint.t) :
  Complaint.resolved_at (mutate m c) = Complaint.resolved_at c.
Proof. by destruct m. Qed.

Lemma save_resolved_at slug uuid now (c : Complaint.t) :
  Complaint.resolved_at (Complaint.save slug uuid now c) =
  match Complaint.resolved_at c with
  | Some t => Some t
  | None => if status_eqb (Complaint.status c) STATUS_RESOLVED then Some now else None
  end.
Proof.
  unfold Complaint.save; cbn.
  destruct (Complaint.resolved_at c) as [t|]; cbn.
  - by rewrite andb_false_r.
  - by rewrite andb_true_r.
Qed.

Lemma save_step_resolved_at (c : Complaint.t) (st : SaveStep) :
  Complaint.resolved_at (save_step c st) =
  match Complaint.resolved_at c with
  | Some t => Some t
  | None => if status_eqb (status_at_save c st) STATUS_RESOLVED
            then Some (step_now st) else None
  end.
Proof.
  unfold save_step, status_at_save.
  by rewrite save_resolved_at, mutate_resolved_at.
Qed.

Lemma save_steps_keep_resolved_at (steps : list SaveStep) :
  forall (c : Complaint.t) (t : nat),
    Complaint.resolved_at c = Some t ->
    Complaint.resolved_at (save_steps c steps) = Some t
    /\ count_resolved_assignments c steps = 0.
Proof.
  induction steps as [|st rest IH]; intros c t Ht; [done|].
  cbn [save_steps fold_left count_resolved_assignments].
  assert (Hst : Complaint.resolved_at (save_step c st) = Some t)
    by (by rewrite save_step_resolved_at, Ht).
  destruct (IH _ _ Hst) as [Hkeep Hcount].
  split; [exact Hkeep|].
  rewrite Hcount. unfold assigns_resolved_at.
  rewrite mutate_resolved_at, Ht; cbn. by rewrite andb_false_r.
Qed.

(** C7.  Over any run of saves of one complaint object (each preceded by any
    assignment the views make: a new status, assignee or notes), a
    [resolved_at] that is already set survives every save; an unset one
    ends as the instant of the first save whose status is Resolved; and
    the assignment [self.resolved_at = timezone.now()] is executed at most
    once in the run, exactly once when the field starts unset and some
    save has status Resolved. *)
Theorem resolved_at_assigned_once (c : Complaint.t) (steps : list SaveStep) :
  Complaint.resolved_at (save_steps c steps) =
    match Complaint.resolved_at c with
    | Some t => Some t
    | None => first_resolved_save c steps
    end
  /\ count_resolved_assignments c steps =
       match Complaint.resolved_at c, first_resolved_save c steps with
       | None, Some _ => 1
       | _, _ => 0
       end.
Proof.
  revert c. induction steps as [|st rest IH]; intros c.
  - cbn. by destruct (Complaint.resolved_at c).
  - destruct (Complaint.resolved_at c) as [t|] eqn:Hc.
    + destruct (save_steps_keep_resolved_at (st :: rest) c t Hc) as [-> ->]. done.
    + cbn [save_steps fold_left count_resolved_assignments first_resolved_save].
      pose proof (save_step_resolved_at c st) as Hst. rewrite Hc in Hst.
      unfold assigns_resolved_at. rewrite mutate_resolved_at, Hc.
      fold (status_at_save c st).
      destruct (status_eqb (status_at_save c st) STATUS_RESOLVED) eqn:Hres.
      * destruct (save_steps_keep_resolved_at rest _ _ Hst) as [Hk Hn].
        unfold save_steps in Hk. rewrite Hk, Hn. done.
      * destruct (IH (save_step c st)) as [IH1 IH2].
        unfold save_steps in IH1. rewrite IH1, IH2, Hst. done.
Qed.

(** The run the claim names: resolved at 5, back to in progress at 6,
    resolved again at 7, saved once more at 8. *)
Example resolved_reentered :
  let c := Complaint.mk 1 "ACM-0A1B2C3D" "t" "d" "" PRIORITY_LOW STATUS_IN_PROGRESS
             (Some 5) None None "" 1 1 None None in
  Complaint.resolved_at
    (save_steps c [mkStep (SetStatus STATUS_RESOLVED) (Some "acme") "" 5;
                   mkStep (SetStatus STATUS_IN_PROGRESS) (Some "acme") "" 6;
                   mkStep (SetStatus STATUS_RESOLVED) (Some "acme") "" 7;
                   mkStep NoChange (Some "acme") "" 8]) = Some 5.
Proof. reflexivity. Qed.

(** ** The gates in front of the views *)

Lemma get_object_or_404_Some (db : DB) (pk tenant : nat) (c : Complaint.t) :
  get_object_or_404 db pk tenant = Some c <->
  complaints db !! pk = Some c /\ Complaint.tenant c = tenant.
Proof.
  unfold get_object_or_404.
  destruct (complaints db !! pk) as [c0|].
  - destruct (Nat.eqb_spec (Complaint.tenant c0) tenant) as [Heq|Hne]; split.
    + intros [= ->]. done.
    + intros [[= ->] _]. done.
    + done.
    + intros [[= ->] Ht]. done.
  - split; [done|]. intros [? _]. done.
Qed.

Lemma get_object_or_404_other_tenant (db : DB) (pk tenant : nat) (c : Complaint.t) :
  complaints db !! pk = Some c -> Complaint.tenant c <> tenant ->
  get_object_or_404 db pk tenant = None.
Proof.
  intros Hc Hne. unfold get_object_or_404. rewrite Hc.
  by destruct (Nat.eqb_spec (Complaint.tenant c) tenant).
Qed.

Lemma get_object_or_404_missing (db : DB) (pk tenant : nat) :
  complaints db !! pk = None -> get_object_or_404 db pk tenant = None.
Proof. intros Hc. unfold get_object_or_404. by rewrite Hc. Qed.

Lemma login_required_user (f : View) request pk db (u : User.t) :
  user request = Some u -> login_required f request pk db = f request pk db.
Proof. intros Hu. unfold login_required. by rewrite Hu. Qed.

Lemma role_required_profile (allowed : list string) (f : View) request pk db
    (u : User.t) (p : UserProfile.t) :
  user request = Some u -> User.profile u = Some p ->
  role_required allowed f request pk db =
  if existsb (String.eqb (role_value (UserProfile.role p))) allowed
  then f request pk db
  else reply (HttpResponseForbidden
                "You do not have permission to perform this action.") db.
Proof.
  intros Hu Hp. unfold role_required. rewrite Hu, Hp.
  by destruct (existsb _ allowed).
Qed.

(** Unfold a decorated view at a request whose user and profile are known. *)
Ltac enter_view Hu Hp :=
  repeat rewrite (login_required_user _ _ _ _ _ Hu);
  repeat rewrite (role_required_profile _ _ _ _ _ _ _ Hu Hp);
  rewrite ?Hu, ?Hp.

(** Without an object under [pk] in the actor's tenant, every view answers
    with a refusal that depends on the request alone. *)
Lemma dispatch_no_object (construct_instance : bool) (op : Operation)
    (request : Request) (pk : nat) (u : User.t) (p : UserProfile.t) :
  user request = Some u -> User.profile u = Some p ->
  exists r : HttpResponse, denied r /\
    forall db : DB, get_object_or_404 db pk (UserProfile.tenant p) = None ->
      dispatch construct_instance op request pk db = reply r db.
Proof.
  intros Hu Hp.
  destruct op; cbn [dispatch];
    unfold complaint_detail, complaint_update_status, complaint_assign,
      complaint_add_resolution, complaint_close.
  1,5: exists Http404; split; [by left|];
       intros db Hg; enter_view Hu Hp; by rewrite Hg.
  all: match goal with
       | |- context [role_required ?l] =>
           destruct (existsb (String.eqb (role_value (UserProfile.role p))) l) eqn:Hrole
       end;
       [ exists Http404; split; [by left|]
       | eexists; split; [right; eexists; reflexivity|] ];
       intros db Hg; enter_view Hu Hp; rewrite Hrole, ?Hg; reflexivity.
Qed.

(** ** Tenant isolation *)

(** C1.  Whatever the operation, the role of the actor and the request, a
    complaint of another tenant is refused with a 404 or a 403, nothing is
    stored and no message is queued; and the response and messages are the
    ones the same request gets from any store that has no complaint under
    that pk. *)
Theorem cross_tenant_denied (construct_instance : bool) (op : Operation)
    (request : Request) (pk : nat) (db : DB)
    (u : User.t) (p : UserProfile.t) (c : Complaint.t) :
  user request = Some u -> User.profile u = Some p ->
  complaints db !! pk = Some c ->
  Complaint.tenant c <> UserProfile.tenant p ->
  let out := dispatch construct_instance op request pk db in
  denied (response out) /\ db_after out = db /\ messages out = []
  /\ forall db0 : DB, complaints db0 !! pk = None ->
       let out0 := dispatch construct_instance op request pk db0 in
       response out0 = response out /\ messages out0 = messages out
       /\ db_after out0 = db0.
Proof.
  intros Hu Hp Hc Hne.
  pose proof (get_object_or_404_other_tenant _ _ _ _ Hc Hne) as Hg.
  destruct (dispatch_no_object construct_instance op request pk u p Hu Hp)
    as (r & Hr & Hrun).
  cbn zeta. rewrite (Hrun db Hg).
  split; [exact Hr|]. split; [done|]. split; [done|].
  intros db0 H0.
  by rewrite (Hrun db0 (get_object_or_404_missing db0 pk _ H0)).
Qed.

Example seed_lookup :
  (Complaint.status <$> complaints seed_db !! 3) = Some STATUS_RESOLVED
  /\ (Complaint.reference_number <$> complaints seed_db !! 3) = Some "ACM-9C5B94B1"
  /\ (Complaint.resolved_at <$> complaints seed_db !! 3) = Some (Some 103)
  /\ (Complaint.closed_at <$> complaints seed_db !! 4) = Some (Some 104)
  /\ (Complaint.tenant <$> complaints seed_db !! 5) = Some 2
  /\ length (audit_logs seed_db) = 5.
Proof. vm_compute. repeat split. Qed.

(** The administrator of the second tenant posts a status change for
    complaint 1 of the first tenant. *)
Lemma cross_tenant_denied_witness :
  let request := request_of ts_admin POST (post_of_status "closed") in
  let out := dispatch true OpStatusChange request 1 seed_db in
  denied (response out) /\ db_after out = seed_db /\ messages out = []
  /\ forall db0 : DB, complaints db0 !! 1 = None ->
       let out0 := dispatch true OpStatusChange request 1 db0 in
       response out0 = response out /\ messages out0 = messages out
       /\ db_after out0 = db0.
Proof.
  eapply (cross_tenant_denied true OpStatusChange
            (request_of ts_admin POST (post_of_status "closed")) 1 seed_db
            ts_admin (UserProfile.mk 2 ROLE_ADMIN)).
  - reflexivity.
  - reflexivity.
  - vm_compute. reflexivity.
  - vm_compute. discriminate.
Defined.

(** ** Viewing a complaint *)

(** C10, as the code has it.  A consumer who asks for a complaint of their
    own tenant that somebody else submitted gets the 403 of the view, with
    nothing stored and nothing rendered; the same request for a pk without
    a complaint gets the 404 of [get_object_or_404], so the two responses
    differ. *)
Theorem consumer_view_other_forbidden (request : Request) (pk : nat) (db : DB)
    (u : User.t) (p : UserProfile.t) (c : Complaint.t) :
  user request = Some u -> User.profile u = Some p ->
  UserProfile.role p = ROLE_CONSUMER ->
  complaints db !! pk = Some c ->
  Complaint.tenant c = UserProfile.tenant p ->
  Complaint.submitted_by c <> Some (User.id u) ->
  let out := complaint_detail request pk db in
  response out =
    HttpResponseForbidden "You do not have permission to view this complaint."
  /\ db_after out = db /\ messages out = []
  /\ forall db0 : DB, complaints db0 !! pk = None ->
       response (complaint_detail request pk db0) = Http404
       /\ response (complaint_detail request pk db0) <> response out.
Proof.
  intros Hu Hp Hrole Hc Ht Hsub.
  assert (Hg : get_object_or_404 db pk (UserProfile.tenant p) = Some c)
    by (by apply get_object_or_404_Some).
  assert (Hout : complaint_detail request pk db =
                 reply (HttpResponseForbidden
                          "You do not have permission to view this complaint.") db).
  { unfold complaint_detail. enter_view Hu Hp. rewrite Hg.
    unfold UserProfile.is_consumer, submitted_by_is. rewrite Hrole.
    by rewrite bool_decide_eq_false_2. }
  cbn zeta. rewrite Hout. repeat split.
  all: unfold complaint_detail; enter_view Hu Hp;
    by rewrite (get_object_or_404_missing db0 pk _ H).
Qed.

Lemma consumer_view_other_forbidden_witness :
  let request := request_of consumer1 GET no_post in
  let out := complaint_detail request 3 seed_db in
  response out =
    HttpResponseForbidden "You do not have permission to view this complaint."
  /\ db_after out = seed_db /\ messages out = []
  /\ forall db0 : DB, complaints db0 !! 3 = None ->
       response (complaint_detail request 3 db0) = Http404
       /\ response (complaint_detail request 3 db0) <> response out.
Proof.
  eapply (consumer_view_other_forbidden (request_of consumer1 GET no_post) 3 seed_db
            consumer1 (UserProfile.mk 1 ROLE_CONSUMER)).
  - reflexivity.
  - reflexivity.
  - reflexivity.
  - vm_compute. reflexivity.
  - reflexivity.
  - vm_compute. discriminate.
Defined.

(** C10, as stated, fails: consumer1 asks for complaint 3, which consumer2 of
    the same tenant submitted; the answer is a 403, while the same request
    against the store without that row is answered with a 404. *)
Lemma consumer_view_other_distinguishable :
  let request := request_of consumer1 GET no_post in
  let absent := set_complaints (delete 3 (complaints seed_db)) seed_db in
  (Complaint.tenant <$> complaints seed_db !! 3) = UserProfile.tenant <$> User.profile consumer1
  /\ (Complaint.submitted_by <$> complaints seed_db !! 3) = Some (Some (User.id consumer2))
  /\ complaints absent !! 3 = None
  /\ response (complaint_detail request 3 seed_db) =
       HttpResponseForbidden "You do not have permission to view this complaint."
  /\ response (complaint_detail request 3 absent) = Http404
  /\ response (complaint_detail request 3 seed_db)
       <> response (complaint_detail request 3 absent).
Proof. vm_compute. repeat split. discriminate. Qed.

(** ** What each mutating view does *)

Lemma save_existing_saved (request : Request) (pk : nat) (c : Complaint.t) (db : DB) :
  save_existing (uuid4 request) (now request) pk c db =
  (saved request db c, set_complaints (<[pk := saved request db c]> (complaints db)) db).
Proof. reflexivity. Qed.

Lemma saved_status (request : Request) (db : DB) (c : Complaint.t) :
  Complaint.status (saved request db c) = Complaint.status c.
Proof. reflexivity. Qed.

Lemma create_audit_log_recorded (a : Action) (pk : nat) (u : User.t)
    (c' : Complaint.t) (details old new : string) (now : nat) (db : DB) :
  recorded a pk u c' db
    (create_audit_log pk c' u a details old new now
       (set_complaints (<[pk := c']> (complaints db)) db)).
Proof. eexists. split; [|reflexivity]. by repeat split. Qed.

Ltac refuse C :=
  left; split; [done|]; split; [done|];
  let Hacc := fresh "Hacc" in
  intros; intros Hacc; unfold C in Hacc; destruct_and!; simplify_eq;
  try congruence; try done.

Lemma complaint_close_spec (request : Request) (pk : nat) (db : DB) :
  let out := complaint_close request pk db in
  (succeeded out = false /\ db_after out = db
   /\ forall u p c, ~ close_accepts request pk db u p c)
  \/ (succeeded out = true /\
      exists (u : User.t) (p : UserProfile.t) (c : Complaint.t),
        close_accepts request pk db u p c
        /\ recorded ACTION_CLOSED pk u
             (saved request db (Complaint.set_status STATUS_CLOSED c)) db (db_after out)).
Proof.
  cbn zeta. unfold complaint_close, login_required.
  destruct (user request) as [u|] eqn:Hu; [|refuse close_accepts].
  destruct (User.profile u) as [p|] eqn:Hp; [|refuse close_accepts].
  destruct (get_object_or_404 db pk (UserProfile.tenant p)) as [c|] eqn:Hg;
    [|refuse close_accepts].
  unfold submitted_by_is. case_bool_decide as Hsub; cbn [negb]; [|refuse close_accepts].
  destruct (status_eqb (Complaint.status c) STATUS_RESOLVED) eqn:Hst; cbn [negb].
  2: { apply status_eqb_neq in Hst. refuse close_accepts. }
  apply status_eqb_eq in Hst.
  destruct (method request) eqn:Hm; [refuse close_accepts|].
  right. rewrite save_existing_saved. split; [done|].
  exists u, p, c. split; [done|].
  apply create_audit_log_recorded.
Qed.

Lemma complaint_add_resolution_spec (request : Request) (pk : nat) (db : DB) :
  let out := complaint_add_resolution request pk db in
  (succeeded out = false /\ db_after out = db
   /\ forall u p c notes, ~ resolution_accepts request pk db u p c notes)
  \/ (succeeded out = true /\
      exists (u : User.t) (p : UserProfile.t) (c : Complaint.t) (notes : string),
        resolution_accepts request pk db u p c notes
        /\ recorded ACTION_RESOLUTION_ADDED pk u
             (saved request db (Complaint.set_resolution_notes notes c)) db (db_after out)).
Proof.
  cbn zeta. unfold complaint_add_resolution, login_required, role_required.
  destruct (user request) as [u|] eqn:Hu; [|refuse resolution_accepts].
  destruct (User.profile u) as [p|] eqn:Hp; [|refuse resolution_accepts].
  fold (passes ["support"; "manager"; "admin"] p).
  destruct (passes _ p) eqn:Hgate; cbn [negb]; [|refuse resolution_accepts].
  destruct (get_object_or_404 db pk (UserProfile.tenant p)) as [c|] eqn:Hg;
    [|refuse resolution_accepts].
  destruct (method request) eqn:Hm; [refuse resolution_accepts|].
  destruct (ResolutionForm (POST_data request)) as [notes|] eqn:Hform;
    [|refuse resolution_accepts].
  right. rewrite save_existing_saved. split; [done|].
  exists u, p, c, notes. split; [done|].
  apply create_audit_log_recorded.
Qed.

Lemma complaint_assign_spec (request : Request) (pk : nat) (db : DB) :
  let out := complaint_assign request pk db in
  (succeeded out = false /\ db_after out = db
   /\ forall u p c a, ~ assign_accepts request pk db u p c a)
  \/ (succeeded out = true /\
      exists (u : User.t) (p : UserProfile.t) (c : Complaint.t) (a : User.t),
        assign_accepts request pk db u p c a
        /\ recorded ACTION_ASSIGNED pk u (saved request db (assigned a c)) db (db_after out)).
Proof.
  cbn zeta. unfold complaint_assign, login_required, role_required.
  destruct (user request) as [u|] eqn:Hu; [|refuse assign_accepts].
  destruct (User.profile u) as [p|] eqn:Hp; [|refuse assign_accepts].
  fold (passes ["helpdesk"; "manager"; "admin"] p).
  destruct (passes _ p) eqn:Hgate; cbn [negb]; [|refuse assign_accepts].
  destruct (get_object_or_404 db pk (UserProfile.tenant p)) as [c|] eqn:Hg;
    [|refuse assign_accepts].
  destruct (method request) eqn:Hm; [refuse assign_accepts|].
  destruct (AssignmentForm _ _ db) as [a|] eqn:Hform; [|refuse assign_accepts].
  right. rewrite save_existing_saved. split; [done|].
  exists u, p, c, a. split; [done|].
  apply create_audit_log_recorded.
Qed.

Lemma complaint_update_status_spec (construct_instance : bool)
    (request : Request) (pk : nat) (db : DB) :
  let out := complaint_update_status construct_instance request pk db in
  (succeeded out = false /\ db_after out = db
   /\ forall u p c s, ~ status_accepts construct_instance request pk db u p c s)
  \/ (succeeded out = true /\
      exists (u : User.t) (p : UserProfile.t) (c : Complaint.t) (s : Status),
        status_accepts construct_instance request pk db u p c s
        /\ recorded ACTION_STATUS_CHANGE pk u
             (saved request db (Complaint.set_status s c)) db (db_after out)).
Proof.
  cbn zeta. unfold complaint_update_status, login_required, role_required.
  destruct (user request) as [u|] eqn:Hu; [|refuse status_accepts].
  destruct (User.profile u) as [p|] eqn:Hp; [|refuse status_accepts].
  fold (passes ["helpdesk"; "support"; "manager"; "admin"] p).
  destruct (passes _ p) eqn:Hgate; cbn [negb]; [|refuse status_accepts].
  destruct (get_object_or_404 db pk (UserProfile.tenant p)) as [c|] eqn:Hg;
    [|refuse status_accepts].
  destruct (method request) eqn:Hm; [refuse status_accepts|].
  unfold ComplaintStatusForm.
  destruct (clean_status _) as [s|] eqn:Hform; [|refuse status_accepts].
  destruct (Complaint.can_update_status _ s || UserProfile.is_admin p) eqn:Hcheck;
    [|refuse status_accepts].
  right. rewrite save_existing_saved. split; [done|].
  exists u, p, c, s. split; [done|].
  replace (Complaint.set_status s (if construct_instance then Complaint.set_status s c else c))
    with (Complaint.set_status s c) by (by destruct construct_instance).
  apply create_audit_log_recorded.
Qed.

Lemma recorded_lookup (a : Action) (pk : nat) (u : User.t) (c' : Complaint.t)
    (db db' : DB) :
  recorded a pk u c' db db' ->
  complaints db' !! pk = Some c'
  /\ (forall pk', pk' <> pk -> complaints db' !! pk' = complaints db !! pk')
  /\ exists e : AuditLog.t,
       audit_logs db' = e :: audit_logs db /\ entry_for a pk u (Complaint.tenant c') e.
Proof.
  intros (e & He & ->). cbn. split; [apply lookup_insert_eq|].
  split; [intros pk' Hne; by apply lookup_insert_ne|]. by exists e.
Qed.

Lemma saved_closed_at (request : Request) (db : DB) (c : Complaint.t) :
  Complaint.closed_at (saved request db c) =
  match Complaint.closed_at c with
  | Some t => Some t
  | None => if status_eqb (Complaint.status c) STATUS_CLOSED
            then Some (now request) else None
  end.
Proof.
  unfold saved, Complaint.save; cbn.
  destruct (Complaint.closed_at c); cbn.
  - by rewrite andb_false_r.
  - by rewrite andb_true_r.
Qed.

(** ** Accepted requests *)

Ltac same_request Hacc Hacc' C :=
  unfold C in Hacc, Hacc'; destruct_and!;
  repeat match goal with
    | H1 : ?x = Some ?a, H2 : ?x = Some ?b |- _ =>
        assert (a = b) by congruence; subst; clear H2
    end.

Lemma close_accepted (request : Request) (pk : nat) (db : DB)
    (u : User.t) (p : UserProfile.t) (c : Complaint.t) :
  close_accepts request pk db u p c ->
  let out := complaint_close request pk db in
  succeeded out = true
  /\ recorded ACTION_CLOSED pk u
       (saved request db (Complaint.set_status STATUS_CLOSED c)) db (db_after out).
Proof.
  intros Hacc. cbn zeta.
  destruct (complaint_close_spec request pk db)
    as [(_ & _ & Hno) | (Hs & u' & p' & c' & Hacc' & Hrec)]; [by destruct (Hno u p c)|].
  split; [done|]. same_request Hacc Hacc' close_accepts. done.
Qed.

Lemma resolution_accepted (request : Request) (pk : nat) (db : DB)
    (u : User.t) (p : UserProfile.t) (c : Complaint.t) (notes : string) :
  resolution_accepts request pk db u p c notes ->
  let out := complaint_add_resolution request pk db in
  succeeded out = true
  /\ recorded ACTION_RESOLUTION_ADDED pk u
       (saved request db (Complaint.set_resolution_notes notes c)) db (db_after out).
Proof.
  intros Hacc. cbn zeta.
  destruct (complaint_add_resolution_spec request pk db)
    as [(_ & _ & Hno) | (Hs & u' & p' & c' & n' & Hacc' & Hrec)];
    [by destruct (Hno u p c notes)|].
  split; [done|]. same_request Hacc Hacc' resolution_accepts. done.
Qed.

Lemma assign_accepted (request : Request) (pk : nat) (db : DB)
    (u : User.t) (p : UserProfile.t) (c : Complaint.t) (a : User.t) :
  assign_accepts request pk db u p c a ->
  let out := complaint_assign request pk db in
  succeeded out = true
  /\ recorded ACTION_ASSIGNED pk u (saved request db (assigned a c)) db (db_after out).
Proof.
  intros Hacc. cbn zeta.
  destruct (complaint_assign_spec request pk db)
    as [(_ & _ & Hno) | (Hs & u' & p' & c' & a' & Hacc' & Hrec)];
    [by destruct (Hno u p c a)|].
  split; [done|]. same_request Hacc Hacc' assign_accepts. done.
Qed.

Lemma status_accepted (construct_instance : bool) (request : Request) (pk : nat)
    (db : DB) (u : User.t) (p : UserProfile.t) (c : Complaint.t) (s : Status) :
  status_accepts construct_instance request pk db u p c s ->
  let out := complaint_update_status construct_instance request pk db in
  succeeded out = true
  /\ recorded ACTION_STATUS_CHANGE pk u
       (saved request db (Complaint.set_status s c)) db (db_after out).
Proof.
  intros Hacc. cbn zeta.
  destruct (complaint_update_status_spec construct_instance request pk db)
    as [(_ & _ & Hno) | (Hs & u' & p' & c' & s' & Hacc' & Hrec)];
    [by destruct (Hno u p c s)|].
  split; [done|]. same_request Hacc Hacc' status_accepts. done.
Qed.

(** ** Closing a complaint *)

(** C6.  For a POST of an actor with a profile on a complaint of the
    actor's tenant, closing succeeds exactly when the actor is the one who
    submitted the complaint and its status is Resolved.  On success the
    stored complaint is the loaded one with status Closed, saved: its
    [closed_at] is kept if set and is the instant of the request otherwise.
    On failure the store is the one before. *)
Theorem close_iff_owner_and_resolved (request : Request) (pk : nat) (db : DB)
    (u : User.t) (p : UserProfile.t) (c : Complaint.t) :
  user request = Some u -> User.profile u = Some p -> method request = POST ->
  complaints db !! pk = Some c -> Complaint.tenant c = UserProfile.tenant p ->
  let out := complaint_close request pk db in
  (succeeded out = true <->
     Complaint.submitted_by c = Some (User.id u) /\ Complaint.status c = STATUS_RESOLVED)
  /\ (succeeded out = true ->
        exists c' : Complaint.t,
          complaints (db_after out) !! pk = Some c'
          /\ c' = saved request db (Complaint.set_status STATUS_CLOSED c)
          /\ Complaint.status c' = STATUS_CLOSED
          /\ Complaint.closed_at c' =
               match Complaint.closed_at c with
               | Some t => Some t
               | None => Some (now request)
               end)
  /\ (succeeded out = false -> db_after out = db).
Proof.
  intros Hu Hp Hm Hc Ht. cbn zeta.
  assert (Hg : get_object_or_404 db pk (UserProfile.tenant p) = Some c)
    by (by apply get_object_or_404_Some).
  destruct (complaint_close_spec request pk db)
    as [(Hs & Hdb & Hno) | (Hs & u' & p' & c' & Hacc & Hrec)]; rewrite Hs.
  - split; [|by split].
    split; [done|]. intros [Hsub Hst].
    exfalso. apply (Hno u p c). by repeat split.
  - destruct Hacc as (Hu' & Hp' & Hg' & Hsub & Hst & _). simplify_eq.
    split; [by split|]. split; [|done]. intros _.
    destruct (recorded_lookup _ _ _ _ _ _ Hrec) as (Hl & _).
    eexists. split; [exact Hl|]. split; [done|]. split; [done|].
    rewrite saved_closed_at. cbn. by destruct (Complaint.closed_at _).
Qed.

(** consumer2 closes the resolved complaint 3 of the demo data. *)
Lemma close_iff_owner_and_resolved_witness :
  let request := request_of consumer2 POST no_post in
  let out := complaint_close request 3 seed_db in
  succeeded out = true
  /\ (Complaint.status <$> complaints (db_after out) !! 3) = Some STATUS_CLOSED
  /\ (Complaint.closed_at <$> complaints (db_after out) !! 3) = Some (Some 200).
Proof.
  destruct (close_iff_owner_and_resolved (request_of consumer2 POST no_post) 3 seed_db
              consumer2 (UserProfile.mk 1 ROLE_CONSUMER)
              (Complaint.mk 1 "ACM-9C5B94B1" "Cannot access my account settings"
                 "The description of the demo complaint." "Technical" PRIORITY_MEDIUM
                 STATUS_RESOLVED (Some 6) None (Some 4)
                 "The issue was caused by a session cookie conflict."
                 103 103 (Some 103) None))
    as (Hiff & Hok & _).
  - reflexivity.
  - reflexivity.
  - reflexivity.
  - vm_compute. reflexivity.
  - reflexivity.
  - cbn zeta. assert (Hs := proj2 Hiff (conj eq_refl eq_refl)).
    split; [exact Hs|].
    destruct (Hok Hs) as (c' & Hl & _ & Hst & Hcl).
    rewrite Hl. cbn. by rewrite Hst, Hcl.
Defined.

(** ** Assignment *)

Lemma assigned_status (a : User.t) (c : Complaint.t) :
  Complaint.status (assigned a c) =
  if decide (Complaint.status c = STATUS_OPEN) then STATUS_IN_PROGRESS
  else Complaint.status c.
Proof.
  unfold assigned. cbn.
  destruct (Complaint.status c) eqn:E; cbn; rewrite ?E; first [done | by case_decide].
Qed.

(** C8.  A successful assignment stores the complaint with the new assignee
    and with status In Progress when the status was Open, and with the
    status it had in every other case, so the status changes exactly when it
    was Open; it puts exactly one entry in front of the audit log, of kind
    "assigned", so no status-change entry is ordered before the assignment.
    A refused assignment stores nothing.  The assignment is accepted for a
    POST of a helpdesk agent, manager or administrator of the complaint's
    tenant that names a support user or manager of that tenant. *)
Theorem assign_advances_open (request : Request) (pk : nat) (db : DB) (c : Complaint.t) :
  complaints db !! pk = Some c ->
  let out := complaint_assign request pk db in
  (succeeded out = true ->
     exists (c' : Complaint.t) (e : AuditLog.t),
       complaints (db_after out) !! pk = Some c'
       /\ Complaint.status c' =
            (if decide (Complaint.status c = STATUS_OPEN) then STATUS_IN_PROGRESS
             else Complaint.status c)
       /\ (Complaint.status c' <> Complaint.status c <-> Complaint.status c = STATUS_OPEN)
       /\ is_Some (Complaint.assigned_to c')
       /\ audit_logs (db_after out) = e :: audit_logs db
       /\ AuditLog.action e = ACTION_ASSIGNED /\ AuditLog.complaint e = pk)
  /\ (succeeded out = false -> db_after out = db)
  /\ (forall u p a, assign_accepts request pk db u p c a -> succeeded out = true).
Proof.
  intros Hc. cbn zeta.
  destruct (complaint_assign_spec request pk db)
    as [(Hs & Hdb & Hno) | (Hs & u & p & c0 & a & Hacc & Hrec)]; rewrite Hs.
  - split; [done|]. split; [done|]. intros u p a Hacc. by destruct (Hno u p c a).
  - split; [|by split]. intros _.
    assert (c0 = c) as ->.
    { destruct Hacc as (_ & _ & _ & Hg & _).
      apply get_object_or_404_Some in Hg as [Hg _]. congruence. }
    destruct (recorded_lookup _ _ _ _ _ _ Hrec) as (Hl & _ & e & Hlog & Ha & Hpk & _).
    exists (saved request db (assigned a c)), e.
    split; [exact Hl|]. rewrite saved_status, assigned_status.
    split; [done|]. split.
    { case_decide as Hopen; [rewrite Hopen; split; [done|discriminate]|].
      split; [done|]. intros ?. contradiction. }
    split; [|done]. unfold assigned; cbn.
    destruct (status_eqb _ _); cbn; eauto.
Qed.

(** helpdesk1 assigns support1 to the open complaint 2 of the demo data. *)
Lemma assign_advances_open_witness :
  let request := request_of helpdesk1 POST (post_of_assignee 4) in
  let out := complaint_assign request 2 seed_db in
  succeeded out = true
  /\ (Complaint.status <$> complaints seed_db !! 2) = Some STATUS_OPEN
  /\ (Complaint.status <$> complaints (db_after out) !! 2) = Some STATUS_IN_PROGRESS
  /\ (AuditLog.action <$> head (audit_logs (db_after out))) = Some ACTION_ASSIGNED.
Proof.
  edestruct (assign_advances_open (request_of helpdesk1 POST (post_of_assignee 4)) 2 seed_db)
    as (Hok & _ & Hacc).
  - vm_compute. reflexivity.
  - cbn zeta.
    assert (Hs := Hacc helpdesk1 (UserProfile.mk 1 ROLE_HELPDESK) support1).
    cbv beta in Hs. specialize (Hs ltac:(repeat split; vm_compute; reflexivity)).
    split; [exact Hs|]. split; [vm_compute; reflexivity|].
    destruct (Hok Hs) as (c' & e & Hl & Hst & _ & _ & Hlog & Ha & _).
    rewrite Hl, Hlog. cbn. by rewrite Hst, Ha.
Defined.

(** ** Status changes *)

Lemma can_update_status_In (c : Complaint.t) (s : Status) :
  Complaint.can_update_status c s = true <->
  In s (Complaint.valid_transitions (Complaint.status c)).
Proof.
  unfold Complaint.can_update_status. rewrite existsb_exists. split.
  - intros (x & Hin & Heq). apply status_eqb_eq in Heq. by subst.
  - intros Hin. exists s. by rewrite status_eqb_refl.
Qed.

(** The table has no transition from a status to itself. *)
Lemma no_self_transition (s : Status) :
  existsb (status_eqb s) (Complaint.valid_transitions s) = false.
Proof. by destruct s. Qed.

Lemma is_admin_role (p : UserProfile.t) :
  UserProfile.is_admin p = true <-> UserProfile.role p = ROLE_ADMIN.
Proof. unfold UserProfile.is_admin. destruct (UserProfile.role p); cbn; split; congruence. Qed.

Lemma admin_passes (p : UserProfile.t) :
  UserProfile.role p = ROLE_ADMIN ->
  passes ["helpdesk"; "support"; "manager"; "admin"] p = true
  /\ passes ["helpdesk"; "manager"; "admin"] p = true
  /\ passes ["support"; "manager"; "admin"] p = true.
Proof. unfold passes. intros ->. by cbn. Qed.

(** The transition check as the view evaluates it, for a non-administrator:
    it can only pass on a pair of the table. *)
Lemma status_check_table (construct_instance : bool) (p : UserProfile.t)
    (c : Complaint.t) (s : Status) :
  UserProfile.role p <> ROLE_ADMIN ->
  (Complaint.can_update_status
     (if construct_instance then Complaint.set_status s c else c) s
   || UserProfile.is_admin p) = true ->
  construct_instance = false /\ In s (Complaint.valid_transitions (Complaint.status c)).
Proof.
  intros Hrole Hcheck. apply orb_true_iff in Hcheck as [Hcan | Hadm].
  - destruct construct_instance.
    + unfold Complaint.can_update_status in Hcan. cbn in Hcan.
      by rewrite no_self_transition in Hcan.
    + split; [done|]. by apply can_update_status_In.
  - by apply is_admin_role in Hadm.
Qed.

(** C2, as the code has it.  For a POST with a valid status [s] on a
    complaint of the actor's tenant: an administrator's request succeeds
    whatever [s] is, the current status included; a request of any other
    actor succeeds only if [s] is in the allowed-destinations table for the
    stored status; a successful request stores the complaint with status [s]
    and puts one status-change entry in front of the audit log; a rejected
    request leaves the store, audit log included, as it was. *)
Theorem status_change_admin_or_table (construct_instance : bool)
    (request : Request) (pk : nat) (db : DB)
    (u : User.t) (p : UserProfile.t) (c : Complaint.t) (s : Status) :
  user request = Some u -> User.profile u = Some p -> method request = POST ->
  complaints db !! pk = Some c -> Complaint.tenant c = UserProfile.tenant p ->
  clean_status (post_status (POST_data request)) = Some s ->
  let out := complaint_update_status construct_instance request pk db in
  (UserProfile.role p = ROLE_ADMIN -> succeeded out = true)
  /\ (UserProfile.role p <> ROLE_ADMIN -> succeeded out = true ->
        In s (Complaint.valid_transitions (Complaint.status c)))
  /\ (succeeded out = true ->
        complaints (db_after out) !! pk = Some (saved request db (Complaint.set_status s c))
        /\ exists e : AuditLog.t,
             audit_logs (db_after out) = e :: audit_logs db
             /\ AuditLog.action e = ACTION_STATUS_CHANGE /\ AuditLog.complaint e = pk)
  /\ (succeeded out = false ->
        db_after out = db /\ audit_logs (db_after out) = audit_logs db).
Proof.
  intros Hu Hp Hm Hc Ht Hs. cbn zeta.
  assert (Hg : get_object_or_404 db pk (UserProfile.tenant p) = Some c)
    by (by apply get_object_or_404_Some).
  destruct (complaint_update_status_spec construct_instance request pk db)
    as [(Hsucc & Hdb & Hno) | (Hsucc & u' & p' & c' & s' & Hacc & Hrec)]; rewrite Hsucc.
  - split; [|split; [done|split; [done|]]].
    + intros Hadm. exfalso. apply (Hno u p c s).
      destruct (admin_passes p Hadm) as (Hpass & _).
      repeat (split; [done|]).
      apply orb_true_iff. right. by apply is_admin_role.
    + intros _. by rewrite Hdb.
  - destruct Hacc as (Hu' & Hp' & _ & Hg' & _ & Hs' & Hcheck). simplify_eq.
    split; [done|]. split.
    { intros Hrole _. by destruct (status_check_table _ _ _ _ Hrole Hcheck). }
    split; [|done]. intros _.
    destruct (recorded_lookup _ _ _ _ _ _ Hrec) as (Hl & _ & e & Hlog & Ha & Hpk & _).
    split; [exact Hl|]. by exists e.
Qed.

(** The administrator of the first tenant posts the status the open
    complaint 2 already has. *)
Lemma status_change_admin_or_table_witness :
  let request := request_of admin POST (post_of_status "open") in
  let out := complaint_update_status true request 2 seed_db in
  succeeded out = true
  /\ (Complaint.status <$> complaints (db_after out) !! 2) = Some STATUS_OPEN
  /\ length (audit_logs (db_after out)) = S (length (audit_logs seed_db)).
Proof.
  edestruct (status_change_admin_or_table true
               (request_of admin POST (post_of_status "open")) 2 seed_db
               admin (UserProfile.mk 1 ROLE_ADMIN))
    as (Hadm & _ & Hok & _).
  - reflexivity.
  - reflexivity.
  - reflexivity.
  - vm_compute. reflexivity.
  - reflexivity.
  - vm_compute. reflexivity.
  - cbn zeta. assert (Hs := Hadm eq_refl). split; [exact Hs|].
    destruct (Hok Hs) as (Hl & e & Hlog & _).
    rewrite Hl, Hlog. split; reflexivity.
Defined.

(** C2, as stated, fails: the administrator asks to move the open complaint
    2 to Open.  The pair is not in the table and the requested status is
    the current one, yet the request succeeds and is audited, whether or
    not the form writes to its instance. *)
Lemma admin_self_transition_succeeds :
  let request := request_of admin POST (post_of_status "open") in
  (Complaint.status <$> complaints seed_db !! 2) = Some STATUS_OPEN
  /\ clean_status (post_status (POST_data request)) = Some STATUS_OPEN
  /\ ~ In STATUS_OPEN (Complaint.valid_transitions STATUS_OPEN)
  /\ (succeeded (complaint_update_status true request 2 seed_db) = true
      /\ length (audit_logs (db_after (complaint_update_status true request 2 seed_db))) = 6)
  /\ (succeeded (complaint_update_status false request 2 seed_db) = true
      /\ length (audit_logs (db_after (complaint_update_status false request 2 seed_db))) = 6)
  /\ length (audit_logs seed_db) = 5.
Proof.
  cbn zeta. split; [vm_compute; reflexivity|]. split; [vm_compute; reflexivity|].
  split; [cbn; intros [H|[]]; discriminate|].
  vm_compute. repeat split.
Qed.

(** With a form that leaves the instance as loaded, every staff request for
    a pair of the table succeeds. *)
Lemma status_change_table_succeeds (request : Request) (pk : nat) (db : DB)
    (u : User.t) (p : UserProfile.t) (c : Complaint.t) (s : Status) :
  user request = Some u -> User.profile u = Some p -> method request = POST ->
  passes ["helpdesk"; "support"; "manager"; "admin"] p = true ->
  complaints db !! pk = Some c -> Complaint.tenant c = UserProfile.tenant p ->
  clean_status (post_status (POST_data request)) = Some s ->
  In s (Complaint.valid_transitions (Complaint.status c)) ->
  succeeded (complaint_update_status false request pk db) = true.
Proof.
  intros Hu Hp Hm Hpass Hc Ht Hs Hin.
  destruct (complaint_update_status_spec false request pk db)
    as [(_ & _ & Hno) | (Hsucc & _)]; [|done].
  exfalso. apply (Hno u p c s). repeat (split; [done|]).
  split; [by apply get_object_or_404_Some|]. repeat (split; [done|]).
  apply orb_true_iff. left. by apply can_update_status_In.
Qed.

(** With a form that writes the cleaned status to its instance, the check
    compares the requested status with itself, and only an administrator's
    request succeeds. *)
Lemma status_change_written_instance (request : Request) (pk : nat) (db : DB) :
  succeeded (complaint_update_status true request pk db) = true ->
  exists (u : User.t) (p : UserProfile.t),
    user request = Some u /\ User.profile u = Some p /\ UserProfile.role p = ROLE_ADMIN.
Proof.
  intros Hsucc.
  destruct (complaint_update_status_spec true request pk db)
    as [(Hf & _) | (_ & u & p & c & s & Hacc & _)]; [congruence|].
  destruct Hacc as (Hu & Hp & _ & _ & _ & _ & Hcheck).
  exists u, p. split; [done|]. split; [done|].
  destruct (decide (UserProfile.role p = ROLE_ADMIN)) as [|Hrole]; [done|].
  by destruct (status_check_table true p c s Hrole Hcheck).
Qed.

(** C5, as the code has it.  The status form offers every status, Closed
    included.  An administrator's POST of "closed" on a complaint of the
    tenant succeeds from every current status and stores the complaint as
    Closed, [closed_at] kept if set and set to the instant of the request
    otherwise.  For any other actor a complaint that is Closed after the
    request was Closed or Resolved before it. *)
Theorem status_change_reaches_closed (construct_instance : bool)
    (request : Request) (pk : nat) (db : DB)
    (u : User.t) (p : UserProfile.t) (c : Complaint.t) :
  user request = Some u -> User.profile u = Some p -> method request = POST ->
  complaints db !! pk = Some c -> Complaint.tenant c = UserProfile.tenant p ->
  post_status (POST_data request) = Some "closed" ->
  let out := complaint_update_status construct_instance request pk db in
  (UserProfile.role p = ROLE_ADMIN ->
     succeeded out = true
     /\ exists c' : Complaint.t,
          complaints (db_after out) !! pk = Some c'
          /\ Complaint.status c' = STATUS_CLOSED
          /\ Complaint.closed_at c' =
               match Complaint.closed_at c with
               | Some t => Some t
               | None => Some (now request)
               end)
  /\ (UserProfile.role p <> ROLE_ADMIN ->
      forall c' : Complaint.t,
        complaints (db_after out) !! pk = Some c' ->
        Complaint.status c' = STATUS_CLOSED ->
        Complaint.status c = STATUS_CLOSED \/ Complaint.status c = STATUS_RESOLVED).
Proof.
  intros Hu Hp Hm Hc Ht Hpost.
  assert (Hs : clean_status (post_status (POST_data request)) = Some STATUS_CLOSED)
    by (by rewrite Hpost).
  assert (Hg : get_object_or_404 db pk (UserProfile.tenant p) = Some c)
    by (by apply get_object_or_404_Some).
  cbn zeta. split.
  - intros Hrole.
    assert (Hacc : status_accepts construct_instance request pk db u p c STATUS_CLOSED).
    { destruct (admin_passes p Hrole) as (Hpass & _).
      repeat (split; [done|]).
      apply orb_true_iff. right. by apply is_admin_role. }
    destruct (status_accepted _ _ _ _ _ _ _ _ Hacc) as (Hsucc & Hrec).
    split; [exact Hsucc|].
    destruct (recorded_lookup _ _ _ _ _ _ Hrec) as (Hl & _).
    eexists. split; [exact Hl|]. split; [done|].
    rewrite saved_closed_at. cbn. by destruct (Complaint.closed_at c).
  - intros Hrole c' Hl Hst.
    destruct (complaint_update_status_spec construct_instance request pk db)
      as [(_ & Hdb & _) | (_ & u0 & p0 & c0 & s0 & Hacc & _)].
    + rewrite Hdb in Hl. left. congruence.
    + destruct Hacc as (Hu0 & Hp0 & _ & Hg0 & _ & Hs0 & Hcheck).
      rewrite Hu in Hu0. injection Hu0 as <-.
      rewrite Hp in Hp0. injection Hp0 as <-.
      rewrite Hg in Hg0. injection Hg0 as <-.
      rewrite Hs in Hs0. injection Hs0 as <-.
      destruct (status_check_table _ _ _ _ Hrole Hcheck) as (_ & Hin).
      destruct (Complaint.status c); cbn in Hin;
        first [by left | by right | exfalso; intuition discriminate].
Qed.

(** The administrator closes the open complaint 2 with the status form. *)
Lemma status_change_reaches_closed_witness :
  let request := request_of admin POST (post_of_status "closed") in
  let out := complaint_update_status true request 2 seed_db in
  succeeded out = true
  /\ (Complaint.status <$> complaints (db_after out) !! 2) = Some STATUS_CLOSED
  /\ (Complaint.closed_at <$> complaints (db_after out) !! 2) = Some (Some 200).
Proof.
  edestruct (status_change_reaches_closed true
               (request_of admin POST (post_of_status "closed")) 2 seed_db
               admin (UserProfile.mk 1 ROLE_ADMIN))
    as (Hadm & _).
  - reflexivity.
  - reflexivity.
  - reflexivity.
  - vm_compute. reflexivity.
  - reflexivity.
  - reflexivity.
  - cbn zeta. destruct (Hadm eq_refl) as (Hs & c' & Hl & Hst & Hcl).
    split; [exact Hs|]. rewrite Hl. cbn. rewrite Hst, Hcl. split; reflexivity.
Defined.

(** C5, as stated, fails: with the status-change operation the
    administrator moves the open complaint 2 to Closed, whether or not the
    form writes to its instance; nobody used the close operation. *)
Lemma status_change_sets_closed :
  let request := request_of admin POST (post_of_status "closed") in
  (Complaint.status <$> complaints seed_db !! 2) = Some STATUS_OPEN
  /\ (Complaint.status <$>
        complaints (db_after (complaint_update_status true request 2 seed_db)) !! 2)
     = Some STATUS_CLOSED
  /\ (Complaint.status <$>
        complaints (db_after (complaint_update_status false request 2 seed_db)) !! 2)
     = Some STATUS_CLOSED.
Proof. vm_compute. repeat split. Qed.

(** With a form that leaves the instance as loaded, a helpdesk agent closes
    the resolved complaint 3 through the pair Resolved -> Closed of the
    table. *)
Example helpdesk_closes_resolved :
  let request := request_of helpdesk1 POST (post_of_status "closed") in
  (Complaint.status <$> complaints seed_db !! 3) = Some STATUS_RESOLVED
  /\ (Complaint.status <$>
        complaints (db_after (complaint_update_status false request 3 seed_db)) !! 3)
     = Some STATUS_CLOSED.
Proof. vm_compute. repeat split. Qed.

(** ** Resolution notes *)

Lemma passes_resolution (p : UserProfile.t) :
  passes ["support"; "manager"; "admin"] p =
  match UserProfile.role p with
  | ROLE_SUPPORT | ROLE_MANAGER | ROLE_ADMIN => true
  | ROLE_CONSUMER | ROLE_HELPDESK => false
  end.
Proof. unfold passes. by destruct (UserProfile.role p). Qed.

(** Behind its gate the view answers with a redirect or a 404, never a 403. *)
Lemma add_resolution_forbidden_iff (request : Request) (pk : nat) (db : DB)
    (u : User.t) (p : UserProfile.t) :
  user request = Some u -> User.profile u = Some p ->
  (exists content, response (complaint_add_resolution request pk db)
                   = HttpResponseForbidden content)
  <-> passes ["support"; "manager"; "admin"] p = false.
Proof.
  intros Hu Hp. unfold complaint_add_resolution. enter_view Hu Hp.
  fold (passes ["support"; "manager"; "admin"] p).
  destruct (passes _ p); cbn.
  - split; [|done]. intros [content H]. revert H.
    destruct (get_object_or_404 _ _ _); [|done].
    destruct (method request); [done|].
    by destruct (ResolutionForm _).
  - split; [done|]. intros _. by eexists.
Qed.

(** C9, as the code has it.  The gate of the view lists support, manager
    and admin: consumers and helpdesk agents get a 403 and nothing is
    stored; for a support user, a manager or an administrator a POST with
    non-empty notes on a complaint of the tenant stores the notes. *)
Theorem add_resolution_roles (request : Request) (pk : nat) (db : DB)
    (u : User.t) (p : UserProfile.t) :
  user request = Some u -> User.profile u = Some p ->
  let out := complaint_add_resolution request pk db in
  ((exists content, response out = HttpResponseForbidden content)
     <-> UserProfile.role p = ROLE_CONSUMER \/ UserProfile.role p = ROLE_HELPDESK)
  /\ (UserProfile.role p = ROLE_CONSUMER \/ UserProfile.role p = ROLE_HELPDESK ->
        succeeded out = false /\ db_after out = db)
  /\ (UserProfile.role p = ROLE_SUPPORT \/ UserProfile.role p = ROLE_MANAGER
      \/ UserProfile.role p = ROLE_ADMIN ->
      forall (c : Complaint.t) (notes : string),
        complaints db !! pk = Some c -> Complaint.tenant c = UserProfile.tenant p ->
        method request = POST -> ResolutionForm (POST_data request) = Some notes ->
        succeeded out = true
        /\ complaints (db_after out) !! pk
           = Some (saved request db (Complaint.set_resolution_notes notes c))).
Proof.
  intros Hu Hp. cbn zeta.
  pose proof (add_resolution_forbidden_iff request pk db u p Hu Hp) as Hforb.
  rewrite passes_resolution in Hforb.
  pose proof (passes_resolution p) as Hpass.
  destruct (complaint_add_resolution_spec request pk db)
    as [(Hs & Hdb & Hno) | (Hs & u' & p' & c' & n' & Hacc & Hrec)].
  - split; [|split].
    + rewrite Hforb. destruct (UserProfile.role p); intuition discriminate.
    + done.
    + intros Hrole c notes Hc Ht Hm Hform. exfalso. apply (Hno u p c notes).
      repeat (split; [done|]).
      split; [rewrite Hpass; destruct (UserProfile.role p); intuition discriminate|].
      split; [by apply get_object_or_404_Some|]. done.
  - destruct Hacc as (Hu' & Hp' & Hgate & Hg & Hm & Hform).
    rewrite Hu in Hu'. injection Hu' as <-.
    rewrite Hp in Hp'. injection Hp' as <-.
    rewrite Hpass in Hgate.
    split; [|split].
    + rewrite Hforb. destruct (UserProfile.role p); intuition discriminate.
    + intros Hrole. destruct (UserProfile.role p); intuition discriminate.
    + intros _ c notes Hc Ht _ Hform'. split; [done|].
      apply get_object_or_404_Some in Hg as [Hg _].
      rewrite Hc in Hg. injection Hg as <-.
      rewrite Hform in Hform'. injection Hform' as <-.
      by destruct (recorded_lookup _ _ _ _ _ _ Hrec) as (Hl & _).
Qed.

(** The administrator of the first tenant posts notes for complaint 1. *)
Lemma add_resolution_roles_witness :
  let request := request_of admin POST (post_of_notes "Restarted the service.") in
  let out := complaint_add_resolution request 1 seed_db in
  succeeded out = true
  /\ (Complaint.resolution_notes <$> complaints (db_after out) !! 1)
     = Some "Restarted the service.".
Proof.
  edestruct (add_resolution_roles
               (request_of admin POST (post_of_notes "Restarted the service.")) 1 seed_db
               admin (UserProfile.mk 1 ROLE_ADMIN))
    as (_ & _ & Hok).
  - reflexivity.
  - reflexivity.
  - cbn zeta.
    edestruct (Hok ltac:(by right; right)) as (Hs & Hl).
    + vm_compute. reflexivity.
    + reflexivity.
    + reflexivity.
    + vm_compute. reflexivity.
    + split; [exact Hs|]. rewrite Hl. reflexivity.
Defined.

(** C9, as stated, fails: the administrator is not refused; the notes the
    administrator posts for complaint 1 are stored and audited. *)
Lemma admin_adds_resolution :
  let request := request_of admin POST (post_of_notes "Restarted the service.") in
  let out := complaint_add_resolution request 1 seed_db in
  (UserProfile.role <$> User.profile admin) = Some ROLE_ADMIN
  /\ response out = Redirect "complaint_detail" (Some 1)
  /\ succeeded out = true
  /\ (Complaint.resolution_notes <$> complaints seed_db !! 1) = Some ""
  /\ (Complaint.resolution_notes <$> complaints (db_after out) !! 1)
     = Some "Restarted the service."
  /\ (AuditLog.action <$> head (audit_logs (db_after out))) = Some ACTION_RESOLUTION_ADDED.
Proof. vm_compute. repeat split. Qed.

(** The detail page computes its flag for the notes form from support and
    manager alone: it differs from the gate of the view exactly for an
    administrator. *)
Lemma can_add_resolution_flag (p : UserProfile.t) :
  (UserProfile.is_support p || UserProfile.is_manager p)
  = passes ["support"; "manager"; "admin"] p
  <-> UserProfile.role p <> ROLE_ADMIN.
Proof.
  unfold passes, UserProfile.is_support, UserProfile.is_manager.
  destruct (UserProfile.role p); cbn; split; congruence.
Qed.

(** ** Closed complaints *)

(** C4, as the code has it.  On a complaint whose status is Closed the close
    operation stores nothing, and neither does a status change asked by
    anyone but an administrator.  The other operations carry no check of the
    status: an accepted assignment stores the new assignee, accepted notes
    are stored, and an accepted status change, which then comes from an
    administrator, stores the requested status. *)
Theorem closed_complaint_operations (request : Request) (pk : nat) (db : DB)
    (c : Complaint.t) :
  complaints db !! pk = Some c -> Complaint.status c = STATUS_CLOSED ->
  db_after (complaint_close request pk db) = db
  /\ (forall construct_instance : bool,
        (forall u p, user request = Some u -> User.profile u = Some p ->
                     UserProfile.role p <> ROLE_ADMIN) ->
        db_after (complaint_update_status construct_instance request pk db) = db)
  /\ (forall u p a, assign_accepts request pk db u p c a ->
        complaints (db_after (complaint_assign request pk db)) !! pk
        = Some (saved request db
                  (Complaint.set_assigned_to (Some (User.id a)) c)))
  /\ (forall u p notes, resolution_accepts request pk db u p c notes ->
        complaints (db_after (complaint_add_resolution request pk db)) !! pk
        = Some (saved request db (Complaint.set_resolution_notes notes c)))
  /\ (forall construct_instance u p s,
        status_accepts construct_instance request pk db u p c s ->
        UserProfile.role p = ROLE_ADMIN
        /\ complaints (db_after (complaint_update_status construct_instance request pk db))
             !! pk
           = Some (saved request db (Complaint.set_status s c))).
Proof.
  intros Hc Hst. split; [|split; [|split; [|split]]].
  - destruct (complaint_close_spec request pk db)
      as [(_ & Hdb & _) | (_ & u & p & c' & Hacc & _)]; [done|].
    destruct Hacc as (_ & _ & Hg & _ & Hres & _).
    apply get_object_or_404_Some in Hg as [Hg _]. congruence.
  - intros ci Hrole.
    destruct (complaint_update_status_spec ci request pk db)
      as [(_ & Hdb & _) | (_ & u & p & c' & s & Hacc & _)]; [done|].
    destruct Hacc as (Hu & Hp & _ & Hg & _ & _ & Hcheck).
    apply get_object_or_404_Some in Hg as [Hg _].
    rewrite Hc in Hg. injection Hg as <-.
    destruct (status_check_table ci p c s (Hrole u p Hu Hp) Hcheck) as (_ & Hin).
    rewrite Hst in Hin. destruct Hin.
  - intros u p a Hacc.
    destruct (assign_accepted _ _ _ _ _ _ _ Hacc) as (_ & Hrec).
    destruct (recorded_lookup _ _ _ _ _ _ Hrec) as (Hl & _).
    rewrite Hl. unfold assigned. cbn. by rewrite Hst.
  - intros u p notes Hacc.
    destruct (resolution_accepted _ _ _ _ _ _ _ Hacc) as (_ & Hrec).
    by destruct (recorded_lookup _ _ _ _ _ _ Hrec) as (Hl & _).
  - intros ci u p s Hacc.
    destruct (status_accepted _ _ _ _ _ _ _ _ Hacc) as (_ & Hrec).
    destruct (recorded_lookup _ _ _ _ _ _ Hrec) as (Hl & _).
    split; [|done].
    destruct Hacc as (_ & _ & _ & _ & _ & _ & Hcheck).
    destruct (decide (UserProfile.role p = ROLE_ADMIN)) as [|Hrole]; [done|].
    destruct (status_check_table ci p c s Hrole Hcheck) as (_ & Hin).
    rewrite Hst in Hin. destruct Hin.
Qed.

(** manager1 assigns support1 to the closed complaint 4 of the demo data. *)
Lemma closed_complaint_operations_witness :
  let request := request_of manager1 POST (post_of_assignee 4) in
  db_after (complaint_close request 4 seed_db) = seed_db
  /\ db_after (complaint_update_status true request 4 seed_db) = seed_db
  /\ (Complaint.assigned_to <$> complaints (db_after (complaint_assign request 4 seed_db)) !! 4)
     = Some (Some 4).
Proof.
  edestruct (closed_complaint_operations
               (request_of manager1 POST (post_of_assignee 4)) 4 seed_db)
    as (Hclose & Hstatus & Hassign & _).
  - vm_compute. reflexivity.
  - reflexivity.
  - cbn zeta. split; [exact Hclose|]. split.
    + apply Hstatus. intros u p [= <-] [= <-]. discriminate.
    + rewrite (Hassign manager1 (UserProfile.mk 1 ROLE_MANAGER) support1).
      * reflexivity.
      * repeat split; vm_compute; reflexivity.
Defined.

(** C4, as stated, fails: complaint 4 of the demo data is Closed, and still
    manager1 gives it an assignee, support1 replaces its resolution notes and
    the administrator reopens it. *)
Lemma closed_complaint_changes :
  let after (out : Outcome) := complaints (db_after out) !! 4 in
  (Complaint.status <$> complaints seed_db !! 4) = Some STATUS_CLOSED
  /\ (Complaint.assigned_to <$> complaints seed_db !! 4) = Some None
  /\ (Complaint.assigned_to <$>
        after (complaint_assign (request_of manager1 POST (post_of_assignee 4)) 4 seed_db))
     = Some (Some (User.id support1))
  /\ (Complaint.resolution_notes <$> complaints seed_db !! 4)
     = Some "Thank you for your suggestion."
  /\ (Complaint.resolution_notes <$>
        after (complaint_add_resolution
                 (request_of support1 POST (post_of_notes "Shipped in 2.1.")) 4 seed_db))
     = Some "Shipped in 2.1."
  /\ (Complaint.status <$>
        after (complaint_update_status true
                 (request_of admin POST (post_of_status "open")) 4 seed_db))
     = Some STATUS_OPEN
  /\ (Complaint.status <$>
        after (complaint_update_status false
                 (request_of admin POST (post_of_status "open")) 4 seed_db))
     = Some STATUS_OPEN.
Proof. vm_compute. repeat split. Qed.

(** ** The audit trail *)

Lemma complaint_detail_reads (request : Request) (pk : nat) (db : DB) :
  let out := complaint_detail request pk db in
  succeeded out = false /\ db_after out = db.
Proof.
  cbn zeta. unfold complaint_detail, login_required.
  destruct (user request) as [u|]; [|done].
  destruct (User.profile u) as [p|]; [|done].
  destruct (get_object_or_404 _ _ _) as [c|]; [|done].
  by destruct (_ && _).
Qed.

Lemma complaint_create_spec (request : Request) (db : DB) :
  let out := complaint_create request db in
  (succeeded out = false /\ db_after out = db)
  \/ (succeeded out = true /\
      exists (u : User.t) (p : UserProfile.t) (c' : Complaint.t) (e : AuditLog.t),
        user request = Some u /\ User.profile u = Some p /\ method request = POST
        /\ is_Some (ComplaintForm (POST_data request) p db)
        /\ Complaint.tenant c' = UserProfile.tenant p
        /\ Complaint.status c' = STATUS_OPEN
        /\ response out = to_detail (next_pk db)
        /\ entry_for ACTION_CREATED (next_pk db) u (Complaint.tenant c') e
        /\ db_after out = mkDB (tenants db) (users db)
                            (<[next_pk db := c']> (complaints db))
                            (e :: audit_logs db) (S (next_pk db))).
Proof.
  cbn zeta. unfold complaint_create.
  destruct (user request) as [u|] eqn:Hu; [|by left].
  destruct (User.profile u) as [p|] eqn:Hp; [|by left].
  destruct (method request) eqn:Hm; [by left|].
  destruct (ComplaintForm _ p db) as [c|] eqn:Hform; [|by left].
  right. split; [done|].
  assert (Hopen : Complaint.status c = STATUS_OPEN).
  { revert Hform. unfold ComplaintForm.
    destruct (clean_required_text _); [|done].
    destruct (clean_required_text _); [|done].
    destruct (clean_priority _); [|done].
    destruct (_ || _); [done|].
    destruct (UserProfile.is_consumer p); [by intros [= <-]|].
    destruct (post_submitted_by _); [|by intros [= <-]].
    destruct (clean_user_choice _ _); [by intros [= <-]|done]. }
  unfold save_new, create_audit_log; cbn.
  eexists u, p, _, _.
  split; [done|]. split; [done|]. split; [done|]. split; [by eexists|].
  split; [|split; [|split; [|split; [|reflexivity]]]].
  - reflexivity.
  - exact Hopen.
  - reflexivity.
  - by repeat split.
Qed.

Lemma audit_of_cons (pk : nat) (e : AuditLog.t) (db db' : DB) :
  audit_logs db' = e :: audit_logs db -> AuditLog.complaint e = pk ->
  audit_of pk db' = e :: audit_of pk db
  /\ forall pk', pk' <> pk -> audit_of pk' db' = audit_of pk' db.
Proof.
  intros Hlog Hpk. unfold audit_of. rewrite Hlog. cbn. split.
  - by rewrite Hpk, Nat.eqb_refl.
  - intros pk' Hne. rewrite Hpk.
    by destruct (Nat.eqb_spec pk pk') as [->|].
Qed.

Lemma dispatch_spec (construct_instance : bool) (op : Operation)
    (request : Request) (pk : nat) (db : DB) :
  let out := dispatch construct_instance op request pk db in
  (succeeded out = false /\ db_after out = db)
  \/ (succeeded out = true /\
      exists (a : Action) (u : User.t) (c' : Complaint.t),
        action_of op = Some a /\ user request = Some u
        /\ recorded a pk u c' db (db_after out)).
Proof.
  destruct op; cbn [dispatch action_of]; cbn zeta.
  - left. apply complaint_detail_reads.
  - destruct (complaint_update_status_spec construct_instance request pk db)
      as [(? & ? & _) | (? & u & p & c & s & Hacc & Hrec)]; [by left|right].
    split; [done|]. destruct Hacc as (Hu & _). by eexists _, u, _.
  - destruct (complaint_assign_spec request pk db)
      as [(? & ? & _) | (? & u & p & c & a & Hacc & Hrec)]; [by left|right].
    split; [done|]. destruct Hacc as (Hu & _). by eexists _, u, _.
  - destruct (complaint_add_resolution_spec request pk db)
      as [(? & ? & _) | (? & u & p & c & n & Hacc & Hrec)]; [by left|right].
    split; [done|]. destruct Hacc as (Hu & _). by eexists _, u, _.
  - destruct (complaint_close_spec request pk db)
      as [(? & ? & _) | (? & u & p & c & Hacc & Hrec)]; [by left|right].
    split; [done|]. destruct Hacc as (Hu & _). by eexists _, u, _.
Qed.

(** C3.  Every operation on a complaint that succeeds stores the complaint
    and puts exactly one entry in front of the audit log in the same call:
    the entry names the complaint, the actor, the complaint's tenant and the
    action of the operation, so the entries of that complaint grow by this
    one and those of every other complaint stay.  Creation does the same
    for the new complaint, with a "created" entry.  An operation that does
    not succeed returns the store it was given: no entry is added for any
    complaint. *)
Theorem one_audit_entry_per_mutation (construct_instance : bool)
    (request : Request) (db : DB) :
  (forall (op : Operation) (pk : nat),
     let out := dispatch construct_instance op request pk db in
     (succeeded out = true ->
        exists (a : Action) (u : User.t) (c' : Complaint.t) (e : AuditLog.t),
          action_of op = Some a /\ user request = Some u
          /\ complaints (db_after out) !! pk = Some c'
          /\ entry_for a pk u (Complaint.tenant c') e
          /\ audit_logs (db_after out) = e :: audit_logs db
          /\ audit_of pk (db_after out) = e :: audit_of pk db
          /\ forall pk', pk' <> pk -> audit_of pk' (db_after out) = audit_of pk' db)
     /\ (succeeded out = false ->
           db_after out = db
           /\ forall pk', audit_of pk' (db_after out) = audit_of pk' db))
  /\ (let out := complaint_create request db in
      (succeeded out = true ->
         exists (u : User.t) (c' : Complaint.t) (e : AuditLog.t),
           user request = Some u
           /\ complaints (db_after out) !! next_pk db = Some c'
           /\ entry_for ACTION_CREATED (next_pk db) u (Complaint.tenant c') e
           /\ audit_logs (db_after out) = e :: audit_logs db
           /\ audit_of (next_pk db) (db_after out) = e :: audit_of (next_pk db) db
           /\ forall pk', pk' <> next_pk db ->
                audit_of pk' (db_after out) = audit_of pk' db)
      /\ (succeeded out = false ->
            db_after out = db
            /\ forall pk', audit_of pk' (db_after out) = audit_of pk' db)).
Proof.
  split.
  - intros op pk. cbn zeta.
    destruct (dispatch_spec construct_instance op request pk db)
      as [(Hs & Hdb) | (Hs & a & u & c' & Ha & Hu & Hrec)]; rewrite Hs.
    + split; [done|]. intros _. by rewrite Hdb.
    + split; [|done]. intros _.
      destruct (recorded_lookup _ _ _ _ _ _ Hrec) as (Hl & _ & e & Hlog & He).
      exists a, u, c', e. repeat (split; [done|]).
      apply (audit_of_cons pk e db); [done|]. by destruct He as (_ & ? & _).
  - cbn zeta.
    destruct (complaint_create_spec request db)
      as [(Hs & Hdb) | (Hs & u & p & c' & e & Hu & _ & _ & _ & _ & _ & _ & He & Hdb)];
      rewrite Hs.
    + split; [done|]. intros _. by rewrite Hdb.
    + split; [|done]. intros _. exists u, c', e. split; [done|].
      split; [rewrite Hdb; apply lookup_insert_eq|]. split; [done|].
      split; [by rewrite Hdb|].
      apply (audit_of_cons _ e db); [by rewrite Hdb|].
      by destruct He as (_ & ? & _).
Qed.

(** consumer1 submits a new complaint: it gets pk 6 and one audit entry. *)
Lemma one_audit_entry_per_mutation_witness :
  let request :=
    request_of consumer1 POST
      (mkPost None None None (Some "Printer jams") (Some "Every second page.")
         (Some "Hardware") (Some "high") None) in
  let out := complaint_create request seed_db in
  succeeded out = true
  /\ next_pk seed_db = 6
  /\ length (audit_of 6 seed_db) = 0
  /\ length (audit_of 6 (db_after out)) = 1
  /\ length (audit_logs (db_after out)) = S (length (audit_logs seed_db)).
Proof.
  set (request := request_of consumer1 POST
         (mkPost None None None (Some "Printer jams") (Some "Every second page.")
            (Some "Hardware") (Some "high") None)).
  destruct (one_audit_entry_per_mutation true request seed_db) as (_ & Hcreate & _).
  cbn zeta.
  assert (Hs : succeeded (complaint_create request seed_db) = true)
    by (vm_compute; reflexivity).
  destruct (Hcreate Hs) as (u & c' & e & _ & _ & _ & Hlog & Haudit & _).
  split; [exact Hs|]. split; [reflexivity|]. split; [reflexivity|].
  change (next_pk seed_db) with 6 in Haudit.
  rewrite Haudit, Hlog. split; reflexivity.
Defined.

(** * Further properties of the models *)

(** ** [closed_at] *)

Lemma mutate_closed_at (m : Mutation) (c : Complaint.t) :
  Complaint.closed_at (mutate m c) = Complaint.closed_at c.
Proof. by destruct m. Qed.

Lemma save_step_closed_at (c : Complaint.t) (st : SaveStep) :
  Complaint.closed_at (save_step c st) =
  match Complaint.closed_at c with
  | Some t => Some t
  | None => if status_eqb (status_at_save c st) STATUS_CLOSED
            then Some (step_now st) else None
  end.
Proof.
  unfold save_step, status_at_save, Complaint.save; cbn.
  rewrite mutate_closed_at.
  destruct (Complaint.closed_at c); cbn.
  - by rewrite andb_false_r.
  - by rewrite andb_true_r.
Qed.

Lemma save_steps_keep_closed_at (steps : list SaveStep) :
  forall (c : Complaint.t) (t : nat),
    Complaint.closed_at c = Some t ->
    Complaint.closed_at (save_steps c steps) = Some t
    /\ count_closed_assignments c steps = 0.
Proof.
  induction steps as [|st rest IH]; intros c t Ht; [done|].
  cbn [save_steps fold_left count_closed_assignments].
  assert (Hst : Complaint.closed_at (save_step c st) = Some t)
    by (by rewrite save_step_closed_at, Ht).
  destruct (IH _ _ Hst) as [Hkeep Hcount].
  split; [exact Hkeep|].
  rewrite Hcount. unfold assigns_closed_at.
  rewrite mutate_closed_at, Ht; cbn. by rewrite andb_false_r.
Qed.

(** X1.  Over any run of saves of one complaint object, a [closed_at] that
    is set survives every save, an unset one ends as the instant of the
    first save whose status is Closed, and the assignment
    [self.closed_at = timezone.now()] runs at most once. *)
Theorem closed_at_assigned_once (c : Complaint.t) (steps : list SaveStep) :
  Complaint.closed_at (save_steps c steps) =
    match Complaint.closed_at c with
    | Some t => Some t
    | None => first_closed_save c steps
    end
  /\ count_closed_assignments c steps =
       match Complaint.closed_at c, first_closed_save c steps with
       | None, Some _ => 1
       | _, _ => 0
       end.
Proof.
  revert c. induction steps as [|st rest IH]; intros c.
  - cbn. by destruct (Complaint.closed_at c).
  - destruct (Complaint.closed_at c) as [t|] eqn:Hc.
    + destruct (save_steps_keep_closed_at (st :: rest) c t Hc) as [-> ->]. done.
    + cbn [save_steps fold_left count_closed_assignments first_closed_save].
      pose proof (save_step_closed_at c st) as Hst. rewrite Hc in Hst.
      unfold assigns_closed_at. rewrite mutate_closed_at, Hc.
      fold (status_at_save c st).
      destruct (status_eqb (status_at_save c st) STATUS_CLOSED) eqn:Hcl.
      * destruct (save_steps_keep_closed_at rest _ _ Hst) as [Hk Hn].
        unfold save_steps in Hk. rewrite Hk, Hn. done.
      * destruct (IH (save_step c st)) as [IH1 IH2].
        unfold save_steps in IH1. rewrite IH1, IH2, Hst. done.
Qed.

(** ** Reference numbers *)









(** ** The transition table *)

(** X3.  A transition that [can_update_status] allows never starts from
    Closed and never leads to the status the complaint has; unless it ends
    in Closed, the table also allows the way back. *)
Theorem can_update_status_table (c : Complaint.t) (s : Status) :
  Complaint.can_update_status c s = true ->
  Complaint.status c <> STATUS_CLOSED
  /\ s <> Complaint.status c
  /\ (s <> STATUS_CLOSED ->
      Complaint.can_update_status (Complaint.set_status s c) (Complaint.status c) = true).
Proof.
  unfold Complaint.can_update_status. cbn.
  destruct (Complaint.status c), s; cbn; intros H; try discriminate;
    repeat split; try discriminate; try reflexivity; intros Hne; by destruct Hne.
Qed.

Lemma can_update_status_table_witness :
  let c := Complaint.mk 1 "ACM-0A1B2C3D" "t" "d" "" PRIORITY_LOW STATUS_IN_PROGRESS
             (Some 5) None None "" 1 1 None None in
  Complaint.can_update_status (Complaint.set_status STATUS_RESOLVED c) STATUS_IN_PROGRESS
  = true.
Proof.
  intros c.
  destruct (can_update_status_table c STATUS_RESOLVED) as (_ & _ & Hback).
  - reflexivity.
  - apply Hback. discriminate.
Defined.

(** * Properties of runs of requests *)

(** ** One request *)

Lemma mutates_fields (ms : list Mutation) (c : Complaint.t) :
  same_identity c (mutates ms c)
  /\ Complaint.reference_number (mutates ms c) = Complaint.reference_number c
  /\ Complaint.resolved_at (mutates ms c) = Complaint.resolved_at c
  /\ Complaint.closed_at (mutates ms c) = Complaint.closed_at c.
Proof.
  revert c. induction ms as [|m ms IH]; intros c.
  - by repeat split.
  - cbn. specialize (IH (mutate m c)).
    destruct m; cbn in IH; exact IH.
Qed.

Lemma generated_nonempty (slug : option string) (uuid4 : string) :
  Complaint._generate_reference_number slug uuid4 <> "".
Proof.
  unfold Complaint._generate_reference_number.
  destruct slug as [s|]; [|done]. by destruct (substring 0 3 (upper s)).
Qed.

Lemma save_identity (slug : option string) (uuid4 : string) (now : nat) (c : Complaint.t) :
  same_identity c (Complaint.save slug uuid4 now c).
Proof.
  unfold same_identity, Complaint.save; cbn.
  repeat (split; [done|]). split; [|split].
  - intros Hne. destruct (String.eqb_spec (Complaint.reference_number c) ""); done.
  - intros t ->. by rewrite andb_false_r.
  - intros t ->. by rewrite andb_false_r.
Qed.

Lemma save_stamped (slug : option string) (uuid4 : string) (now : nat) (c : Complaint.t) :
  stamped (Complaint.save slug uuid4 now c).
Proof.
  unfold stamped, Complaint.save; cbn. split; [|split].
  - destruct (String.eqb_spec (Complaint.reference_number c) ""); [|done].
    apply generated_nonempty.
  - intros ->. cbn. destruct (Complaint.resolved_at c); cbn; eauto.
  - intros ->. cbn. destruct (Complaint.closed_at c); cbn; eauto.
Qed.

Lemma same_identity_trans (c1 c2 c3 : Complaint.t) :
  same_identity c1 c2 -> same_identity c2 c3 -> same_identity c1 c3.
Proof.
  intros H12 H23. unfold same_identity in *. destruct_and!.
  repeat split; try congruence; eauto.
  intros Hne. transitivity (Complaint.reference_number c2); [|by eauto].
  match goal with H : _ -> Complaint.reference_number c3 = _ |- _ => apply H end.
  match goal with H : _ -> Complaint.reference_number c2 = _ |- _ => by rewrite H end.
Qed.

Lemma same_identity_refl (c : Complaint.t) : same_identity c c.
Proof. by repeat split. Qed.

Lemma saved_mutates_identity (request : Request) (db : DB) (ms : list Mutation)
    (c : Complaint.t) :
  same_identity c (saved request db (mutates ms c))
  /\ stamped (saved request db (mutates ms c)).
Proof.
  split; [|apply save_stamped].
  destruct (mutates_fields ms c) as (Hm & Href & Hres & Hcl).
  pose proof (save_identity
                (Tenant.slug <$> tenants db !! Complaint.tenant (mutates ms c))
                (uuid4 request) (now request) (mutates ms c)) as Hs.
  fold (saved request db (mutates ms c)) in Hs.
  unfold same_identity in Hm, Hs |- *. rewrite Href, Hres, Hcl in Hs.
  destruct_and!. repeat split; try congruence; eauto.
Qed.

Lemma dispatch_step (construct_instance : bool) (op : Operation)
    (request : Request) (pk : nat) (db : DB) :
  let out := dispatch construct_instance op request pk db in
  db_after out = db
  \/ exists (a : Action) (u : User.t) (p : UserProfile.t) (c0 : Complaint.t)
            (ms : list Mutation),
       action_of op = Some a /\ user request = Some u /\ User.profile u = Some p
       /\ complaints db !! pk = Some c0
       /\ Complaint.tenant c0 = UserProfile.tenant p
       /\ recorded a pk u (saved request db (mutates ms c0)) db (db_after out)
       /\ (Complaint.status c0 = STATUS_CLOSED -> UserProfile.role p <> ROLE_ADMIN ->
           Complaint.status (mutates ms c0) = STATUS_CLOSED).
Proof.
  destruct op; cbn [dispatch action_of]; cbn zeta.
  - left. apply complaint_detail_reads.
  - destruct (complaint_update_status_spec construct_instance request pk db)
      as [(_ & ? & _) | (_ & u & p & c & s & Hacc & Hrec)]; [by left|right].
    destruct Hacc as (Hu & Hp & _ & Hg & _ & _ & Hcheck).
    apply get_object_or_404_Some in Hg as [Hc Ht].
    exists ACTION_STATUS_CHANGE, u, p, c, [SetStatus s].
    repeat (split; [done|]). intros Hcl Hrole.
    destruct (status_check_table _ _ _ _ Hrole Hcheck) as (_ & Hin).
    rewrite Hcl in Hin. destruct Hin.
  - destruct (complaint_assign_spec request pk db)
      as [(_ & ? & _) | (_ & u & p & c & a & Hacc & Hrec)]; [by left|right].
    destruct Hacc as (Hu & Hp & _ & Hg & _).
    apply get_object_or_404_Some in Hg as [Hc Ht].
    exists ACTION_ASSIGNED, u, p, c.
    destruct (status_eqb (Complaint.status c) STATUS_OPEN) eqn:Hopen.
    + exists [SetAssignedTo (Some (User.id a)); SetStatus STATUS_IN_PROGRESS].
      repeat (split; [done|]). split.
      * unfold assigned in Hrec. cbn in Hrec. by rewrite Hopen in Hrec.
      * intros Hcl. apply status_eqb_eq in Hopen. congruence.
    + exists [SetAssignedTo (Some (User.id a))].
      repeat (split; [done|]). split; [|done].
      unfold assigned in Hrec. cbn in Hrec. by rewrite Hopen in Hrec.
  - destruct (complaint_add_resolution_spec request pk db)
      as [(_ & ? & _) | (_ & u & p & c & n & Hacc & Hrec)]; [by left|right].
    destruct Hacc as (Hu & Hp & _ & Hg & _).
    apply get_object_or_404_Some in Hg as [Hc Ht].
    exists ACTION_RESOLUTION_ADDED, u, p, c, [SetResolutionNotes n]. by repeat split.
  - destruct (complaint_close_spec request pk db)
      as [(_ & ? & _) | (_ & u & p & c & Hacc & Hrec)]; [by left|right].
    destruct Hacc as (Hu & Hp & Hg & _ & Hres & _).
    apply get_object_or_404_Some in Hg as [Hc Ht].
    exists ACTION_CLOSED, u, p, c, [SetStatus STATUS_CLOSED]. by repeat split.
Qed.

(** *** What the complaint form accepts *)

Lemma clean_required_text_Some (v : option string) (s : string) :
  clean_required_text v = Some s -> s <> "" /\ exists raw, v = Some raw /\ s = strip raw.
Proof.
  unfold clean_required_text. destruct v as [raw|]; [|done].
  destruct (String.eqb_spec (strip raw) ""); [done|].
  intros [= <-]. eauto.
Qed.

Lemma users_with_role_elem (db : DB) (tenant : nat) (roles : list Role) (u : User.t) :
  In u (users_with_role db tenant roles) ->
  exists (k : nat) (p : UserProfile.t),
    users db !! k = Some u /\ User.profile u = Some p
    /\ UserProfile.tenant p = tenant /\ In (UserProfile.role p) roles.
Proof.
  unfold users_with_role. rewrite filter_In. intros [Hin Hf].
  apply list_elem_of_In, list_elem_of_fmap in Hin as ([k u'] & -> & Hin).
  apply elem_of_map_to_list in Hin. cbn in *.
  destruct (User.profile u') as [p|]; [|done].
  apply andb_true_iff in Hf as [Ht Hr]. apply Nat.eqb_eq in Ht.
  exists k, p. repeat (split; [done|]).
  apply existsb_exists in Hr as (r & Hr & Heq).
  destruct (UserProfile.role p), r; cbn in Heq; try discriminate; exact Hr.
Qed.

Lemma clean_user_choice_Some (queryset : list User.t) (pk : nat) (u : User.t) :
  clean_user_choice queryset pk = Some u -> In u queryset /\ User.id u = pk.
Proof.
  unfold clean_user_choice. intros H. apply find_some in H as [Hin Heq].
  by apply Nat.eqb_eq in Heq.
Qed.

Lemma ComplaintForm_Some (post : PostData) (p : UserProfile.t) (db : DB) (c0 : Complaint.t) :
  ComplaintForm post p db = Some c0 ->
  clean_required_text (post_title post) = Some (Complaint.title c0)
  /\ clean_required_text (post_description post) = Some (Complaint.description c0)
  /\ clean_priority (post_priority post) = Some (Complaint.priority c0)
  /\ Complaint.category c0 = clean_optional_text (post_category post)
  /\ String.length (Complaint.title c0) <= 255
  /\ String.length (Complaint.category c0) <= 100
  /\ Complaint.status c0 = STATUS_OPEN
  /\ Complaint.reference_number c0 = ""
  /\ Complaint.logged_by c0 = None /\ Complaint.assigned_to c0 = None
  /\ Complaint.resolved_at c0 = None /\ Complaint.closed_at c0 = None
  /\ Complaint.resolution_notes c0 = ""
  /\ (Complaint.submitted_by c0 = None
      \/ UserProfile.is_consumer p = false
         /\ exists u' : User.t,
              post_submitted_by post = Some (User.id u')
              /\ Complaint.submitted_by c0 = Some (User.id u')
              /\ In u' (users_with_role db (UserProfile.tenant p) [ROLE_CONSUMER])).
Proof.
  unfold ComplaintForm.
  destruct (clean_required_text (post_title post)) as [title|]; [|done].
  destruct (clean_required_text (post_description post)) as [description|]; [|done].
  destruct (clean_priority (post_priority post)) as [priority|]; [|done].
  destruct (negb (String.length title <=? 255)%nat) eqn:Hlen1; [done|].
  destruct (negb (String.length (clean_optional_text (post_category post)) <=? 100)%nat)
    eqn:Hlen2; [done|]. cbn [orb].
  apply negb_false_iff, Nat.leb_le in Hlen1.
  apply negb_false_iff, Nat.leb_le in Hlen2.
  destruct (UserProfile.is_consumer p) eqn:Hcons.
  { intros [= <-]. cbn. repeat (split; [done|]). by left. }
  destruct (post_submitted_by post) as [pk|] eqn:Hpk.
  2: { intros [= <-]. cbn. repeat (split; [done|]). by left. }
  destruct (clean_user_choice _ pk) as [u'|] eqn:Hchoice; [|done].
  intros [= <-]. cbn. repeat (split; [done|]). right. split; [done|].
  apply clean_user_choice_Some in Hchoice as [Hin <-]. by exists u'.
Qed.

Lemma complaint_create_shape (request : Request) (db : DB) :
  let out := complaint_create request db in
  (succeeded out = false /\ db_after out = db
   /\ forall u p, user request = Some u -> User.profile u = Some p ->
        method request = POST -> ComplaintForm (POST_data request) p db = None)
  \/ (succeeded out = true /\
      exists (u : User.t) (p : UserProfile.t) (c0 : Complaint.t) (e : AuditLog.t),
        user request = Some u /\ User.profile u = Some p /\ method request = POST
        /\ ComplaintForm (POST_data request) p db = Some c0
        /\ response out = to_detail (next_pk db)
        /\ entry_for ACTION_CREATED (next_pk db) u (UserProfile.tenant p) e
        /\ db_after out = mkDB (tenants db) (users db)
                            (<[next_pk db := created request db u p c0]> (complaints db))
                            (e :: audit_logs db) (S (next_pk db))).
Proof.
  cbn zeta. unfold complaint_create.
  destruct (user request) as [u|] eqn:Hu;
    [|left; split; [done|]; split; [done|]; intros; congruence].
  destruct (User.profile u) as [p|] eqn:Hp;
    [|left; split; [done|]; split; [done|]; intros u' p' [= <-] Hp'; congruence].
  destruct (method request) eqn:Hm;
    [left; split; [done|]; split; [done|]; intros; congruence|].
  destruct (ComplaintForm _ p db) as [c0|] eqn:Hform.
  2: { left. split; [done|]. split; [done|]. intros u' p' [= <-] Hp' _.
       rewrite Hp in Hp'. injection Hp' as <-. done. }
  right. split; [done|].
  exists u, p, c0,
    (AuditLog.mk (UserProfile.tenant p) (next_pk db) (Some (User.id u)) ACTION_CREATED
       ("Complaint created: " ++ Complaint.title (created request db u p c0)) "" ""
       (now request)).
  repeat split; done.
Qed.

Lemma created_fields (request : Request) (db : DB) (u : User.t) (p : UserProfile.t)
    (c0 : Complaint.t) :
  ComplaintForm (POST_data request) p db = Some c0 ->
  let c := created request db u p c0 in
  Complaint.tenant c = UserProfile.tenant p
  /\ Complaint.status c = STATUS_OPEN
  /\ Complaint.created_at c = now request
  /\ Complaint.resolved_at c = None /\ Complaint.closed_at c = None
  /\ Complaint.assigned_to c = None
  /\ Complaint.title c = Complaint.title c0
  /\ Complaint.description c = Complaint.description c0
  /\ Complaint.category c = Complaint.category c0
  /\ Complaint.priority c = Complaint.priority c0
  /\ Complaint.reference_number c
     = Complaint._generate_reference_number
         (Tenant.slug <$> tenants db !! UserProfile.tenant p) (uuid4 request)
  /\ (if UserProfile.is_consumer p
      then Complaint.submitted_by c = Some (User.id u) /\ Complaint.logged_by c = None
      else Complaint.submitted_by c = Complaint.submitted_by c0
           /\ Complaint.logged_by c = Some (User.id u)).
Proof.
  intros Hform. apply ComplaintForm_Some in Hform.
  destruct Hform as (_ & _ & _ & _ & _ & _ & Hst & Href & Hlog & Has & Hres & Hcl & _).
  cbn zeta. unfold created, save_new, Complaint.save. cbn.
  rewrite Hst, Href, Hres, Hcl, Has. cbn.
  repeat (split; [done|]).
  destruct (UserProfile.is_consumer p); cbn; by rewrite ?Hlog.
Qed.

Lemma created_stamped (request : Request) (db : DB) (u : User.t) (p : UserProfile.t)
    (c0 : Complaint.t) :
  ComplaintForm (POST_data request) p db = Some c0 ->
  stamped (created request db u p c0).
Proof.
  intros Hform.
  destruct (created_fields request db u p c0 Hform)
    as (_ & Hst & _ & _ & _ & _ & _ & _ & _ & _ & Href & _).
  unfold stamped. rewrite Href, Hst.
  split; [apply generated_nonempty|]. by split.
Qed.

Lemma saved_tenant_mutates (request : Request) (db : DB) (ms : list Mutation)
    (c : Complaint.t) :
  Complaint.tenant (saved request db (mutates ms c)) = Complaint.tenant c.
Proof. by destruct (saved_mutates_identity request db ms c) as ((? & _) & _). Qed.

Lemma call_shape (construct_instance : bool) (c : Call) (db : DB) :
  let db' := db_after (call construct_instance c db) in
  db' = db
  \/ exists p : UserProfile.t,
       actor_profile (call_request c) = Some p
       /\ (updates p db db' \/ inserts (UserProfile.tenant p) db db').
Proof.
  destruct c as [op request pk | request]; cbn [call call_request]; cbn zeta.
  - destruct (dispatch_step construct_instance op request pk db)
      as [? | (a & u & p & c0 & ms & _ & Hu & Hp & Hc & Ht & Hrec & Hcl)]; [by left|right].
    exists p. split; [unfold actor_profile; by rewrite Hu; cbn|]. left.
    destruct Hrec as (e & (_ & Hpk & _ & Hte) & Hdb).
    destruct (saved_mutates_identity request db ms c0) as (Hid & Hst).
    exists pk, c0, (saved request db (mutates ms c0)), e.
    refine (conj Hc (conj Ht (conj Hid (conj Hst (conj _ (conj Hpk (conj _ Hdb))))))).
    + intros Hclosed Hrole. rewrite saved_status. by apply Hcl.
    + by rewrite Hte, saved_tenant_mutates.
  - destruct (complaint_create_shape request db)
      as [(_ & ? & _) | (_ & u & p & c0 & e & Hu & Hp & _ & Hform & _ & He & Hdb)];
      [by left|right].
    exists p. split; [unfold actor_profile; by rewrite Hu; cbn|]. right.
    destruct (created_fields request db u p c0 Hform) as (Ht & _).
    exists (created request db u p c0), e.
    destruct He as (_ & Hpk & _ & Hte).
    exact (conj Ht (conj (created_stamped request db u p c0 Hform)
                      (conj Hpk (conj Hte Hdb)))).
Qed.

Lemma step_fresh (p : UserProfile.t) (db db' : DB) :
  fresh_pks db -> updates p db db' \/ inserts (UserProfile.tenant p) db db' ->
  fresh_pks db'.
Proof.
  intros Hfresh [(pk & c0 & c1 & e & Hc & _ & _ & _ & _ & _ & _ & ->)
                | (c1 & e & _ & _ & _ & _ & ->)]; intros pk' Hle; cbn in *.
  - rewrite lookup_insert_ne; [by apply Hfresh|].
    intros ->. rewrite (Hfresh pk' Hle) in Hc. done.
  - rewrite lookup_insert_ne by lia. apply Hfresh. lia.
Qed.

Lemma step_lookup (p : UserProfile.t) (db db' : DB) (pk : nat) (c : Complaint.t) :
  fresh_pks db -> updates p db db' \/ inserts (UserProfile.tenant p) db db' ->
  complaints db !! pk = Some c ->
  exists c' : Complaint.t,
    complaints db' !! pk = Some c'
    /\ same_identity c c'
    /\ (Complaint.tenant c <> UserProfile.tenant p -> c' = c)
    /\ (Complaint.status c = STATUS_CLOSED -> UserProfile.role p <> ROLE_ADMIN ->
        Complaint.status c' = STATUS_CLOSED).
Proof.
  intros Hfresh [(pk0 & c0 & c1 & e & Hc0 & Ht & Hid & _ & Hcl & _ & _ & ->)
                | (c1 & e & _ & _ & _ & _ & ->)] Hc; cbn.
  - destruct (decide (pk0 = pk)) as [->|Hne].
    + rewrite Hc in Hc0. injection Hc0 as <-.
      exists c1. rewrite lookup_insert_eq.
      split; [done|]. split; [done|]. split; [|done].
      intros Hne. by destruct Hne.
    + exists c. rewrite lookup_insert_ne by done.
      split; [done|]. split; [apply same_identity_refl|]. by split.
  - exists c. rewrite lookup_insert_ne.
    + split; [done|]. split; [apply same_identity_refl|]. by split.
    + intros <-. rewrite Hfresh in Hc; [done|lia].
Qed.

Lemma step_consistent (p : UserProfile.t) (db db' : DB) :
  consistent db -> updates p db db' \/ inserts (UserProfile.tenant p) db db' ->
  consistent db'.
Proof.
  intros (Hfresh & Hstamped & Haudit) Hstep.
  split; [by eapply step_fresh|]. split.
  - destruct Hstep as [(pk0 & c0 & c1 & e & _ & _ & _ & Hst & _ & _ & _ & ->)
                      | (c1 & e & _ & Hst & _ & _ & ->)];
      intros pk c; cbn; rewrite lookup_insert; case_decide; intros [= <-] || intros ?;
      eauto.
  - intros e' He'.
    assert (Hnew : exists e, audit_logs db' = e :: audit_logs db
                   /\ exists c, complaints db' !! AuditLog.complaint e = Some c
                                /\ Complaint.tenant c = AuditLog.tenant e).
    { destruct Hstep as [(pk0 & c0 & c1 & e & _ & Ht & (Ht1 & _) & _ & _ & Hpk & Hte & ->)
                        | (c1 & e & Ht & _ & Hpk & Hte & ->)]; cbn;
        (exists e; split; [done|]; exists c1; rewrite Hpk, lookup_insert_eq;
         split; [done|]; congruence). }
    destruct Hnew as (e & Hlog & Hnew). rewrite Hlog in He'.
    apply elem_of_cons in He' as [->|Hold]; [exact Hnew|].
    destruct (Haudit e' Hold) as (c & Hc & Hct).
    destruct (step_lookup p db db' _ c Hfresh Hstep Hc) as (c' & Hc' & (Ht' & _) & _).
    exists c'. split; [done|]. congruence.
Qed.

Lemma step_log (p : UserProfile.t) (db db' : DB) :
  updates p db db' \/ inserts (UserProfile.tenant p) db db' ->
  tenants db' = tenants db /\ users db' = users db /\ next_pk db <= next_pk db'
  /\ exists e : AuditLog.t,
       audit_logs db' = e :: audit_logs db /\ AuditLog.tenant e = UserProfile.tenant p.
Proof.
  intros [(pk0 & c0 & c1 & e & _ & _ & _ & _ & _ & _ & Hte & ->)
         | (c1 & e & _ & _ & _ & Hte & ->)]; cbn;
    (split; [done|]; split; [done|]; split; [lia|]; by exists e).
Qed.

(** ** Invariants of the store *)

(** X4.  Requests keep the store consistent: after any sequence of
    operations and creations on a consistent store, the pks from the
    sequence on are still unused, every stored complaint has a reference
    number, a [resolved_at] when it is Resolved and a [closed_at] when it is
    Closed, and every audit entry names a stored complaint of the tenant
    the entry records. *)
Theorem run_consistent (construct_instance : bool) (calls : list Call) (db : DB) :
  consistent db -> consistent (run construct_instance calls db).
Proof.
  revert db. induction calls as [|c calls IH]; intros db Hcons; [done|].
  cbn [run fold_left]. apply IH.
  destruct (call_shape construct_instance c db) as [-> | (p & _ & Hstep)]; [done|].
  by eapply step_consistent.
Qed.

(** X5.  Requests only ever add to the audit log and never write to the
    tenant or user tables: after any sequence of requests the old log is
    the tail of the new one, the two tables are the same, and the pk
    sequence has not gone back. *)
Theorem run_append_only (construct_instance : bool) (calls : list Call) (db : DB) :
  let db' := run construct_instance calls db in
  audit_logs db `suffix_of` audit_logs db'
  /\ tenants db' = tenants db /\ users db' = users db
  /\ next_pk db <= next_pk db'.
Proof.
  revert db. induction calls as [|c calls IH]; intros db; cbn zeta.
  - by repeat split.
  - cbn [run fold_left].
    specialize (IH (db_after (call construct_instance c db))). cbn zeta in IH.
    fold (run construct_instance calls (db_after (call construct_instance c db))) in *.
    destruct IH as (Hsuf & Hten & Hus & Hpk).
    destruct (call_shape construct_instance c db) as [Heq | (p & _ & Hstep)].
    + by rewrite Heq in *.
    + destruct (step_log p _ _ Hstep) as (Ht & Hu & Hn & e & Hlog & _).
      split; [|split; [congruence|split; [congruence|lia]]].
      etransitivity; [|exact Hsuf]. rewrite Hlog. by apply suffix_cons_r.
Qed.

(** X6.  Complaints are never deleted and keep their identity: after any
    sequence of requests on a store whose pks from the sequence on are
    unused, a complaint that was stored is still stored under its pk with
    the same tenant, title, description, category, priority, submitter,
    logger and creation time, the same reference number if it had one, and
    the same [resolved_at] and [closed_at] if they were set. *)
Theorem run_keeps_identity (construct_instance : bool) (calls : list Call) (db : DB)
    (pk : nat) (c : Complaint.t) :
  fresh_pks db -> complaints db !! pk = Some c ->
  exists c' : Complaint.t,
    complaints (run construct_instance calls db) !! pk = Some c' /\ same_identity c c'.
Proof.
  revert db c. induction calls as [|call0 calls IH]; intros db c Hfresh Hc.
  - exists c. split; [done|apply same_identity_refl].
  - cbn [run fold_left].
    destruct (call_shape construct_instance call0 db) as [Heq | (p & _ & Hstep)].
    + rewrite Heq. by apply IH.
    + destruct (step_lookup p _ _ pk c Hfresh Hstep Hc) as (c1 & Hc1 & Hid & _).
      destruct (IH _ c1 (step_fresh p _ _ Hfresh Hstep) Hc1) as (c' & Hc' & Hid').
      exists c'. split; [done|]. by eapply same_identity_trans.
Qed.

(** The demo data is a consistent store. *)
Lemma seed_complaint_inserts (db : DB) (data : SeedComplaint) :
  inserts (Tenant.id (seed_tenant data)) db (seed_complaint db data).
Proof.
  unfold inserts, seed_complaint, save_new, create_audit_log. cbn.
  eexists _, _. split; [|split; [|split; [|split; [|reflexivity]]]]; cbn; try done.
  pose proof (save_stamped
    (Tenant.slug <$> tenants db !! Tenant.id (seed_tenant data))
    (seed_uuid4 data) (seed_now data)
    (Complaint.mk (Tenant.id (seed_tenant data)) "" (seed_title data)
       "The description of the demo complaint." (seed_category data)
       (seed_priority data) (seed_status data)
       (Some (User.id (seed_submitted_by data))) None
       (User.id <$> seed_assigned_to data) (seed_resolution_notes data)
       0 0 None None)) as Hst.
  exact Hst.
Qed.

Lemma empty_consistent (ts : gmap nat Tenant.t) (us : gmap nat User.t) :
  consistent (empty_db ts us).
Proof.
  split; [|split].
  - intros pk _. apply lookup_empty.
  - intros pk c Hc. cbn in Hc. by rewrite lookup_empty in Hc.
  - intros e He. cbn in He. by apply elem_of_nil in He.
Qed.

Lemma seed_consistent : consistent seed_db.
Proof.
  unfold seed_db.
  assert (Hfold : forall l db, consistent db -> consistent (fold_left seed_complaint l db)).
  { induction l as [|data l IH]; intros db Hdb; [done|]. cbn. apply IH.
    apply (step_consistent (UserProfile.mk (Tenant.id (seed_tenant data)) ROLE_CONSUMER) db);
      [done|]. right. apply seed_complaint_inserts. }
  apply Hfold. apply (empty_consistent _ _).
Qed.

Lemma run_consistent_witness : consistent (run true demo_calls seed_db).
Proof. exact (run_consistent true demo_calls seed_db seed_consistent). Defined.

Lemma run_keeps_identity_witness :
  exists c' : Complaint.t,
    complaints (run true demo_calls seed_db) !! 4 = Some c'
    /\ Complaint.reference_number c' = "ACM-F47AC10B"
    /\ Complaint.closed_at c' = Some 104.
Proof.
  edestruct (run_keeps_identity true demo_calls seed_db 4) as (c' & Hc' & Hid).
  - exact (proj1 seed_consistent).
  - vm_compute. reflexivity.
  - exists c'. split; [exact Hc'|].
    destruct Hid as (_ & _ & _ & _ & _ & _ & _ & _ & Href & _ & Hcl).
    split; [by apply Href|by apply Hcl].
Defined.

(** ** Tenants and roles over a run *)

(** X7.  Requests of one tenant do not reach the others: when every actor
    of a sequence of requests belongs to tenant [t], each complaint of any
    other tenant is stored afterwards exactly as before, and every audit
    entry that was added records tenant [t]. *)
Theorem run_tenant_isolation (construct_instance : bool) (calls : list Call)
    (db : DB) (t : nat) :
  fresh_pks db ->
  (forall c p, In c calls -> actor_profile (call_request c) = Some p ->
               UserProfile.tenant p = t) ->
  let db' := run construct_instance calls db in
  (forall pk c, complaints db !! pk = Some c -> Complaint.tenant c <> t ->
                complaints db' !! pk = Some c)
  /\ exists new : list AuditLog.t,
       audit_logs db' = (new ++ audit_logs db)%list
       /\ Forall (fun e => AuditLog.tenant e = t) new.
Proof.
  revert db. induction calls as [|call0 calls IH]; intros db Hfresh Hactors; cbn zeta.
  - split; [done|]. by exists [].
  - cbn [run fold_left].
    assert (Hrest : forall c p, In c calls -> actor_profile (call_request c) = Some p ->
                                UserProfile.tenant p = t)
      by (intros c p Hin; apply Hactors; by right).
    destruct (call_shape construct_instance call0 db) as [Heq | (p & Hp & Hstep)].
    + rewrite Heq. by apply IH.
    + assert (Ht : UserProfile.tenant p = t) by (apply (Hactors call0); [by left|done]).
      destruct (IH _ (step_fresh p _ _ Hfresh Hstep) Hrest) as (Hkeep & new & Hlog & Hnew).
      fold (run construct_instance calls (db_after (call construct_instance call0 db))) in *.
      split.
      * intros pk c Hc Hne. apply Hkeep; [|done].
        destruct (step_lookup p _ _ pk c Hfresh Hstep Hc) as (c' & Hc' & _ & Hsame & _).
        rewrite Hc'. f_equal. apply Hsame. congruence.
      * destruct (step_log p _ _ Hstep) as (_ & _ & _ & e & Hlog1 & Hte).
        exists (new ++ [e])%list. rewrite Hlog, Hlog1, <- app_assoc. split; [done|].
        apply Forall_app. split; [done|]. apply Forall_singleton. congruence.
Qed.

(** X8.  Without an administrator a Closed complaint stays Closed: after
    any sequence of requests none of whose actors has the admin role, a
    complaint that was Closed is still stored as Closed, with the same
    identity. *)
Theorem closed_stays_closed (construct_instance : bool) (calls : list Call)
    (db : DB) (pk : nat) (c : Complaint.t) :
  fresh_pks db ->
  (forall c p, In c calls -> actor_profile (call_request c) = Some p ->
               UserProfile.role p <> ROLE_ADMIN) ->
  complaints db !! pk = Some c -> Complaint.status c = STATUS_CLOSED ->
  exists c' : Complaint.t,
    complaints (run construct_instance calls db) !! pk = Some c'
    /\ Complaint.status c' = STATUS_CLOSED /\ same_identity c c'.
Proof.
  revert db c. induction calls as [|call0 calls IH]; intros db c Hfresh Hactors Hc Hcl.
  - exists c. split; [done|]. split; [done|apply same_identity_refl].
  - cbn [run fold_left].
    assert (Hrest : forall c p, In c calls -> actor_profile (call_request c) = Some p ->
                                UserProfile.role p <> ROLE_ADMIN)
      by (intros c1 p Hin; apply Hactors; by right).
    destruct (call_shape construct_instance call0 db) as [Heq | (p & Hp & Hstep)].
    + rewrite Heq. by apply IH.
    + assert (Hrole : UserProfile.role p <> ROLE_ADMIN)
        by (apply (Hactors call0); [by left|done]).
      destruct (step_lookup p _ _ pk c Hfresh Hstep Hc) as (c1 & Hc1 & Hid & _ & Hkeep).
      destruct (IH _ c1 (step_fresh p _ _ Hfresh Hstep) Hrest Hc1 (Hkeep Hcl Hrole))
        as (c' & Hc' & Hcl' & Hid').
      exists c'. split; [done|]. split; [done|]. by eapply same_identity_trans.
Qed.

Ltac each_call H :=
  repeat (destruct H as [<-|H]; [intros [= <-]; cbn; try done|]); destruct H.

Lemma run_tenant_isolation_witness :
  exists c5 : Complaint.t,
    complaints seed_db !! 5 = Some c5 /\ Complaint.tenant c5 = 2
    /\ complaints (run true demo_calls seed_db) !! 5 = Some c5
    /\ exists new : list AuditLog.t,
         audit_logs (run true demo_calls seed_db) = (new ++ audit_logs seed_db)%list
         /\ Forall (fun e => AuditLog.tenant e = 1) new.
Proof.
  destruct (run_tenant_isolation true demo_calls seed_db 1) as (Hkeep & Hnew).
  - exact (proj1 seed_consistent).
  - intros c p Hin. each_call Hin.
  - eexists. split; [vm_compute; reflexivity|]. split; [reflexivity|].
    split; [|exact Hnew].
    apply Hkeep; [vm_compute; reflexivity|]. cbn. discriminate.
Defined.

Lemma closed_stays_closed_witness :
  exists c' : Complaint.t,
    complaints (run true staff_calls seed_db) !! 4 = Some c'
    /\ Complaint.status c' = STATUS_CLOSED.
Proof.
  edestruct (closed_stays_closed true staff_calls seed_db 4) as (c' & Hc' & Hcl & _).
  - exact (proj1 seed_consistent).
  - intros c p Hin. each_call Hin.
  - vm_compute. reflexivity.
  - reflexivity.
  - exists c'. split; [exact Hc'|exact Hcl].
Defined.

(** * Further properties of the views *)

(** ** Creating a complaint *)

(** X9.  A complaint that [complaint_create] stores gets the next pk, the
    tenant of the actor, status Open, no assignee and no resolved or closed
    timestamp, the instant of the request as creation time and a generated
    reference number; it has a title of 1 to 255 characters, a description
    and a category of at most 100 characters.  For a consumer the actor is
    the submitter; for staff the actor is the one who logged it and the
    submitter is nobody or a consumer of the actor's own tenant.  Every other
    complaint is stored as before. *)
Theorem create_stores_for_actor (request : Request) (db : DB) :
  let out := complaint_create request db in
  succeeded out = true ->
  exists (u : User.t) (p : UserProfile.t) (c : Complaint.t),
    user request = Some u /\ User.profile u = Some p
    /\ response out = to_detail (next_pk db)
    /\ complaints (db_after out) !! next_pk db = Some c
    /\ (forall pk', pk' <> next_pk db ->
          complaints (db_after out) !! pk' = complaints db !! pk')
    /\ Complaint.tenant c = UserProfile.tenant p
    /\ Complaint.status c = STATUS_OPEN
    /\ Complaint.assigned_to c = None
    /\ Complaint.resolved_at c = None /\ Complaint.closed_at c = None
    /\ Complaint.created_at c = now request
    /\ Complaint.reference_number c
       = Complaint._generate_reference_number
           (Tenant.slug <$> tenants db !! UserProfile.tenant p) (uuid4 request)
    /\ Complaint.title c <> "" /\ String.length (Complaint.title c) <= 255
    /\ Complaint.description c <> ""
    /\ String.length (Complaint.category c) <= 100
    /\ (if UserProfile.is_consumer p
        then Complaint.submitted_by c = Some (User.id u) /\ Complaint.logged_by c = None
        else Complaint.logged_by c = Some (User.id u)
             /\ (Complaint.submitted_by c = None
                 \/ exists (u' : User.t) (k : nat) (p' : UserProfile.t),
                      Complaint.submitted_by c = Some (User.id u')
                      /\ users db !! k = Some u' /\ User.profile u' = Some p'
                      /\ UserProfile.tenant p' = UserProfile.tenant p
                      /\ UserProfile.role p' = ROLE_CONSUMER)).
Proof.
  cbn zeta. intros Hs.
  destruct (complaint_create_shape request db)
    as [(Hf & _) | (_ & u & p & c0 & e & Hu & Hp & _ & Hform & Hresp & _ & Hdb)];
    [congruence|].
  destruct (created_fields request db u p c0 Hform)
    as (Ht & Hst & Hcr & Hres & Hcl & Has & Hti & Hde & Hca & _ & Href & Hpeople).
  destruct (ComplaintForm_Some _ _ _ _ Hform)
    as (Htitle & Hdesc & _ & _ & Hlen1 & Hlen2 & _ & _ & _ & _ & _ & _ & _ & Hsub).
  apply clean_required_text_Some in Htitle as (Htitle & _).
  apply clean_required_text_Some in Hdesc as (Hdesc & _).
  exists u, p, (created request db u p c0).
  split; [done|]. split; [done|]. split; [done|].
  split; [rewrite Hdb; apply lookup_insert_eq|].
  split; [intros pk' Hne; rewrite Hdb; by apply lookup_insert_ne|].
  rewrite Hti, Hde, Hca.
  repeat (split; [done|]).
  destruct (UserProfile.is_consumer p) eqn:Hcons; [done|].
  destruct Hpeople as (Hsb & Hlb). split; [done|]. rewrite Hsb.
  destruct Hsub as [Hnone | (_ & u' & _ & Hsome & Hin)]; [by left|right].
  apply users_with_role_elem in Hin as (k & p' & Hk & Hp' & Ht' & Hr').
  exists u', k, p'. repeat (split; [done|]).
  destruct Hr' as [<-|[]]. done.
Qed.

Lemma create_stores_for_actor_witness :
  exists c : Complaint.t,
    complaints (db_after (complaint_create on_behalf seed_db)) !! 6 = Some c
    /\ Complaint.tenant c = 1 /\ Complaint.status c = STATUS_OPEN.
Proof.
  destruct (create_stores_for_actor on_behalf seed_db)
    as (u & p & c & Hu & Hp & _ & Hc & _ & Ht & Hst & _).
  - vm_compute. reflexivity.
  - exists c. split; [exact Hc|].
    injection Hu as <-. injection Hp as <-. split; [exact Ht|exact Hst].
Defined.

Lemma lstrip_blank (s : string) : blank s = true -> lstrip s = "".
Proof.
  induction s as [|c s IH]; cbn; [done|].
  intros H. apply andb_true_iff in H as [Hc Hs]. rewrite Hc. by apply IH.
Qed.

Lemma clean_required_text_blank (v : option string) :
  blank_field v = true -> clean_required_text v = None.
Proof.
  destruct v as [raw|]; cbn; [|done]. intros Hb.
  unfold strip. by rewrite (lstrip_blank raw Hb).
Qed.

(** X10.  A complaint needs a title and a description: when the posted
    title or description is missing, empty or white space only, the form is
    shown again and nothing is stored, neither a complaint nor an audit
    entry. *)
Theorem create_needs_title_and_description (request : Request) (db : DB)
    (u : User.t) (p : UserProfile.t) :
  user request = Some u -> User.profile u = Some p ->
  blank_field (post_title (POST_data request)) = true
  \/ blank_field (post_description (POST_data request)) = true ->
  complaint_create request db
  = reply (Render "core/complaint_form.html" (FormContext "Submit New Complaint")) db.
Proof.
  intros Hu Hp Hblank. unfold complaint_create. rewrite Hu, Hp.
  destruct (method request); [done|].
  unfold ComplaintForm.
  destruct Hblank as [Hb|Hb]; rewrite (clean_required_text_blank _ Hb); [done|].
  by destruct (clean_required_text (post_title (POST_data request))).
Qed.

Lemma create_needs_title_and_description_witness :
  db_after (complaint_create
              (request_of consumer1 POST
                 (mkPost None None None (Some "   ") (Some "It broke.") None
                    (Some "low") None)) seed_db) = seed_db.
Proof.
  rewrite (create_needs_title_and_description _ seed_db consumer1
             (UserProfile.mk 1 ROLE_CONSUMER)).
  - reflexivity.
  - reflexivity.
  - reflexivity.
  - left. reflexivity.
Defined.

(** ** Assignment and resolution notes *)

(** X11.  A complaint is only ever assigned to a support user or manager of
    the actor's own tenant: after a successful assignment the assignee of
    the stored complaint is the posted user, that user is in the user table
    with a profile of the actor's tenant, which is the tenant of the
    complaint, and with the role support or manager. *)
Theorem assign_targets_tenant_staff (request : Request) (pk : nat) (db : DB) :
  let out := complaint_assign request pk db in
  succeeded out = true ->
  exists (u a : User.t) (p pa : UserProfile.t) (k : nat) (c' : Complaint.t),
    user request = Some u /\ User.profile u = Some p
    /\ complaints (db_after out) !! pk = Some c'
    /\ Complaint.assigned_to c' = Some (User.id a)
    /\ post_assigned_to (POST_data request) = Some (User.id a)
    /\ users db !! k = Some a /\ User.profile a = Some pa
    /\ UserProfile.tenant pa = UserProfile.tenant p
    /\ Complaint.tenant c' = UserProfile.tenant p
    /\ (UserProfile.role pa = ROLE_SUPPORT \/ UserProfile.role pa = ROLE_MANAGER).
Proof.
  cbn zeta. intros Hs.
  destruct (complaint_assign_spec request pk db)
    as [(Hf & _) | (_ & u & p & c & a & Hacc & Hrec)]; [congruence|].
  destruct Hacc as (Hu & Hp & _ & Hg & _ & Hform).
  apply get_object_or_404_Some in Hg as [Hc Ht].
  destruct (recorded_lookup _ _ _ _ _ _ Hrec) as (Hl & _).
  unfold AssignmentForm in Hform.
  destruct (post_assigned_to (POST_data request)) as [apk|] eqn:Hpost; [|done].
  apply clean_user_choice_Some in Hform as [Hin <-].
  apply users_with_role_elem in Hin as (k & pa & Hk & Hpa & Hta & Hra).
  exists u, a, p, pa, k, (saved request db (assigned a c)).
  split; [done|]. split; [done|]. split; [done|]. split.
  { unfold assigned. cbn. by destruct (status_eqb _ _). }
  split; [done|]. split; [done|]. split; [done|]. split; [done|]. split.
  { unfold assigned. cbn. by destruct (status_eqb _ _). }
  destruct Hra as [<-|[<-|[]]]; eauto.
Qed.

Lemma assign_targets_tenant_staff_witness :
  exists c' : Complaint.t,
    complaints (db_after (complaint_assign
                            (request_of helpdesk1 POST (post_of_assignee 4)) 2 seed_db)) !! 2
    = Some c'
    /\ Complaint.assigned_to c' = Some 4.
Proof.
  destruct (assign_targets_tenant_staff
              (request_of helpdesk1 POST (post_of_assignee 4)) 2 seed_db)
    as (u & a & p & pa & k & c' & _ & _ & Hc' & Has & Hpost & _).
  - vm_compute. reflexivity.
  - exists c'. split; [exact Hc'|]. rewrite Has. f_equal.
    cbn in Hpost. by injection Hpost.
Defined.

(** X12.  Adding resolution notes changes the notes and nothing else of the
    lifecycle: after a successful request the stored complaint has the
    posted notes without the surrounding white space, which are not empty,
    and the status and the assignee it had. *)
Theorem add_resolution_keeps_status (request : Request) (pk : nat) (db : DB) :
  let out := complaint_add_resolution request pk db in
  succeeded out = true ->
  exists (c c' : Complaint.t) (raw : string),
    complaints db !! pk = Some c
    /\ complaints (db_after out) !! pk = Some c'
    /\ post_resolution_notes (POST_data request) = Some raw
    /\ Complaint.resolution_notes c' = strip raw
    /\ Complaint.resolution_notes c' <> ""
    /\ Complaint.status c' = Complaint.status c
    /\ Complaint.assigned_to c' = Complaint.assigned_to c
    /\ same_identity c c'.
Proof.
  cbn zeta. intros Hs.
  destruct (complaint_add_resolution_spec request pk db)
    as [(Hf & _) | (_ & u & p & c & notes & Hacc & Hrec)]; [congruence|].
  destruct Hacc as (_ & _ & _ & Hg & _ & Hform).
  apply get_object_or_404_Some in Hg as [Hc _].
  destruct (recorded_lookup _ _ _ _ _ _ Hrec) as (Hl & _).
  apply clean_required_text_Some in Hform as (Hne & raw & Hraw & ->).
  exists c, (saved request db (Complaint.set_resolution_notes (strip raw) c)), raw.
  split; [done|]. split; [done|]. split; [done|]. split; [done|].
  split; [done|]. split; [done|]. split; [done|].
  apply (saved_mutates_identity request db [SetResolutionNotes (strip raw)] c).
Qed.

Lemma add_resolution_keeps_status_witness :
  exists c' : Complaint.t,
    complaints (db_after (complaint_add_resolution
                            (request_of support1 POST (post_of_notes " Rebooted. "))
                            1 seed_db)) !! 1 = Some c'
    /\ Complaint.resolution_notes c' = "Rebooted."
    /\ Complaint.status c' = STATUS_IN_PROGRESS.
Proof.
  destruct (add_resolution_keeps_status
              (request_of support1 POST (post_of_notes " Rebooted. ")) 1 seed_db)
    as (c & c' & raw & Hc & Hc' & Hraw & Hnotes & _ & Hst & _).
  - vm_compute. reflexivity.
  - exists c'. split; [exact Hc'|].
    cbn in Hraw. injection Hraw as <-.
    split; [exact Hnotes|]. rewrite Hst.
    assert (Hlook : complaints seed_db !! 1 = Some c) by exact Hc.
    vm_compute in Hlook. by injection Hlook as <-.
Defined.

(** ** The detail page *)

(** X13.  The detail page shows only what the actor may see: when it is
    rendered, the complaint is the one stored under the pk and belongs to
    the actor's tenant; a consumer sees it only as its submitter; the
    history holds at most 20 entries, all from the audit log and all about
    this complaint; and the staff list holds only support users and
    managers of the actor's tenant.  The store is never changed. *)
Theorem detail_shows_own_tenant (request : Request) (pk : nat) (db : DB)
    (template : string) (context : Context) :
  response (complaint_detail request pk db) = Render template context ->
  db_after (complaint_detail request pk db) = db
  /\ exists (u : User.t) (p : UserProfile.t) (c : Complaint.t)
            (audit : list AuditLog.t) (staff : list User.t)
            (can_assign can_update can_resolve can_close : bool),
       context = DetailContext c audit staff can_assign can_update can_resolve can_close
       /\ user request = Some u /\ User.profile u = Some p
       /\ complaints db !! pk = Some c
       /\ Complaint.tenant c = UserProfile.tenant p
       /\ (UserProfile.role p = ROLE_CONSUMER ->
           Complaint.submitted_by c = Some (User.id u))
       /\ length audit <= 20
       /\ (forall e, In e audit -> In e (audit_logs db) /\ AuditLog.complaint e = pk)
       /\ (forall a, In a staff ->
           exists pa, User.profile a = Some pa
                      /\ UserProfile.tenant pa = UserProfile.tenant p
                      /\ (UserProfile.role pa = ROLE_SUPPORT
                          \/ UserProfile.role pa = ROLE_MANAGER))
       /\ (can_close = true ->
           UserProfile.role p = ROLE_CONSUMER
           /\ Complaint.submitted_by c = Some (User.id u)).
Proof.
  intros Hresp. split; [apply complaint_detail_reads|].
  revert Hresp. unfold complaint_detail, login_required.
  destruct (user request) as [u|] eqn:Hu; [|done].
  destruct (User.profile u) as [p|] eqn:Hp; [|done].
  destruct (get_object_or_404 db pk (UserProfile.tenant p)) as [c|] eqn:Hg; [|done].
  apply get_object_or_404_Some in Hg as [Hc Ht].
  destruct (UserProfile.is_consumer p && negb (submitted_by_is c u)) eqn:Hown; [done|].
  cbn. intros [= <- <-].
  eexists u, p, c, _, _, _, _, _, _. split; [reflexivity|].
  split; [done|]. split; [done|]. split; [done|]. split; [done|].
  assert (Hcons : UserProfile.role p = ROLE_CONSUMER ->
                  Complaint.submitted_by c = Some (User.id u)).
  { intros Hrole. unfold UserProfile.is_consumer, submitted_by_is in Hown.
    rewrite Hrole in Hown. cbn in Hown.
    apply negb_false_iff in Hown. by apply bool_decide_eq_true in Hown. }
  split; [exact Hcons|]. split.
  { rewrite length_take. lia. }
  split.
  { intros e He. apply list_elem_of_In, subseteq_take, list_elem_of_In in He.
    apply filter_In in He as [He Hpk]. by apply Nat.eqb_eq in Hpk. }
  split.
  { intros a Ha. apply users_with_role_elem in Ha as (k & pa & _ & Hpa & Hta & Hra).
    exists pa. split; [done|]. split; [done|].
    destruct Hra as [<-|[<-|[]]]; eauto. }
  intros Hclose. apply andb_true_iff in Hclose as [Hc1 Hc2].
  split.
  - unfold UserProfile.is_consumer in Hc1.
    destruct (UserProfile.role p); cbn in Hc1; congruence.
  - unfold submitted_by_is in Hc2. by apply bool_decide_eq_true in Hc2.
Qed.

Lemma detail_shows_own_tenant_witness :
  exists context : Context,
    response (complaint_detail (request_of consumer2 GET no_post) 3 seed_db)
    = Render "core/complaint_detail.html" context
    /\ db_after (complaint_detail (request_of consumer2 GET no_post) 3 seed_db) = seed_db.
Proof.
  eexists. split; [vm_compute; reflexivity|].
  eapply (detail_shows_own_tenant (request_of consumer2 GET no_post) 3 seed_db).
  vm_compute. reflexivity.
Defined.

(** X14.  The forms the detail page offers are the ones the views accept:
    for every role the flag for the status form equals the decision of the
    gate of [complaint_update_status], which admits everybody but
    consumers, and the flag for the assignment form equals the decision of
    the gate of [complaint_assign]. *)
Theorem detail_flags_match_gates (p : UserProfile.t) :
  UserProfile.is_staff_member p = passes ["helpdesk"; "support"; "manager"; "admin"] p
  /\ UserProfile.is_staff_member p = negb (UserProfile.is_consumer p)
  /\ (UserProfile.is_helpdesk p || UserProfile.is_manager p || UserProfile.is_admin p)
     = passes ["helpdesk"; "manager"; "admin"] p.
Proof.
  unfold passes, UserProfile.is_staff_member, UserProfile.is_consumer,
    UserProfile.is_helpdesk, UserProfile.is_manager, UserProfile.is_admin.
  by destruct (UserProfile.role p).
Qed.

(** ** The decorators *)

(** X15.  Behind [login_required] and [role_required] a view runs only for
    a logged-in user whose profile has one of the allowed roles, and then
    its outcome is returned as it is.  Everybody else is turned away with
    the store untouched and no message: the anonymous user with the
    redirect to the login page (the 403 "Authentication required." of
    [role_required] is never the answer), a user without profile or with
    another role with a 403. *)
Theorem gated_view_runs_for_allowed (allowed : list string) (view_func : View)
    (request : Request) (pk : nat) (db : DB) :
  let out := login_required (role_required allowed view_func) request pk db in
  (exists (u : User.t) (p : UserProfile.t),
     user request = Some u /\ User.profile u = Some p
     /\ In (role_value (UserProfile.role p)) allowed
     /\ out = view_func request pk db)
  \/ (db_after out = db /\ messages out = []
      /\ response out <> HttpResponseForbidden "Authentication required."
      /\ (user request = None /\ response out = Redirect "login" None
          \/ (exists u, user request = Some u /\ User.profile u = None
                        /\ response out
                           = HttpResponseForbidden "User profile not configured.")
          \/ (exists u p, user request = Some u /\ User.profile u = Some p
                          /\ ~ In (role_value (UserProfile.role p)) allowed
                          /\ response out
                             = HttpResponseForbidden
                                 "You do not have permission to perform this action."))).
Proof.
  cbn zeta. unfold login_required, role_required.
  destruct (user request) as [u|] eqn:Hu.
  2: { right. repeat (split; [done|]). by left. }
  destruct (User.profile u) as [p|] eqn:Hp.
  2: { right. repeat (split; [done|]). right. left. by exists u. }
  destruct (existsb (String.eqb (role_value (UserProfile.role p))) allowed) eqn:Hin; cbn.
  - left. exists u, p. repeat (split; [done|]). split; [|done].
    apply existsb_exists in Hin as (r & Hr & Heq).
    apply String.eqb_eq in Heq. by subst.
  - right. repeat (split; [done|]). right. right. exists u, p.
    repeat (split; [done|]). split; [|done].
    intros Hr. assert (Htrue : existsb (String.eqb (role_value (UserProfile.role p))) allowed = true).
    { apply existsb_exists. exists (role_value (UserProfile.role p)).
      split; [done|]. apply String.eqb_refl. }
    congruence.
Qed.

(** ** The list of complaints *)

Lemma all_complaints_In (db : DB) (r : Row) :
  In r (all_complaints db) <-> complaints db !! fst r = Some (snd r).
Proof.
  unfold all_complaints. rewrite <- list_elem_of_In.
  rewrite (merge_sort_Permutation newer (map_to_list (complaints db))).
  destruct r as [pk c]. apply elem_of_map_to_list.
Qed.

Lemma get_tenant_complaints_In (db : DB) (u : User.t) (r : Row) :
  In r (get_tenant_complaints db u) <->
  exists p, User.profile u = Some p
            /\ complaints db !! fst r = Some (snd r)
            /\ Complaint.tenant (snd r) = UserProfile.tenant p.
Proof.
  unfold get_tenant_complaints. destruct (User.profile u) as [p|].
  - rewrite filter_In, all_complaints_In, Nat.eqb_eq. split.
    + intros [? ?]. by exists p.
    + intros (p' & [= <-] & ? & ?). done.
  - split; [done|]. by intros (p & ? & _).
Qed.

Lemma is_consumer_role (p : UserProfile.t) :
  UserProfile.is_consumer p = true <-> UserProfile.role p = ROLE_CONSUMER.
Proof.
  unfold UserProfile.is_consumer. destruct (UserProfile.role p); cbn; split; congruence.
Qed.

Lemma visible_complaints_In (db : DB) (u : User.t) (p : UserProfile.t)
    (query : Query) (r : Row) :
  User.profile u = Some p ->
  In r (visible_complaints db u p query) <-> may_list db u p query r.
Proof.
  intros Hp. unfold visible_complaints, may_list.
  assert (Hbase : forall r, In r (get_tenant_complaints db u) <->
            complaints db !! fst r = Some (snd r)
            /\ Complaint.tenant (snd r) = UserProfile.tenant p).
  { intros r0. rewrite get_tenant_complaints_In. split.
    - intros (p' & Hp' & ? & ?). rewrite Hp in Hp'. by injection Hp' as <-.
    - intros [? ?]. by exists p. }
  set (l0 := get_tenant_complaints db u) in *. clearbody l0.
  set (l1 := if UserProfile.is_consumer p then filter_submitted_by u l0 else l0).
  assert (H1 : In r l1 <-> In r l0 /\ (UserProfile.role p = ROLE_CONSUMER ->
                                        Complaint.submitted_by (snd r) = Some (User.id u))).
  { subst l1. destruct (UserProfile.is_consumer p) eqn:Hcons.
    - apply is_consumer_role in Hcons. unfold filter_submitted_by, submitted_by_is.
      rewrite filter_In, bool_decide_eq_true. tauto.
    - split; [|tauto]. intros Hin. split; [done|]. intros Hrole.
      apply is_consumer_role in Hrole. congruence. }
  clearbody l1.
  set (l2 := match truthy (q_status query) with
             | Some v => filter_status v l1 | None => l1 end).
  assert (H2 : In r l2 <-> In r l1 /\ (forall v, truthy (q_status query) = Some v ->
                 status_value (Complaint.status (snd r)) = v)).
  { subst l2. destruct (truthy (q_status query)) as [v|].
    - unfold filter_status. rewrite filter_In, String.eqb_eq. split.
      + intros [? ?]. split; [done|]. by intros v' [= <-].
      + intros [? Hv]. split; [done|]. by apply Hv.
    - split; [|tauto]. intros ?. by split. }
  clearbody l2.
  set (l3 := match truthy (q_priority query) with
             | Some v => filter_priority v l2 | None => l2 end).
  assert (H3 : In r l3 <-> In r l2 /\ (forall v, truthy (q_priority query) = Some v ->
                 priority_value (Complaint.priority (snd r)) = v)).
  { subst l3. destruct (truthy (q_priority query)) as [v|].
    - unfold filter_priority. rewrite filter_In, String.eqb_eq. split.
      + intros [? ?]. split; [done|]. by intros v' [= <-].
      + intros [? Hv]. split; [done|]. by apply Hv.
    - split; [|tauto]. intros ?. by split. }
  clearbody l3.
  assert (H4 : In r (match truthy (q_search query) with
                     | Some v => filter_search v l3 | None => l3 end)
               <-> In r l3 /\ (forall v, truthy (q_search query) = Some v ->
                     icontains (Complaint.reference_number (snd r)) v
                     || icontains (Complaint.title (snd r)) v
                     || icontains (Complaint.description (snd r)) v = true)).
  { destruct (truthy (q_search query)) as [v|].
    - unfold filter_search. rewrite filter_In. split.
      + intros [? ?]. split; [done|]. by intros v' [= <-].
      + intros [? Hv]. split; [done|]. by apply Hv.
    - split; [|tauto]. intros ?. by split. }
  rewrite H4, H3, H2, H1, Hbase. tauto.
Qed.

Lemma page_objects_In {A : Type} (per_page number : nat) (l : list A) (x : A) :
  In x (page_objects per_page number l) -> In x l.
Proof.
  unfold page_objects. rewrite <- !list_elem_of_In. intros Hin.
  apply subseteq_take in Hin. apply list_elem_of_lookup in Hin as (i & Hi).
  rewrite lookup_drop in Hi. by eapply list_elem_of_lookup_2.
Qed.

Lemma num_pages_pos (count : nat) : 1 <= num_pages count 10.
Proof.
  unfold num_pages. apply Nat.div_le_lower_bound; lia.
Qed.

Lemma page_number_range (pages : nat) (number : option Z) :
  1 <= pages -> 1 <= page_number pages number <= pages.
Proof.
  intros Hpos. unfold page_number. destruct number as [z|]; [|lia].
  destruct (Z.ltb_spec z 1); cbn; [lia|].
  destruct (Z.ltb_spec (Z.of_nat pages) z); lia.
Qed.

(** X16.  The list shows a user only complaints of the user's own tenant,
    and a consumer only the consumer's own: every row of the page is a
    stored complaint that passes the tenant, the submitter check for a
    consumer and the filters given; a page holds at most 10 rows and its
    number lies between 1 and the number of pages. *)
Theorem list_shows_own_tenant (request : Request) (query : Query) (db : DB)
    (context : ListContext) :
  complaint_list request query db = ListPage context ->
  exists (u : User.t) (p : UserProfile.t),
    user request = Some u /\ User.profile u = Some p
    /\ length (page_obj context) <= 10
    /\ 1 <= page_obj_number context <= page_obj_num_pages context
    /\ forall r, In r (page_obj context) -> may_list db u p query r.
Proof.
  unfold complaint_list.
  destruct (user request) as [u|] eqn:Hu; [|done].
  destruct (User.profile u) as [p|] eqn:Hp; [|done].
  intros [= <-]. exists u, p. cbn.
  split; [done|]. split; [done|]. split.
  { unfold page_objects. rewrite length_take. lia. }
  split; [apply page_number_range, num_pages_pos|].
  intros r Hr. apply page_objects_In in Hr.
  by apply (visible_complaints_In db u p query r Hp).
Qed.

Lemma list_shows_own_tenant_witness :
  exists context : ListContext,
    complaint_list (request_of consumer1 GET no_post)
      (mkQuery (Some "open") None None None) seed_db = ListPage context
    /\ (fst <$> page_obj context) = [2].
Proof.
  eexists. split; [vm_compute; reflexivity|].
  destruct (list_shows_own_tenant (request_of consumer1 GET no_post)
              (mkQuery (Some "open") None None None) seed_db
              (mkListContext 1 1 _ (Some "open") None "") ltac:(vm_compute; reflexivity))
    as (_ & _ & _).
  reflexivity.
Defined.

Lemma page_objects_lookup {A : Type} (l : list A) (i : nat) (x : A) :
  l !! i = Some x ->
  page_objects 10 (i / 10 + 1) l !! (i mod 10) = Some x
  /\ i / 10 + 1 <= num_pages (length l) 10.
Proof.
  intros Hi. pose proof (lookup_lt_Some _ _ _ Hi) as Hlt. split.
  - unfold page_objects.
    rewrite lookup_take_lt by (apply Nat.mod_upper_bound; lia).
    rewrite lookup_drop.
    replace ((i / 10 + 1 - 1) * 10 + i mod 10) with i; [done|].
    pose proof (Nat.div_mod_eq i 10). lia.
  - unfold num_pages.
    replace (Nat.max 1 (length l) + 10 - 1) with (length l - 1 + 1 * 10) by lia.
    rewrite Nat.div_add by lia.
    pose proof (Nat.Div0.div_le_mono i (length l - 1) 10). lia.
Qed.

(** X17.  Paging hides nothing: every complaint the actor may list under a
    query is on one of the pages, that is, there is a page number between 1
    and the number of pages for which [complaint_list] shows it. *)
Theorem list_pages_cover (request : Request) (query : Query) (db : DB)
    (u : User.t) (p : UserProfile.t) (r : Row) :
  user request = Some u -> User.profile u = Some p ->
  may_list db u p query r ->
  exists (n : nat) (context : ListContext),
    complaint_list request (set_page (Z.of_nat n) query) db = ListPage context
    /\ page_obj_number context = n
    /\ 1 <= n <= page_obj_num_pages context
    /\ In r (page_obj context).
Proof.
  intros Hu Hp Hmay.
  apply (visible_complaints_In db u p query r Hp) in Hmay.
  apply list_elem_of_In, list_elem_of_lookup in Hmay as (i & Hi).
  destruct (page_objects_lookup _ i r Hi) as (Hpage & Hle).
  set (vis := visible_complaints db u p query) in *.
  set (n := i / 10 + 1) in *.
  assert (Hn1 : 1 <= n) by (subst n; lia).
  clearbody n.
  assert (Hnum : page_number (num_pages (length vis) 10) (Some (Z.of_nat n)) = n).
  { unfold page_number.
    destruct (Z.ltb_spec (Z.of_nat n) 1); [lia|]. cbn [orb].
    destruct (Z.ltb_spec (Z.of_nat (num_pages (length vis) 10)) (Z.of_nat n)); lia. }
  exists n, (mkListContext n (num_pages (length vis) 10) (page_objects 10 n vis)
               (q_status query) (q_priority query) (default "" (q_search query))).
  split.
  { unfold complaint_list. rewrite Hu, Hp.
    change (visible_complaints db u p (set_page (Z.of_nat n) query)) with vis.
    change (q_page (set_page (Z.of_nat n) query)) with (Some (Z.of_nat n)).
    by rewrite Hnum. }
  split; [done|]. split; [cbn [page_obj_num_pages]; lia|]. cbn [page_obj].
  apply list_elem_of_In. by eapply list_elem_of_lookup_2.
Qed.

Lemma list_pages_cover_witness :
  exists (n : nat) (context : ListContext),
    complaint_list (request_of manager1 GET no_post)
      (set_page (Z.of_nat n) (mkQuery None None (Some "invoice") None)) seed_db
    = ListPage context
    /\ In 2 (fst <$> page_obj context).
Proof.
  edestruct (list_pages_cover (request_of manager1 GET no_post)
               (mkQuery None None (Some "invoice") None) seed_db manager1
               (UserProfile.mk 1 ROLE_MANAGER))
    as (n & context & Hlist & _ & _ & Hin).
  - reflexivity.
  - reflexivity.
  - instantiate (1 := (2, _)). split; [vm_compute; reflexivity|].
    split; [reflexivity|]. split; [discriminate|].
    split; [discriminate|]. split; [discriminate|].
    intros v [= <-]. vm_compute. reflexivity.
  - exists n, context. split; [exact Hlist|].
    apply in_map_iff. eexists. split; [|exact Hin]. reflexivity.
Defined.

(** *** Newest first *)

#[local] Instance newer_total : Total newer.
Proof. intros x y. unfold newer. lia. Qed.

#[local] Instance newer_trans : Transitive newer.
Proof. intros x y z. unfold newer. lia. Qed.

Lemma StronglySorted_filter_bool {A : Type} (R : relation A) (f : A -> bool) (l : list A) :
  StronglySorted R l -> StronglySorted R (List.filter f l).
Proof.
  induction 1 as [|x l Hl IH Hx]; cbn; [constructor|].
  destruct (f x); [|done]. constructor; [done|].
  apply Forall_forall. intros y Hy.
  apply list_elem_of_In, filter_In in Hy as [Hy _].
  rewrite Forall_forall in Hx. by apply Hx, list_elem_of_In.
Qed.

Lemma StronglySorted_page {A : Type} (R : relation A) (n k : nat) (l : list A) :
  StronglySorted R l -> StronglySorted R (take n (drop k l)).
Proof.
  intros Hl. rewrite <- (take_drop k l) in Hl.
  apply StronglySorted_app_1_r in Hl.
  rewrite <- (take_drop n (drop k l)) in Hl.
  by apply StronglySorted_app_1_l in Hl.
Qed.

Lemma visible_complaints_sorted (db : DB) (u : User.t) (p : UserProfile.t)
    (query : Query) :
  StronglySorted newer (visible_complaints db u p query).
Proof.
  unfold visible_complaints, get_tenant_complaints, filter_submitted_by,
    filter_status, filter_priority, filter_search.
  assert (H0 : StronglySorted newer (all_complaints db))
    by (apply StronglySorted_merge_sort; apply _).
  destruct (User.profile u); [|destruct (UserProfile.is_consumer p);
    destruct (truthy (q_status query)); destruct (truthy (q_priority query));
    destruct (truthy (q_search query)); cbn; constructor].
  destruct (UserProfile.is_consumer p); destruct (truthy (q_status query));
    destruct (truthy (q_priority query)); destruct (truthy (q_search query));
    repeat apply StronglySorted_filter_bool; exact H0.
Qed.

(** X18.  The list is in the order of creation, newest first: on every
    page each row was created no earlier than all the rows after it. *)
Theorem list_newest_first (request : Request) (query : Query) (db : DB)
    (context : ListContext) :
  complaint_list request query db = ListPage context ->
  StronglySorted (fun x y : Row => Complaint.created_at (snd y)
                                   <= Complaint.created_at (snd x))
    (page_obj context).
Proof.
  unfold complaint_list.
  destruct (user request) as [u|]; [|done].
  destruct (User.profile u) as [p|]; [|done].
  intros [= <-]. cbn. unfold page_objects.
  apply (StronglySorted_page newer), visible_complaints_sorted.
Qed.

Lemma list_newest_first_witness :
  exists context : ListContext,
    complaint_list (request_of manager1 GET no_post) (mkQuery None None None None) seed_db
    = ListPage context
    /\ (fst <$> page_obj context) = [4; 3; 2; 1].
Proof.
  eexists. split; [vm_compute; reflexivity|].
  pose proof (list_newest_first (request_of manager1 GET no_post)
                (mkQuery None None None None) seed_db _ ltac:(vm_compute; reflexivity))
    as Hsorted.
  reflexivity.
Defined.

(** ** The dashboard *)

Lemma count_status_partition (l : list Row) :
  length l = count_status STATUS_OPEN l + count_status STATUS_IN_PROGRESS l
             + count_status STATUS_RESOLVED l + count_status STATUS_CLOSED l.
Proof.
  unfold count_status, filter_status. cbn [status_value].
  induction l as [|r l IH]; [done|].
  cbn [List.filter length].
  destruct (Complaint.status (snd r));
    cbn [status_value String.eqb Ascii.eqb Bool.eqb andb length]; lia.
Qed.

Lemma exclude_closed_length (f : Row -> bool) (l : list Row) :
  length (exclude_closed (List.filter f l)) + count_status STATUS_CLOSED l <= length l.
Proof.
  unfold exclude_closed, count_status, filter_status. cbn [status_value].
  induction l as [|r l IH]; [done|].
  cbn [List.filter length].
  destruct (f r); cbn [List.filter length];
    destruct (Complaint.status (snd r));
    cbn [status_value String.eqb Ascii.eqb Bool.eqb andb negb length List.filter]; lia.
Qed.

Lemma exclude_closed_In (l : list Row) (r : Row) :
  In r (exclude_closed l) <-> In r l /\ Complaint.status (snd r) <> STATUS_CLOSED.
Proof.
  unfold exclude_closed. rewrite filter_In.
  destruct (Complaint.status (snd r)); cbn; intuition congruence.
Qed.

(** X19.  The numbers of the dashboard add up.  For staff the total of the
    tenant's complaints is the sum of the open, in-progress, resolved and
    closed ones, the unassigned ones are among those not closed, at most 10
    recent complaints are shown, all of the tenant, and only a support user
    gets the list of own assignments, at most 5, none of them closed.  A
    consumer gets the numbers of the consumer's own complaints only, and at
    most 5 of them. *)
Theorem dashboard_counts (request : Request) (db : DB)
    (p : UserProfile.t) (tenant : nat) (context : DashboardContext) :
  dashboard request db = DashboardPage p tenant context ->
  exists u : User.t,
    user request = Some u /\ User.profile u = Some p /\ tenant = UserProfile.tenant p
    /\ match context with
       | StaffDashboard total open_ in_progress resolved closed unassigned recent mine =>
           UserProfile.role p <> ROLE_CONSUMER
           /\ total = open_ + in_progress + resolved + closed
           /\ unassigned + closed <= total
           /\ length recent <= 10
           /\ (forall r, In r recent ->
                 complaints db !! fst r = Some (snd r)
                 /\ Complaint.tenant (snd r) = tenant)
           /\ (is_Some mine <-> UserProfile.role p = ROLE_SUPPORT)
           /\ (forall l, mine = Some l ->
                 length l <= 5
                 /\ forall r, In r l ->
                      Complaint.assigned_to (snd r) = Some (User.id u)
                      /\ Complaint.status (snd r) <> STATUS_CLOSED
                      /\ Complaint.tenant (snd r) = tenant)
       | ConsumerDashboard mine total open_ resolved =>
           UserProfile.role p = ROLE_CONSUMER
           /\ open_ + resolved <= total
           /\ length mine <= 5
           /\ (forall r, In r mine ->
                 complaints db !! fst r = Some (snd r)
                 /\ Complaint.tenant (snd r) = tenant
                 /\ Complaint.submitted_by (snd r) = Some (User.id u))
       end.
Proof.
  unfold dashboard.
  destruct (user request) as [u|] eqn:Hu; [|done].
  destruct (User.profile u) as [p0|] eqn:Hp; [|done].
  intros [= <- <- <-]. exists u. split; [done|]. split; [done|]. split; [done|].
  assert (Hbase : forall r, In r (get_tenant_complaints db u) ->
            complaints db !! fst r = Some (snd r)
            /\ Complaint.tenant (snd r) = UserProfile.tenant p0).
  { intros r Hr. apply get_tenant_complaints_In in Hr as (p' & Hp' & ? & ?).
    rewrite Hp in Hp'. by injection Hp' as <-. }
  set (l := get_tenant_complaints db u) in *. clearbody l.
  destruct (UserProfile.is_consumer p0) eqn:Hcons.
  - apply is_consumer_role in Hcons. split; [done|].
    pose proof (count_status_partition (filter_submitted_by u l)) as Hsum.
    split; [lia|]. split; [rewrite length_take; lia|].
    intros r Hr. apply list_elem_of_In, subseteq_take, list_elem_of_In in Hr.
    unfold filter_submitted_by, submitted_by_is in Hr.
    apply filter_In in Hr as [Hr Hsub]. apply bool_decide_eq_true in Hsub.
    destruct (Hbase r Hr). done.
  - split.
    { intros Hrole. apply is_consumer_role in Hrole. congruence. }
    split; [apply count_status_partition|].
    split; [apply exclude_closed_length|].
    split; [rewrite length_take; lia|].
    split.
    { intros r Hr. apply list_elem_of_In, subseteq_take, list_elem_of_In in Hr.
      by apply Hbase. }
    split.
    { unfold UserProfile.is_support.
      destruct (UserProfile.role p0); cbn; split;
        intros H; try done; try (by destruct H); eauto. }
    intros l' Hmine.
    destruct (UserProfile.is_support p0); [|done]. injection Hmine as <-.
    split; [rewrite length_take; lia|].
    intros r Hr. apply list_elem_of_In, subseteq_take, list_elem_of_In in Hr.
    apply exclude_closed_In in Hr as [Hr Hcl].
    apply filter_In in Hr as [Hr Has]. apply bool_decide_eq_true in Has.
    destruct (Hbase r Hr). done.
Qed.

Lemma dashboard_counts_witness :
  exists recent mine,
    dashboard (request_of support1 GET no_post) seed_db
    = DashboardPage (UserProfile.mk 1 ROLE_SUPPORT) 1
        (StaffDashboard 4 1 1 1 1 1 recent mine).
Proof.
  eexists _, _.
  assert (H : dashboard (request_of support1 GET no_post) seed_db
              = DashboardPage (UserProfile.mk 1 ROLE_SUPPORT) 1
                  (StaffDashboard 4 1 1 1 1 1 _ _)) by (vm_compute; reflexivity).
  destruct (dashboard_counts _ _ _ _ _ H) as (u & _ & _ & _ & _ & Hsum & _).
  exact H.
Defined.

(** ** More on runs of requests *)

Lemma call_audit (construct_instance : bool) (c : Call) (db : DB) :
  let out := call construct_instance c db in
  (succeeded out = false /\ db_after out = db)
  \/ (succeeded out = true
      /\ exists e, audit_logs (db_after out) = e :: audit_logs db).
Proof.
  destruct c as [op request pk | request]; cbn [call]; cbn zeta.
  - destruct (dispatch_spec construct_instance op request pk db)
      as [? | (Hs & a & u & c' & _ & _ & e & _ & ->)]; [by left|right].
    split; [done|]. by exists e.
  - destruct (complaint_create_spec request db)
      as [? | (Hs & u & p & c' & e & _ & _ & _ & _ & _ & _ & _ & _ & ->)]; [by left|right].
    split; [done|]. by exists e.
Qed.

(** X20.  The audit log counts the successful requests: after any sequence
    of requests the log is longer by exactly the number of requests that
    reported success; a request that was turned away or failed validation
    leaves no entry. *)
Theorem run_audit_count (construct_instance : bool) (calls : list Call) (db : DB) :
  length (audit_logs (run construct_instance calls db))
  = length (audit_logs db) + successes construct_instance calls db.
Proof.
  revert db. induction calls as [|c calls IH]; intros db; cbn [run fold_left successes].
  - lia.
  - fold (run construct_instance calls (db_after (call construct_instance c db))).
    rewrite IH. cbn zeta.
    destruct (call_audit construct_instance c db) as [(Hs & Hdb) | (Hs & e & Hlog)];
      rewrite Hs.
    + rewrite Hdb at 1. lia.
    + rewrite Hlog. cbn. lia.
Qed.

(** X21.  A request without a configured actor changes nothing, and neither
    does a GET: for an anonymous user, for a user without profile and for
    every request whose method is GET, each operation and the creation
    return the store as it was. *)
Theorem read_only_requests (construct_instance : bool) (c : Call) (db : DB) :
  actor_profile (call_request c) = None \/ method (call_request c) = GET ->
  db_after (call construct_instance c db) = db
  /\ succeeded (call construct_instance c db) = false.
Proof.
  intros Hro.
  assert (Hno : forall u p, user (call_request c) = Some u -> User.profile u = Some p ->
                            method (call_request c) = POST -> False).
  { intros u p Hu Hp Hm. destruct Hro as [Hnone | Hget]; [|congruence].
    unfold actor_profile in Hnone. rewrite Hu in Hnone. cbn in Hnone. congruence. }
  destruct c as [op request pk | request]; cbn [call call_request] in *.
  - destruct op; cbn [dispatch].
    + destruct (complaint_detail_reads request pk db). done.
    + destruct (complaint_update_status_spec construct_instance request pk db)
        as [(? & ? & _) | (_ & u & p & c & s & Hacc & _)]; [done|].
      destruct Hacc as (Hu & Hp & _ & _ & Hm & _). destruct (Hno u p Hu Hp Hm).
    + destruct (complaint_assign_spec request pk db)
        as [(? & ? & _) | (_ & u & p & c & a & Hacc & _)]; [done|].
      destruct Hacc as (Hu & Hp & _ & _ & Hm & _). destruct (Hno u p Hu Hp Hm).
    + destruct (complaint_add_resolution_spec request pk db)
        as [(? & ? & _) | (_ & u & p & c & n & Hacc & _)]; [done|].
      destruct Hacc as (Hu & Hp & _ & _ & Hm & _). destruct (Hno u p Hu Hp Hm).
    + destruct (complaint_close_spec request pk db)
        as [(? & ? & _) | (_ & u & p & c & Hacc & _)]; [done|].
      destruct Hacc as (Hu & Hp & _ & _ & _ & Hm). destruct (Hno u p Hu Hp Hm).
  - destruct (complaint_create_shape request db)
      as [(? & ? & _) | (_ & u & p & c0 & e & Hu & Hp & Hm & _)]; [done|].
    destruct (Hno u p Hu Hp Hm).
Qed.

Lemma read_only_requests_witness :
  db_after (call true (CallOperation OpClose (request_of consumer2 GET no_post) 3) seed_db)
  = seed_db.
Proof.
  apply (read_only_requests true
           (CallOperation OpClose (request_of consumer2 GET no_post) 3) seed_db).
  right. reflexivity.
Defined.

(** ** Status values *)

(** X22.  The status form accepts exactly the four stored values, and
    reading a stored value gives back its status; for any other posted
    value, or none, the status-change view stores nothing and queues no
    message, whoever asks. *)
Theorem status_values_round_trip (construct_instance : bool) (v : option string) :
  (forall s : Status, clean_status v = Some s <-> v = Some (status_value s))
  /\ (clean_status v = None ->
      forall (request : Request) (pk : nat) (db : DB),
        post_status (POST_data request) = v ->
        db_after (complaint_update_status construct_instance request pk db) = db
        /\ messages (complaint_update_status construct_instance request pk db) = []).
Proof.
  split.
  - intros s. split.
    + destruct v as [raw|]; [|done]. unfold clean_status.
      destruct (List.find _ STATUS_CHOICES) as [ch|] eqn:Hfind; [|done].
      intros [= <-]. apply find_some in Hfind as [_ Heq].
      apply String.eqb_eq in Heq. by rewrite Heq.
    + intros ->. by destruct s.
  - intros Hnone request pk db Hpost.
    unfold complaint_update_status, login_required, role_required.
    destruct (user request) as [u|]; [|done].
    destruct (User.profile u) as [p|]; [|done].
    destruct (negb _); [done|].
    destruct (get_object_or_404 db pk (UserProfile.tenant p)); [|done].
    destruct (method request); [done|].
    unfold ComplaintStatusForm. by rewrite Hpost, Hnone.
Qed.

Lemma status_values_round_trip_witness :
  clean_status (Some "in_progress") = Some STATUS_IN_PROGRESS
  /\ db_after (complaint_update_status true
                 (request_of admin POST (post_of_status "done")) 2 seed_db) = seed_db.
Proof.
  destruct (status_values_round_trip true (Some "in_progress")) as (Hrt & _).
  split; [by apply Hrt|].
  destruct (status_values_round_trip true (Some "done")) as (_ & Hbad).
  by destruct (Hbad eq_refl (request_of admin POST (post_of_status "done")) 2 seed_db eq_refl).
Defined.

(** ** Filters of the list *)

(** X23.  Filtering the list by a status value that no status has gives an
    empty page, not an error: the value is compared with the stored one. *)
Theorem list_unknown_status_empty (request : Request) (query : Query) (db : DB)
    (v : string) (context : ListContext) :
  truthy (q_status query) = Some v ->
  (forall s : Status, status_value s <> v) ->
  complaint_list request query db = ListPage context ->
  page_obj context = [] /\ page_obj_number context = 1
  /\ page_obj_num_pages context = 1.
Proof.
  intros Hv Hunknown. unfold complaint_list.
  destruct (user request) as [u|]; [|done].
  destruct (User.profile u) as [p|] eqn:Hp; [|done].
  intros [= <-]. cbn [page_obj page_obj_number page_obj_num_pages].
  assert (Hempty : visible_complaints db u p query = []).
  { destruct (visible_complaints db u p query) as [|r l] eqn:Hvis; [done|].
    assert (Hin : In r (visible_complaints db u p query)) by (rewrite Hvis; by left).
    apply (visible_complaints_In db u p query r Hp) in Hin.
    destruct Hin as (_ & _ & _ & Hst & _).
    destruct (Hunknown _ (Hst v Hv)). }
  rewrite Hempty. cbn [length].
  change (num_pages 0 10) with 1.
  split; [unfold page_objects; by rewrite drop_nil, take_nil|]. split; [|done].
  pose proof (page_number_range 1 (q_page query) (le_n 1)).
  change (page_number 1 (q_page query) = 1). lia.
Qed.

Lemma list_unknown_status_empty_witness :
  exists context : ListContext,
    complaint_list (request_of manager1 GET no_post)
      (mkQuery (Some "pending") None None (Some 7%Z)) seed_db = ListPage context
    /\ page_obj context = [].
Proof.
  eexists. split; [vm_compute; reflexivity|].
  eapply (list_unknown_status_empty (request_of manager1 GET no_post)
            (mkQuery (Some "pending") None None (Some 7%Z)) seed_db "pending").
  - reflexivity.
  - intros []; discriminate.
  - vm_compute. reflexivity.
Defined.
